(** * The CSV codec of the quote application (04-core-code/utils/csv-parser.js)

    A shallow embedding of [dataToCsv], [csvToData] and [csvToData_OldFormat]
    and the properties of the codec.

    Conventions of the embedding:
    - a JS string is a [string]; each character is one code unit (the model
      covers code units below 256, for which [trim] and [toLowerCase] are
      written out in full);
    - a JS number is a [number]: NaN, an infinity, or a signed decimal
      [m * 10^e] kept exactly.  A double is stood for by the decimal it
      prints as and a numeral by the decimal it denotes; the two agree on the
      numbers a double holds as written ([heldByDouble]: at most 15
      significant digits, well inside the normal range).  Beyond them the
      rounding of binary64 is not part of the model: JS reads a longer
      numeral as the nearest double, a numeral below the smallest double as
      zero and one above the largest as an infinity, where the model keeps
      the decimal; and [toFixed] rounds the binary value of the double, so
      that JS may print another last digit than the model at a tie (1.005,
      a third decimal 5 with nothing after it) and from 10^13 on;
    - a JS value is a [value]; an object is a finite list of own data
      properties, looked up by name;
    - a JS exception is the outcome [Throw]; [try]/[catch] is [try_catch];
    - the two ambient things the parser reads are explicit arguments: the
      clock behind [Date.now()] and the global [initialState]. *)

From Stdlib Require Import ZArith NArith Ascii.
From stdpp Require Import base option list sorting gmap strings.

Local Open Scope N_scope.
Local Set Warnings "-register-all".

(* ===================================================================== *)
(** * Outcomes: normal completion or a thrown exception                    *)
(* ===================================================================== *)

Inductive outcome (A : Type) : Type :=
| Ret (a : A)
| Throw.
Arguments Ret {A} a.
Arguments Throw {A}.

Definition obind {A B} (m : outcome A) (f : A -> outcome B) : outcome B :=
  match m with
  | Ret a => f a
  | Throw => Throw
  end.

Notation "'let!' x ':=' m 'in' k" := (obind m (fun x => k))
  (at level 10, x name, m at level 100, k at level 200).

(** [try { m } catch (e) { h }] *)
Definition try_catch {A} (m : outcome A) (h : outcome A) : outcome A :=
  match m with
  | Ret a => Ret a
  | Throw => h
  end.

(** [xs.map(f)] for a callback that may throw; [i] is the index of the head. *)
Fixpoint mapM_from {A B} (f : A -> nat -> outcome B) (xs : list A) (i : nat)
  : outcome (list B) :=
  match xs with
  | [] => Ret []
  | x :: xs' =>
      let! y := f x i in
      let! ys := mapM_from f xs' (S i) in
      Ret (y :: ys)
  end.

(* ===================================================================== *)
(** * Strings                                                              *)
(* ===================================================================== *)

Module Str.

Definition code (c : ascii) : N := N_of_ascii c.

(** WhiteSpace and LineTerminator code units below 256: TAB, LF, VT, FF, CR,
    SP and NBSP. *)
Definition is_ws (c : ascii) : bool :=
  match code c with
  | 9 | 10 | 11 | 12 | 13 | 32 | 160 => true
  | _ => false
  end.

Definition nl : ascii := ascii_of_N 10.
Definition comma : ascii := ","%char.
Definition dquote : ascii := ascii_of_N 34.

Fixpoint trimStart (s : string) : string :=
  match s with
  | String c r => if is_ws c then trimStart r else s
  | EmptyString => EmptyString
  end.

Fixpoint trimEnd (s : string) : string :=
  match s with
  | String c r =>
      match trimEnd r with
      | EmptyString => if is_ws c then EmptyString else String c EmptyString
      | r' => String c r'
      end
  | EmptyString => EmptyString
  end.

(** [s.trim()] *)
Definition trim (s : string) : string := trimEnd (trimStart s).

(** [s.split(sep)] for a one-character separator: never the empty list. *)
Fixpoint split (sep : ascii) (s : string) : list string :=
  match s with
  | EmptyString => [EmptyString]
  | String c r =>
      if Ascii.eqb c sep then EmptyString :: split sep r
      else match split sep r with
           | w :: ws => String c w :: ws
           | [] => [String c EmptyString]
           end
  end.

(** [xs.join(sep)] *)
Fixpoint join (sep : ascii) (xs : list string) : string :=
  match xs with
  | [] => EmptyString
  | [x] => x
  | x :: xs' => x +:+ String sep (join sep xs')
  end.

(** [s.includes(c)] for a one-character needle. *)
Fixpoint has (c : ascii) (s : string) : bool :=
  match s with
  | EmptyString => false
  | String d r => Ascii.eqb d c || has c r
  end.

(** [s.startsWith(p)] *)
Fixpoint startsWith (p s : string) : bool :=
  match p, s with
  | EmptyString, _ => true
  | String a p', String b s' => Ascii.eqb a b && startsWith p' s'
  | String _ _, EmptyString => false
  end.

(** [s.includes(p)] *)
Fixpoint includes (p s : string) : bool :=
  startsWith p s ||
  match s with
  | EmptyString => false
  | String _ r => includes p r
  end.

(** [s.replace(/\n/g, ' ')] *)
Fixpoint replaceNl (s : string) : string :=
  match s with
  | EmptyString => EmptyString
  | String c r => String (if Ascii.eqb c nl then " "%char else c) (replaceNl r)
  end.

(** Lower-casing of one code unit below 256: A-Z, and the Latin-1 capitals
    192-222 without the multiplication sign 215. *)
Definition lower (c : ascii) : ascii :=
  let n := code c in
  if ((65 <=? n) && (n <=? 90)) || ((192 <=? n) && (n <=? 222) && negb (n =? 215))
  then ascii_of_N (n + 32) else c.

Fixpoint toLowerCase (s : string) : string :=
  match s with
  | EmptyString => EmptyString
  | String c r => String (lower c) (toLowerCase r)
  end.

Definition eqb (a b : string) : bool := bool_decide (a = b).

(** [xs.indexOf(x)]; [None] stands for -1. *)
Fixpoint indexOf (x : string) (xs : list string) : option nat :=
  match xs with
  | [] => None
  | y :: ys => if eqb y x then Some 0%nat else S <$> indexOf x ys
  end.

Definition isEmpty (s : string) : bool :=
  match s with EmptyString => true | _ => false end.

End Str.

Arguments Str.is_ws : simpl never.
Arguments Str.lower : simpl never.

(* ===================================================================== *)
(** * Numbers                                                              *)
(* ===================================================================== *)

(** A number value: NaN, an infinity, or the decimal [(-1)^neg * m * 10^e].
    The sign of zero is kept, as in JS.  The decimal is exact: the functions
    below read, print and round decimals, and are those of JS on the numbers
    that a double holds as written (for [toFixed2]: on those below 10^13,
    ties apart). *)
Inductive number : Type :=
| NaN
| Inf (neg : bool)
| Fin (neg : bool) (m : N) (e : Z).

Global Instance number_eq_dec : EqDecision number.
Proof. solve_decision. Defined.

Module Num.

(** ** Decimal digits *)

Definition digitChar (d : nat) : ascii := ascii_of_nat (48 + d).

Definition digitOf (c : ascii) : option nat :=
  let n := Str.code c in
  if (48 <=? n) && (n <=? 57) then Some (N.to_nat (n - 48)) else None.

Fixpoint digitsString (ds : list nat) : string :=
  match ds with
  | [] => EmptyString
  | d :: ds' => String (digitChar d) (digitsString ds')
  end.

(** The longest prefix of decimal digits, and what follows it. *)
Fixpoint spanDigits (s : string) : list nat * string :=
  match s with
  | EmptyString => ([], EmptyString)
  | String c r =>
      match digitOf c with
      | Some d => let '(ds, rest) := spanDigits r in (d :: ds, rest)
      | None => ([], s)
      end
  end.

(** Value of a digit sequence, most significant digit first. *)
Definition ofDigits (ds : list nat) : N :=
  fold_left (fun acc d => 10 * acc + N.of_nat d) ds 0.

Fixpoint toDigitsFuel (fuel : nat) (n : N) (acc : list nat) : list nat :=
  match fuel with
  | O => acc
  | S f =>
      if n <? 10 then N.to_nat n :: acc
      else toDigitsFuel f (n / 10) (N.to_nat (n mod 10) :: acc)
  end.

(** Decimal digits of [n], most significant first; [0] for zero. *)
Definition toDigits (n : N) : list nat :=
  toDigitsFuel (S (N.to_nat (N.log2 n))) n [].

Definition natString (n : nat) : string := digitsString (toDigits (N.of_nat n)).

(** Drops the zeros at the end of a digit sequence. *)
Fixpoint stripZeros (ds : list nat) : list nat :=
  match ds with
  | [] => []
  | d :: ds' =>
      match stripZeros ds' with
      | [] => if Nat.eqb d 0 then [] else [d]
      | r => d :: r
      end
  end.

(** ** Predicates *)

Definition isNaN (x : number) : bool :=
  match x with NaN => true | _ => false end.

Definition isZero (x : number) : bool :=
  match x with Fin _ 0 _ => true | _ => false end.

(** ToBoolean on a number. *)
Definition truthy (x : number) : bool := negb (isNaN x) && negb (isZero x).

(** [x === y] on numbers: numeric equality, NaN equal to nothing and the
    two zeros equal. *)
Definition eqb (x y : number) : bool :=
  match x, y with
  | Inf a, Inf b => Bool.eqb a b
  | Fin a m1 e1, Fin b m2 e2 =>
      let lo := Z.min e1 e2 in
      let v1 := (Z.of_N m1 * 10 ^ (e1 - lo))%Z in
      let v2 := (Z.of_N m2 * 10 ^ (e2 - lo))%Z in
      (v1 =? v2)%Z && ((v1 =? 0)%Z || Bool.eqb a b)
  | _, _ => false
  end.

Definition ofNat (n : nat) : number := Fin false (N.of_nat n) 0.

(** ** Number::toString *)

Definition zeros (n : nat) : list nat := replicate n 0%nat.

Definition expString (x : Z) : string :=
  String (if (x <? 0)%Z then "-"%char else "+"%char)
         (digitsString (toDigits (Z.abs_N x))).

(** The digits [ds] (no zero at the end, [k] of them) scaled so that the
    decimal point comes after [n] digits. *)
Definition positional (ds : list nat) (n : Z) : string :=
  let k := Z.of_nat (length ds) in
  if ((k <=? n) && (n <=? 21))%Z then
    digitsString (ds ++ zeros (Z.to_nat (n - k)))
  else if ((0 <? n) && (n <=? 21))%Z then
    digitsString (take (Z.to_nat n) ds) +:+
    String "."%char (digitsString (drop (Z.to_nat n) ds))
  else if ((-6 <? n) && (n <=? 0))%Z then
    String "0"%char (String "."%char (digitsString (zeros (Z.to_nat (- n)) ++ ds)))
  else
    match ds with
    | [d] => String (digitChar d) (String "e"%char (expString (n - 1)))
    | d :: ds' =>
        String (digitChar d) (String "."%char (digitsString ds'))
        +:+ String "e"%char (expString (n - 1))
    | [] => EmptyString
    end.

Definition toString (x : number) : string :=
  match x with
  | NaN => "NaN"
  | Inf false => "Infinity"
  | Inf true => "-Infinity"
  | Fin _ 0 _ => "0"
  | Fin neg m e =>
      let all := toDigits m in
      let ds := stripZeros all in
      let n := (Z.of_nat (length all) + e)%Z in
      (if neg then "-" else "") +:+ positional ds n
  end.

(** ** Number.prototype.toFixed(2) *)

(** [m * 10^e] in hundredths, the halfway case going up. *)
Definition hundredths (m : N) (e : Z) : N :=
  if (0 <=? e + 2)%Z then m * 10 ^ Z.to_N (e + 2)
  else let p := 10 ^ Z.to_N (- (e + 2)) in (2 * m + p) / (2 * p).

(** [10^21 <= m * 10^e] *)
Definition atLeast1e21 (m : N) (e : Z) : bool :=
  if (0 <=? e)%Z then 10 ^ 21 <=? m * 10 ^ Z.to_N e
  else 10 ^ (21 + Z.to_N (- e)) <=? m.

Definition padded3 (ds : list nat) : list nat :=
  zeros (3 - length ds) ++ ds.

Definition toFixed2 (x : number) : string :=
  match x with
  | NaN => "NaN"
  | Inf _ => toString x
  | Fin neg m e =>
      if atLeast1e21 m e then toString x
      else
        let ds := padded3 (toDigits (hundredths m e)) in
        let cut := (length ds - 2)%nat in
        (if neg && negb (m =? 0) then "-" else "") +:+
        digitsString (take cut ds) +:+ String "."%char (digitsString (drop cut ds))
  end.

(** ** parseInt(s, 10) and parseFloat(s) *)

(** An optional sign: whether it is a minus, and what follows it. *)
Definition spanSign (s : string) : bool * string :=
  match s with
  | String "-"%char r => (true, r)
  | String "+"%char r => (false, r)
  | _ => (false, s)
  end.

Definition parseInt (s : string) : number :=
  let '(neg, r) := spanSign (Str.trimStart s) in
  match spanDigits r with
  | ([], _) => NaN
  | (ds, _) => Fin neg (ofDigits ds) 0
  end.

(** The exponent part [e], [E] with an optional sign and at least one digit;
    0 when the text does not go on with one. *)
Definition spanExponent (s : string) : Z :=
  match s with
  | String c r =>
      if Ascii.eqb c "e"%char || Ascii.eqb c "E"%char then
        let '(neg, r') := spanSign r in
        match spanDigits r' with
        | ([], _) => 0%Z
        | (ds, _) =>
            if neg then (- Z.of_N (ofDigits ds))%Z else Z.of_N (ofDigits ds)
        end
      else 0%Z
  | EmptyString => 0%Z
  end.

(** The longest prefix that is a StrDecimalLiteral, as a number. *)
Definition parseFloat (s : string) : number :=
  let '(neg, r) := spanSign (Str.trimStart s) in
  if Str.startsWith "Infinity" r then Inf neg
  else
    let '(ip, r1) := spanDigits r in
    match r1 with
    | String "."%char r2 =>
        let '(fp, r3) := spanDigits r2 in
        match ip, fp with
        | [], [] => NaN
        | _, _ =>
            Fin neg (ofDigits (ip ++ fp))
                (spanExponent r3 - Z.of_nat (length fp))
        end
    | _ =>
        match ip with
        | [] => NaN
        | _ => Fin neg (ofDigits ip) (spanExponent r1)
        end
    end.

End Num.

Arguments Num.digitChar : simpl never.
Arguments Num.digitOf : simpl never.

(* ===================================================================== *)
(** * Values                                                               *)
(* ===================================================================== *)

(** A JS value as the serializer can receive it.  An object is the list of
    its own data properties (the first binding of a name is the one read); an
    array is the list of its elements. *)
Inductive value : Type :=
| VUndef
| VNull
| VBool (b : bool)
| VNum (x : number)
| VStr (s : string)
| VArr (xs : list value)
| VObj (fields : list (string * value)).

Module Js.

Definition isNullish (v : value) : bool :=
  match v with VUndef | VNull => true | _ => false end.

Definition isUndef (v : value) : bool :=
  match v with VUndef => true | _ => false end.

Definition isNull (v : value) : bool :=
  match v with VNull => true | _ => false end.

(** ToBoolean *)
Definition truthy (v : value) : bool :=
  match v with
  | VUndef | VNull => false
  | VBool b => b
  | VNum x => Num.truthy x
  | VStr s => negb (Str.isEmpty s)
  | VArr _ | VObj _ => true
  end.

(** [a || b] *)
Definition or (a b : value) : value := if truthy a then a else b.

Fixpoint assoc (k : string) (fields : list (string * value)) : option value :=
  match fields with
  | [] => None
  | (k', v) :: rest => if Str.eqb k' k then Some v else assoc k rest
  end.

(** The array index a property name denotes, if it is one. *)
Definition indexOfKey (k : string) : option nat :=
  match Num.spanDigits k with
  | (d :: ds, EmptyString) =>
      let n := N.to_nat (Num.ofDigits (d :: ds)) in
      if Str.eqb (Num.natString n) k then Some n else None
  | _ => None
  end.

(** [v[k]] on a value that is neither null nor undefined.  Own data
    properties and array elements are read; any other member (an inherited
    method, [length]) reads as [VUndef] here: the serializer looks up fixed
    data names only, except for the product key, whose result it uses for
    its own [items] property alone. *)
Definition get (v : value) (k : string) : value :=
  match v with
  | VObj fields => default VUndef (assoc k fields)
  | VArr xs =>
      match indexOfKey k with
      | Some i => default VUndef (xs !! i)
      | None => VUndef
      end
  | _ => VUndef
  end.

(** [v.k]: a TypeError on null and undefined. *)
Definition getProp (v : value) (k : string) : outcome value :=
  if isNullish v then Throw else Ret (get v k).

(** [v?.k] *)
Definition getOpt (v : value) (k : string) : value :=
  if isNullish v then VUndef else get v k.

(** [String(v)].  An array joins the strings of its elements with commas,
    null and undefined elements giving the empty string.  A plain object
    gives "[object Object]"; with an own [toString] property that is not a
    function the conversion has no method left to call and throws. *)
Fixpoint toString (v : value) : outcome string :=
  match v with
  | VUndef => Ret "undefined"
  | VNull => Ret "null"
  | VBool true => Ret "true"
  | VBool false => Ret "false"
  | VNum x => Ret (Num.toString x)
  | VStr s => Ret s
  | VArr xs =>
      let fix elems (xs : list value) : outcome (list string) :=
        match xs with
        | [] => Ret []
        | x :: xs' =>
            let! s := (if isNullish x then Ret EmptyString else toString x) in
            let! ss := elems xs' in
            Ret (s :: ss)
        end in
      let! ss := elems xs in
      Ret (Str.join Str.comma ss)
  | VObj fields =>
      match assoc "toString" fields with
      | Some _ => Throw
      | None => Ret "[object Object]"
      end
  end.

(** [xs.includes(i)] for the list of modified rows: an array compares its
    elements with the index; a string looks for the index as a substring;
    other values have no such method. *)
Definition includesIndex (v : value) (i : nat) : outcome bool :=
  match v with
  | VArr xs =>
      Ret (existsb (fun x => match x with
                             | VNum n => Num.eqb n (Num.ofNat i)
                             | _ => false
                             end) xs)
  | VStr s => Ret (Str.includes (Num.natString i) s)
  | _ => Throw
  end.

(** [v.toFixed(2)]: only numbers have the method. *)
Definition toFixed2 (v : value) : outcome string :=
  match v with
  | VNum x => Ret (Num.toFixed2 x)
  | _ => Throw
  end.

End Js.

(* ===================================================================== *)
(** * The serializer                                                       *)
(* ===================================================================== *)

Definition f3SnapshotKeys : list string :=
  ["quoteId"; "issueDate"; "dueDate";
   "customer.name"; "customer.address"; "customer.phone"; "customer.email"].

Definition f1SnapshotKeys : list string :=
  ["winder_qty"; "motor_qty"; "charger_qty"; "cord_qty";
   "remote_1ch_qty"; "remote_16ch_qty"; "dual_combo_qty"; "dual_slim_qty";
   "discountPercentage"].

(** [path.split('.').reduce((acc, key) =>
       (acc && acc[key] !== undefined) ? acc[key] : '', obj)]; no step of it
    throws, so the handler around it, which returns [''], is never entered. *)
Definition getNestedValue (obj : value) (path : string) : value :=
  fold_left
    (fun acc key =>
       if Js.truthy acc && negb (Js.isUndef (Js.get acc key))
       then Js.get acc key else VStr "")
    (Str.split "."%char path) obj.

(** Wraps a cell that holds a comma in double quotes. *)
Definition quoteCell (strValue : string) : string :=
  if Str.has Str.comma strValue
  then String Str.dquote strValue +:+ String Str.dquote EmptyString
  else strValue.

(** The callback of [projectValues.map]. *)
Definition projectCell (v : value) : outcome string :=
  let! s := Js.toString v in
  Ret (quoteCell (Str.replaceNl s)).

(** The callback of [f1SnapshotKeys.map]. *)
Definition f1Value (f1Snapshot : value) (key : string) : value :=
  let value := Js.get f1Snapshot key in
  if negb (Js.isNullish value) then value else VStr "".

(** The callback of [rowData.map]. *)
Definition itemCell (v : value) : outcome string :=
  let! s := Js.toString v in
  Ret (quoteCell s).

Definition itemHeaders : list string :=
  ["#"; "Width"; "Height"; "Type"; "Price";
   "Location"; "F-Name"; "F-Color"; "Over"; "O/I"; "L/R";
   "Dual"; "Chain"; "Winder"; "Motor"; "IsLF"].

(** The callback of [productData.items.map]: the row of an item with a width
    or a height, [None] (JS null) for the others. *)
Definition itemRow (lfModifiedRowIndexes : value) (item : value) (index : nat)
  : outcome (option string) :=
  let! width := Js.getProp item "width" in
  if Js.truthy width || Js.truthy (Js.get item "height") then
    let field k := Js.or (Js.get item k) (VStr "") in
    let! price := (if negb (Js.isNull (Js.get item "linePrice"))
             then Js.toFixed2 (Js.get item "linePrice")
             else Ret EmptyString) in
    let! isLf := Js.includesIndex lfModifiedRowIndexes index in
    let rowData :=
      [ VNum (Num.ofNat (index + 1)%nat);
        field "width"; field "height"; field "fabricType";
        VStr price;
        field "location"; field "fabric"; field "color"; field "over";
        field "oi"; field "lr"; field "dual"; field "chain"; field "winder";
        field "motor";
        VNum (Num.ofNat (if isLf : bool then 1 else 0)%nat) ] in
    let! cells := mapM_from (fun v _ => itemCell v) rowData 0 in
    Ret (Some (Str.join Str.comma cells))
  else Ret None.

Definition dataToCsv (quoteData : value) : outcome string :=
  let currentProductKey := Js.getOpt quoteData "currentProduct" in
  let! productData :=
    (let products := Js.getOpt quoteData "products" in
     if Js.isNullish products then Ret VUndef
     else let! key := Js.toString currentProductKey in Ret (Js.get products key)) in
  let lfModifiedRowIndexes :=
    Js.or (Js.getOpt (Js.getOpt quoteData "uiMetadata") "lfModifiedRowIndexes")
          (VArr []) in
  if negb (Js.truthy productData) || negb (Js.truthy (Js.get productData "items"))
  then Ret EmptyString
  else
    let projectHeaders := f3SnapshotKeys ++ f1SnapshotKeys in
    let f1Snapshot := Js.or (Js.get quoteData "f1Snapshot") (VObj []) in
    let! projectValues :=
      mapM_from (fun v _ => projectCell v)
        ([ Js.or (Js.get quoteData "quoteId") (VStr "");
           Js.or (Js.get quoteData "issueDate") (VStr "");
           Js.or (Js.get quoteData "dueDate") (VStr "");
           getNestedValue quoteData "customer.name";
           getNestedValue quoteData "customer.address";
           getNestedValue quoteData "customer.phone";
           getNestedValue quoteData "customer.email" ]
         ++ map (f1Value f1Snapshot) f1SnapshotKeys) 0 in
    let! itemRows :=
      match Js.get productData "items" with
      | VArr items =>
          let! rows := mapM_from (itemRow lfModifiedRowIndexes) items 0 in
          Ret (omap id rows)
      | _ => Throw
      end in
    Ret (Str.join Str.nl
           ([ Str.join Str.comma projectHeaders;
              Str.join Str.comma projectValues;
              EmptyString;
              Str.join Str.comma itemHeaders ]
            ++ itemRows)).

Definition sampleItem (w : N) : value :=
  VObj [("width", VNum (Fin false w 0)); ("linePrice", VNum (Fin false 1255 (-1)))].

Definition sampleQuote (items : list value) (lf : list nat) : value :=
  VObj [("currentProduct", VStr "rollerBlind");
        ("products", VObj [("rollerBlind", VObj [("items", VArr items)])]);
        ("uiMetadata",
         VObj [("lfModifiedRowIndexes", VArr (map (fun i => VNum (Num.ofNat i)) lf))])].

(* ===================================================================== *)
(** * The parsers                                                          *)
(* ===================================================================== *)

(** What the parsers store for a project cell: [finalValue]. *)
Inductive cell : Type :=
| CNum (x : number)
| CStr (s : string).

Global Instance cell_eq_dec : EqDecision cell.
Proof. solve_decision. Defined.

(** A parsed line item; [None] is JS null. *)
Record Item : Type := mkItem {
  itemId : string;
  width : option number;
  height : option number;
  fabricType : option string;
  linePrice : option number;
  location : string;
  fabric : string;
  color : string;
  over : string;
  oi : string;
  lr : string;
  dual : string;
  chain : option number;
  winder : string;
  motor : string
}.

(** [f3Data]: the [customer] object and the other own properties. *)
Record F3Data : Type := mkF3 {
  customer : gmap string cell;
  f3Fields : gmap string cell
}.

Record Parsed : Type := mkParsed {
  items : list Item;
  lfIndexes : list nat;
  f1Snapshot : gmap string cell;
  f3Data : F3Data
}.

(** [obj[key] = v] on a plain object and a primitive [v]: the name
    [__proto__] is the inherited accessor, which ignores a primitive. *)
Definition setProp (obj : gmap string cell) (key : string) (v : cell)
  : gmap string cell :=
  if Str.eqb key "__proto__" then obj else <[key := v]> obj.

(** ToString of an array element that may be missing. *)
Definition argString (o : option string) : string := default "undefined" o.

(** [parseInt(values[i], 10) || null] and [parseFloat(values[i]) || null] *)
Definition numberOrNull (x : number) : option number :=
  if Num.truthy x then Some x else None.

(** [values[i] || null] *)
Definition stringOrNull (o : option string) : option string :=
  match o with
  | Some s => if Str.isEmpty s then None else Some s
  | None => None
  end.

(** [values[i] || ''] *)
Definition stringOrEmpty (o : option string) : string := default "" o.

(** [isNaN(numValue) ? value : numValue] with [numValue = parseFloat(value)] *)
Definition finalValue (value : string) : cell :=
  let numValue := Num.parseFloat value in
  if Num.isNaN numValue then CStr value else CNum numValue.

(** The item literal of both parsers; [now] is the reading of [Date.now()]
    and [n] is [items.length]. *)
Definition parseItem (now : N) (n : nat) (values : list string) : Item :=
  {| itemId := "item-" +:+ Num.toString (Fin false now 0) +:+ "-"
               +:+ Num.toString (Num.ofNat n);
     width := numberOrNull (Num.parseInt (argString (values !! 1%nat)));
     height := numberOrNull (Num.parseInt (argString (values !! 2%nat)));
     fabricType := stringOrNull (values !! 3%nat);
     linePrice := numberOrNull (Num.parseFloat (argString (values !! 4%nat)));
     location := stringOrEmpty (values !! 5%nat);
     fabric := stringOrEmpty (values !! 6%nat);
     color := stringOrEmpty (values !! 7%nat);
     over := stringOrEmpty (values !! 8%nat);
     oi := stringOrEmpty (values !! 9%nat);
     lr := stringOrEmpty (values !! 10%nat);
     dual := stringOrEmpty (values !! 11%nat);
     chain := numberOrNull (Num.parseInt (argString (values !! 12%nat)));
     winder := stringOrEmpty (values !! 13%nat);
     motor := stringOrEmpty (values !! 14%nat) |}.

(** [items.push(item)] followed by the IsLF test, shared by both parsers. *)
Definition pushItem (clock : nat -> N) (isLfIndex : option nat)
    (values : list string) (items : list Item) (lfIndexes : list nat)
  : list Item * list nat :=
  let item := parseItem (clock (length items)) (length items) values in
  let items' := items ++ [item] in
  match isLfIndex with
  | Some i =>
      let isLf := Num.eqb (Num.parseInt (argString (values !! i))) (Fin false 1 0) in
      if isLf then (items', lfIndexes ++ [(length items' - 1)%nat])
      else (items', lfIndexes)
  | None => (items', lfIndexes)
  end.

(** The test that skips blank lines and footer lines. *)
Definition skipLine (trimmedLine : string) : bool :=
  Str.isEmpty trimmedLine
  || Str.startsWith "total" (Str.toLowerCase trimmedLine).

(** The callback of [itemDataLines.forEach] in [csvToData]. *)
Definition itemLineStep (clock : nat -> N) (isLfIndex : option nat)
    (st : list Item * list nat) (line : string) : list Item * list nat :=
  let trimmedLine := Str.trim line in
  if skipLine trimmedLine then st
  else
    let values := Str.split Str.comma trimmedLine in
    pushItem clock isLfIndex values st.1 st.2.

(** The callback of [projectHeaders.forEach] in [csvToData]; the state is
    [f1Snapshot] and [f3Data]. *)
Definition projectStep (projectValues : list string)
    (st : gmap string cell * F3Data) (header : string) (index : nat)
  : gmap string cell * F3Data :=
  match stringOrNull (projectValues !! index) with
  | None => st
  | Some value =>
      let final := finalValue value in
      if bool_decide (header ∈ f1SnapshotKeys) then
        (setProp st.1 header final, st.2)
      else if Str.startsWith "customer." header then
        let key := argString (Str.split "."%char header !! 1%nat) in
        (st.1, mkF3 (setProp (customer st.2) key final) (f3Fields st.2))
      else if bool_decide (header ∈ f3SnapshotKeys) then
        (st.1, mkF3 (customer st.2) (setProp (f3Fields st.2) header final))
      else st
  end.

(** [xs.forEach((x, index) => ...)] threading a state. *)
Fixpoint forEachFrom {A St} (f : St -> A -> nat -> St) (xs : list A) (i : nat)
    (s : St) : St :=
  match xs with
  | [] => s
  | x :: xs' => forEachFrom f xs' (S i) (f s x i)
  end.

(** The same with a callback that may throw. *)
Fixpoint forEachM {A St} (f : St -> A -> nat -> outcome St) (xs : list A)
    (i : nat) (s : St) : outcome St :=
  match xs with
  | [] => Ret s
  | x :: xs' => let! s' := f s x i in forEachM f xs' (S i) s'
  end.

(** [xs.findIndex(p)]; [None] stands for -1. *)
Fixpoint findIndex {A} (p : A -> bool) (xs : list A) : option nat :=
  match xs with
  | [] => None
  | x :: xs' => if p x then Some 0%nat else S <$> findIndex p xs'
  end.

Record LegacyState : Type := mkLegacy {
  lgItems : list Item;
  lgLfIndexes : list nat;
  lgF1Snapshot : gmap string cell
}.

(** The [snapshotKeys.forEach] of the first data line in
    [csvToData_OldFormat]: the columns named after snapshot keys.
    [snapshotIndices[key]] is [headers.indexOf(key)], except for the name
    [__proto__], which the object [snapshotIndices] cannot store. *)
Definition readSnapshotColumns (snapshotKeys headers values : list string)
    (f1Snapshot : gmap string cell) : gmap string cell :=
  fold_left
    (fun f1 key =>
       let colIndex :=
         if Str.eqb key "__proto__" then None else Str.indexOf key headers in
       match colIndex with
       | Some c =>
           match values !! c with
           | Some v => if Str.isEmpty v then f1 else setProp f1 key (finalValue v)
           | None => f1
           end
       | None => f1
       end)
    snapshotKeys f1Snapshot.

(** The callback of [dataLines.forEach] in [csvToData_OldFormat]. *)
Definition legacyLineStep (clock : nat -> N) (snapshotKeys : list string)
    (headers : list string) (isLfIndex : option nat)
    (st : LegacyState) (line : string) (index : nat) : outcome LegacyState :=
  let trimmedLine := Str.trim line in
  if skipLine trimmedLine then Ret st
  else
    let values := Str.split Str.comma trimmedLine in
    if bool_decide (values !! 0%nat = Some "F1_SNAPSHOT")
       && bool_decide (3 <= length values)%nat then
      let key := argString (values !! 1%nat) in
      let value := argString (values !! 2%nat) in
      (* f1Snapshot.hasOwnProperty(key): the method is the inherited one only
         while no own property of that name has been stored *)
      match lgF1Snapshot st !! "hasOwnProperty" with
      | Some _ => Throw
      | None =>
          match lgF1Snapshot st !! key with
          | Some _ =>
              Ret (mkLegacy (lgItems st) (lgLfIndexes st)
                     (setProp (lgF1Snapshot st) key (finalValue value)))
          | None => Ret st
          end
      end
    else
      let f1 :=
        if Nat.eqb index 0
        then readSnapshotColumns snapshotKeys headers values (lgF1Snapshot st)
        else lgF1Snapshot st in
      let '(items', lf') :=
        pushItem clock isLfIndex values (lgItems st) (lgLfIndexes st) in
      Ret (mkLegacy items' lf' f1).

(** [csvToData_OldFormat].  The function reads
    [Object.keys(initialState.quoteData.f1Snapshot)], and the module neither
    declares nor imports [initialState]: the argument [initialState] is what
    that expression evaluates to where the function runs, [None] when it
    throws (the name is unbound), [Some keys] otherwise. *)
Definition csvToData_OldFormat (initialState : option (list string))
    (clock : nat -> N) (csvString : string) : outcome (option Parsed) :=
  let lines := Str.split Str.nl (Str.trim csvString) in
  match findIndex (fun line => negb (Str.isEmpty (Str.trim line))
                               && Str.startsWith "#,Width" line) lines with
  | None => Ret None
  | Some headerIndex =>
      let headerLine := default "" (lines !! headerIndex) in
      let headers := Str.split Str.comma headerLine in
      match initialState with
      | None => Throw
      | Some snapshotKeys =>
          let dataLines := drop (headerIndex + 1) lines in
          let isLfIndex := Str.indexOf "IsLF" headers in
          let! st := forEachM (legacyLineStep clock snapshotKeys headers isLfIndex)
                       dataLines 0 (mkLegacy [] [] ∅) in
          Ret (Some (mkParsed (lgItems st) (lgLfIndexes st) (lgF1Snapshot st)
                       (mkF3 ∅ ∅)))
      end
  end.

(** The canonical branch of [csvToData], from the four leading lines on. *)
Definition parseCanonical (clock : nat -> N)
    (projectHeaderLine projectDataLine itemHeaderLine : string)
    (itemDataLines : list string) : Parsed :=
  let projectHeaders := Str.split Str.comma projectHeaderLine in
  let projectValues := Str.split Str.comma projectDataLine in
  let '(f1, f3) :=
    forEachFrom (projectStep projectValues) projectHeaders 0 (∅, mkF3 ∅ ∅) in
  let itemHeaders := Str.split Str.comma itemHeaderLine in
  let isLfIndex := Str.indexOf "IsLF" itemHeaders in
  let '(items, lfIndexes) :=
    fold_left (itemLineStep clock isLfIndex) itemDataLines ([], []) in
  mkParsed items lfIndexes f1 f3.

(** [csvToData]; the two [console.error] calls of the handlers only log. *)
Definition csvToData (initialState : option (list string))
    (clock : nat -> N) (csvString : string) : outcome (option Parsed) :=
  try_catch
    (let lines := Str.split Str.nl (Str.trim csvString) in
     match lines with
     | projectHeaderLine :: projectDataLine :: _ :: itemHeaderLine :: itemDataLines =>
         Ret (Some (parseCanonical clock projectHeaderLine projectDataLine
                      itemHeaderLine itemDataLines))
     | _ => (* lines.length < 4 *)
         csvToData_OldFormat initialState clock csvString
     end)
    (try_catch (csvToData_OldFormat initialState clock csvString) (Ret None)).

(* ===================================================================== *)
(** * Notions used in the statements                                       *)
(* ===================================================================== *)

(** The lines [csvToData] and [csvToData_OldFormat] work on. *)
Definition linesOf (csvString : string) : list string :=
  Str.split Str.nl (Str.trim csvString).

(** A text is built from its lines. *)
Definition text (lines : list string) : string := Str.join Str.nl lines.

(** A line that [csvToData_OldFormat] takes for the legacy header. *)
Definition isLegacyHeader (line : string) : bool :=
  negb (Str.isEmpty (Str.trim line)) && Str.startsWith "#,Width" line.

(** A clock that ticks once per reading. *)
Definition tickingClock (start : N) : nat -> N := fun k => start + N.of_nat k.

(** A record whose only item has a width and no [linePrice] property. *)
Definition quoteMissingLinePrice : value :=
  sampleQuote [VObj [("width", VNum (Fin false 100 0))]] [].

(** Two outcomes related: both thrown, or both returned and related. *)
Definition outcomeRel {St1 St2} (R : St1 -> St2 -> Prop)
    (m1 : outcome St1) (m2 : outcome St2) : Prop :=
  match m1, m2 with
  | Ret a, Ret b => R a b
  | Throw, Throw => True
  | _, _ => False
  end.

(** A parsed result with the synthetic identifiers blanked out. *)
Definition eraseId (it : Item) : Item :=
  mkItem "" (width it) (height it) (fabricType it) (linePrice it) (location it)
    (fabric it) (color it) (over it) (oi it) (lr it) (dual it) (chain it)
    (winder it) (motor it).

Definition eraseIds (p : Parsed) : Parsed :=
  mkParsed (map eraseId (items p)) (lfIndexes p) (f1Snapshot p) (f3Data p).

Definition mapOutcome {A B} (f : A -> B) (m : outcome A) : outcome B :=
  match m with
  | Ret a => Ret (f a)
  | Throw => Throw
  end.

(** The invariant of the two item loops: the LF positions are increasing
    and point into the items collected so far. *)
Definition lfInvariant (items : list Item) (lfIndexes : list nat) : Prop :=
  StronglySorted lt lfIndexes /\ Forall (fun k => (k < length items)%nat) lfIndexes.

(** Two states of an item loop that differ in identifiers only. *)
Definition sameButIds (st1 st2 : list Item * list nat) : Prop :=
  map eraseId st1.1 = map eraseId st2.1 /\ st1.2 = st2.2.

Definition legacySameButIds (s1 s2 : LegacyState) : Prop :=
  sameButIds (lgItems s1, lgLfIndexes s1) (lgItems s2, lgLfIndexes s2)
  /\ lgF1Snapshot s1 = lgF1Snapshot s2.

(** The text begins, and ends, with a character that is not white space. *)
Definition startsClean (s : string) : bool :=
  match s with
  | String c _ => negb (Str.is_ws c)
  | EmptyString => false
  end.

Fixpoint endsClean (s : string) : bool :=
  match s with
  | EmptyString => false
  | String c EmptyString => negb (Str.is_ws c)
  | String _ r => endsClean r
  end.

(** A decimal digit. *)
Definition isDigit (c : ascii) : bool :=
  match Num.digitOf c with Some _ => true | None => false end.

Definition startsWithDigit (s : string) : bool :=
  match s with
  | String c _ => isDigit c
  | EmptyString => false
  end.

(** Every character of the text passes the test. *)
Fixpoint allChars (p : ascii -> bool) (s : string) : bool :=
  match s with
  | EmptyString => true
  | String c r => p c && allChars p r
  end.

(** The sign that [toString] and [toFixed] put in front. *)
Definition signString (neg : bool) : string := if neg then "-" else "".

(** A character that is neither a comma nor a newline. *)
Definition plainChar (c : ascii) : bool :=
  negb (Ascii.eqb c Str.comma) && negb (Ascii.eqb c Str.nl).

(** A text without commas and newlines: it fills one cell of one line. *)
Definition plainText (s : string) : bool := allChars plainChar s.

(* ===================================================================== *)
(** * Records of the data model as values                                  *)
(* ===================================================================== *)

Definition numValue (o : option number) : value :=
  match o with Some x => VNum x | None => VNull end.

Definition textValue (o : option string) : value :=
  match o with Some s => VStr s | None => VNull end.

(** A line item as the object the application holds. *)
Definition itemValue (it : Item) : value :=
  VObj [("itemId", VStr (itemId it));
        ("width", numValue (width it));
        ("height", numValue (height it));
        ("fabricType", textValue (fabricType it));
        ("linePrice", numValue (linePrice it));
        ("location", VStr (location it));
        ("fabric", VStr (fabric it));
        ("color", VStr (color it));
        ("over", VStr (over it));
        ("oi", VStr (oi it));
        ("lr", VStr (lr it));
        ("dual", VStr (dual it));
        ("chain", numValue (chain it));
        ("winder", VStr (winder it));
        ("motor", VStr (motor it))].

(** A quote record: identity and customer texts, the aggregate snapshot as
    a list of bindings, the active product key, its items and the modified
    rows. *)
Record Quote : Type := mkQuote {
  qQuoteId : string;
  qIssueDate : string;
  qDueDate : string;
  qName : string;
  qAddress : string;
  qPhone : string;
  qEmail : string;
  qF1 : list (string * number);
  qProduct : string;
  qItems : list Item;
  qLf : list nat
}.

Definition quoteValue (q : Quote) : value :=
  VObj [("quoteId", VStr (qQuoteId q));
        ("issueDate", VStr (qIssueDate q));
        ("dueDate", VStr (qDueDate q));
        ("customer", VObj [("name", VStr (qName q));
                           ("address", VStr (qAddress q));
                           ("phone", VStr (qPhone q));
                           ("email", VStr (qEmail q))]);
        ("f1Snapshot", VObj (map (fun kv => (kv.1, VNum kv.2)) (qF1 q)));
        ("currentProduct", VStr (qProduct q));
        ("products",
         VObj [(qProduct q, VObj [("items", VArr (map itemValue (qItems q)))])]);
        ("uiMetadata",
         VObj [("lfModifiedRowIndexes",
                VArr (map (fun i => VNum (Num.ofNat i)) (qLf q)))])].

(** The first binding of a key in the aggregate snapshot. *)
Fixpoint f1Lookup (key : string) (f1 : list (string * number)) : option number :=
  match f1 with
  | [] => None
  | (k, x) :: rest => if Str.eqb k key then Some x else f1Lookup key rest
  end.

(** The item passes the test [item.width || item.height]. *)
Definition keptItem (it : Item) : bool :=
  Js.truthy (numValue (width it)) || Js.truthy (numValue (height it)).

(** The identifier a parser gives to the item it pushes at position [n]. *)
Definition stampItem (clock : nat -> N) (n : nat) (it : Item) : Item :=
  mkItem ("item-" +:+ Num.toString (Fin false (clock n) 0) +:+ "-"
          +:+ Num.toString (Num.ofNat n))
    (width it) (height it) (fabricType it) (linePrice it) (location it)
    (fabric it) (color it) (over it) (oi it) (lr it) (dual it) (chain it)
    (winder it) (motor it).

(** A non-zero integer below 10^21, or null. *)
Definition wfInteger (o : option number) : bool :=
  match o with
  | None => true
  | Some (Fin _ m 0%Z) => (0 <? m) && (m <? 10 ^ 21)
  | Some _ => false
  end.

(** A non-zero amount in hundredths below 10^21, or null. *)
Definition wfPrice (o : option number) : bool :=
  match o with
  | None => true
  | Some (Fin _ m (-2)%Z) => (0 <? m) && (m <? 10 ^ 23)
  | Some _ => false
  end.

(** A text without comma and newline that is not empty, or null. *)
Definition wfType (o : option string) : bool :=
  match o with
  | None => true
  | Some s => negb (Str.isEmpty s) && plainText s
  end.

(** The items the codec reproduces field by field. *)
Definition wfItem (it : Item) : bool :=
  wfInteger (width it) && wfInteger (height it) && wfInteger (chain it)
  && wfPrice (linePrice it) && wfType (fabricType it)
  && forallb plainText
       [location it; fabric it; color it; over it; oi it; lr it; dual it;
        winder it; motor it].

(** The cells of the row of an item. *)
Definition numberCell (o : option number) : string :=
  match o with
  | Some x => if Num.truthy x then Num.toString x else ""
  | None => ""
  end.

Definition priceCell (o : option number) : string :=
  match o with
  | Some x => Num.toFixed2 x
  | None => ""
  end.

Definition rowCells (it : Item) (index : nat) (isLf : bool) : list string :=
  [ Num.toString (Num.ofNat (index + 1));
    quoteCell (numberCell (width it));
    quoteCell (numberCell (height it));
    quoteCell (default "" (fabricType it));
    quoteCell (priceCell (linePrice it));
    quoteCell (location it); quoteCell (fabric it); quoteCell (color it);
    quoteCell (over it); quoteCell (oi it); quoteCell (lr it);
    quoteCell (dual it);
    quoteCell (numberCell (chain it));
    quoteCell (winder it); quoteCell (motor it);
    if isLf then "1" else "0" ].

(** The item rows [dataToCsv] emits, from item [index] on. *)
Fixpoint itemRowsOf (lf : list nat) (its : list Item) (index : nat) : list string :=
  match its with
  | [] => []
  | it :: rest =>
      if keptItem it
      then Str.join Str.comma (rowCells it index (bool_decide (index ∈ lf)))
           :: itemRowsOf lf rest (S index)
      else itemRowsOf lf rest (S index)
  end.

Definition f1Cell (o : option number) : string :=
  match o with
  | Some x => Num.toString x
  | None => ""
  end.

(** The cells of the project value row. *)
Definition projectCells (q : Quote) : list string :=
  map (fun s => quoteCell (Str.replaceNl s))
      [qQuoteId q; qIssueDate q; qDueDate q; qName q; qAddress q; qPhone q; qEmail q]
  ++ map (fun key => f1Cell (f1Lookup key (qF1 q))) f1SnapshotKeys.

(** The text [dataToCsv] produces for a record of the data model. *)
Definition csvOf (q : Quote) : string :=
  Str.join Str.nl
    ([ Str.join Str.comma (f3SnapshotKeys ++ f1SnapshotKeys);
       Str.join Str.comma (projectCells q);
       "";
       Str.join Str.comma itemHeaders ]
     ++ itemRowsOf (qLf q) (qItems q) 0).

(** The items and LF positions expected from the items of a record, from
    item [index] on. *)
Fixpoint collectRows (clock : nat -> N) (lf : list nat) (its : list Item)
    (index : nat) (st : list Item * list nat) : list Item * list nat :=
  match its with
  | [] => st
  | it :: rest =>
      collectRows clock lf rest (S index)
        (if keptItem it
         then (st.1 ++ [stampItem clock (length st.1) it],
               if bool_decide (index ∈ lf) then st.2 ++ [length st.1] else st.2)
         else st)
  end.

(** Every item that is written is one the codec reproduces. *)
Definition wfKept (its : list Item) : bool :=
  forallb (fun it => implb (keptItem it) (wfItem it)) its.

(** The property of the customer object that a header writes. *)
Definition customerKey (header : string) : string :=
  argString (Str.split "."%char header !! 1%nat).

(** [csvToData(dataToCsv(record))] *)
Definition roundTrip (initialState : option (list string)) (clock : nat -> N)
    (quoteData : value) : outcome (option Parsed) :=
  let! s := dataToCsv quoteData in csvToData initialState clock s.

(** No comma in the texts of the project row up to the customer name, and in
    all seven of them. *)
Definition plainUpToName (q : Quote) : bool :=
  forallb (fun s => negb (Str.has Str.comma s))
    [qQuoteId q; qIssueDate q; qDueDate q; qName q].

Definition plainIdentity (q : Quote) : bool :=
  forallb (fun s => negb (Str.has Str.comma s))
    [qQuoteId q; qIssueDate q; qDueDate q; qName q; qAddress q; qPhone q; qEmail q].

(** Every item has a width or a height and is one the codec reproduces. *)
Definition wfAllKept (its : list Item) : bool :=
  forallb (fun it => keptItem it && wfItem it) its.


(** The value of [productData.items] in [dataToCsv]. *)
Definition activeItems (quoteData : value) : outcome value :=
  let currentProductKey := Js.getOpt quoteData "currentProduct" in
  let! productData :=
    (let products := Js.getOpt quoteData "products" in
     if Js.isNullish products then Ret VUndef
     else let! key := Js.toString currentProductKey in Ret (Js.get products key)) in
  Ret (Js.get productData "items").

(** The IsLF column of a serialized record, one cell per line after the
    item header. *)
Definition lfColumn (csv : string) : list string :=
  map (fun line => default "" (Str.split Str.comma line !! 15%nat))
      (drop 4 (linesOf csv)).

Definition withName (q : Quote) (name : string) : Quote :=
  mkQuote (qQuoteId q) (qIssueDate q) (qDueDate q) name (qAddress q) (qPhone q)
    (qEmail q) (qF1 q) (qProduct q) (qItems q) (qLf q).

Definition blind (w h : option number) (room : string) : Item :=
  mkItem "" w h (Some "B1") (Some (Fin false 12550 (-2))) room "Linen" "Sand"
    "" "IN" "L" "" (Some (Fin false 1500 0)) "" "".

Definition sampleRecord (its : list Item) (lf : list nat) (name : string) : Quote :=
  mkQuote "Q-1001" "2024-05-01" "2024-05-15" name "Elm Street" "555-0100"
    "j@example.com" [("winder_qty", Fin false 2 0); ("discountPercentage", Fin false 125 (-1))]
    "rollerBlind" its lf.

(* ===================================================================== *)
(** * Further notions used in the statements                               *)
(* ===================================================================== *)

(** The lines of the item table that give an item: neither blank nor a
    footer line. *)
Definition dataLines (lines : list string) : list string :=
  List.filter (fun line => negb (skipLine (Str.trim line))) lines.

(** The IsLF test of the item loops on one line. *)
Definition lineIsLf (isLfIndex : option nat) (line : string) : bool :=
  match isLfIndex with
  | Some i =>
      Num.eqb (Num.parseInt
                 (argString (Str.split Str.comma (Str.trim line) !! i)))
              (Fin false 1 0)
  | None => false
  end.

(** The positions, counted from [k], of the lines that pass the IsLF test. *)
Fixpoint lfPositions (isLfIndex : option nat) (lines : list string) (k : nat)
  : list nat :=
  match lines with
  | [] => []
  | line :: rest =>
      if lineIsLf isLfIndex line
      then k :: lfPositions isLfIndex rest (S k)
      else lfPositions isLfIndex rest (S k)
  end.

(** The identifier of the item pushed at position [k]. *)
Definition newId (clock : nat -> N) (k : nat) : string :=
  "item-" +:+ Num.toString (Fin false (clock k) 0) +:+ "-"
  +:+ Num.toString (Num.ofNat k).

(** The items are numbered by position. *)
Definition idsByPosition (clock : nat -> N) (items : list Item) : Prop :=
  forall k it, items !! k = Some it -> itemId it = newId clock k.

(** A character other than the hyphen that separates the parts of an
    identifier. *)
Definition notDash (c : ascii) : bool := negb (Ascii.eqb c "-").

(** What the project row can leave in the two objects of the canonical
    branch: aggregate keys and identity keys that are cells of the header
    line, and customer properties named by a [customer.] header. *)
Definition knownKeys (headers : list string) (st : gmap string cell * F3Data)
  : Prop :=
  (forall k, is_Some (st.1 !! k) -> k ∈ f1SnapshotKeys /\ k ∈ headers) /\
  (forall k, is_Some (f3Fields st.2 !! k) ->
             k ∈ ["quoteId"; "issueDate"; "dueDate"] /\ k ∈ headers) /\
  (forall k, is_Some (customer st.2 !! k) ->
             exists header, header ∈ headers /\
                            Str.startsWith "customer." header = true /\
                            customerKey header = k).

(** What the legacy loop can leave in [f1Snapshot]: keys of the initial
    state that are cells of the header line. *)
Definition legacyKnownKeys (snapshotKeys headers : list string)
    (f1 : gmap string cell) : Prop :=
  forall k, is_Some (f1 !! k) -> k ∈ snapshotKeys /\ k ∈ headers.

(** The text [dataToCsv] assembles from the cells of the project row and
    from the item rows. *)
Definition documentOf (projectValues rows : list string) : string :=
  Str.join Str.nl
    ([ Str.join Str.comma (f3SnapshotKeys ++ f1SnapshotKeys);
       Str.join Str.comma projectValues;
       "";
       Str.join Str.comma itemHeaders ]
     ++ rows).

(** [quoteData?.uiMetadata?.lfModifiedRowIndexes || []] *)
Definition lfList (quoteData : value) : value :=
  Js.or (Js.getOpt (Js.getOpt quoteData "uiMetadata") "lfModifiedRowIndexes")
        (VArr []).

(** The row of the item at position [index]: sixteen cells, the first the
    position counted from one, the last the LF flag. *)
Definition rowShape (lfModifiedRowIndexes : value) (index : nat) (row : string)
  : Prop :=
  exists cells isLf,
    row = Str.join Str.comma cells /\
    length cells = length itemHeaders /\
    cells !! 0%nat = Some (Num.toString (Num.ofNat (index + 1))) /\
    Js.includesIndex lfModifiedRowIndexes index = Ret isLf /\
    cells !! 15%nat = Some (if isLf : bool then "1" else "0").

(** The record with other items. *)
Definition withItems (q : Quote) (its : list Item) : Quote :=
  mkQuote (qQuoteId q) (qIssueDate q) (qDueDate q) (qName q) (qAddress q)
    (qPhone q) (qEmail q) (qF1 q) (qProduct q) its (qLf q).

(** A line that [csvToData_OldFormat] takes for an [F1_SNAPSHOT] row. *)
Definition isSnapshotRow (line : string) : bool :=
  let values := Str.split Str.comma (Str.trim line) in
  bool_decide (values !! 0%nat = Some "F1_SNAPSHOT")
  && bool_decide (3 <= length values)%nat.

(** What the first data line holds in the column named [key]. *)
Definition embeddedValue (headers values : list string) (key : string)
  : option cell :=
  match Str.indexOf key headers with
  | Some c => finalValue <$> stringOrNull (values !! c)
  | None => None
  end.

(** The lines after the legacy header that give an item: neither blank, nor
    a footer line, nor an [F1_SNAPSHOT] row. *)
Definition legacyDataLines (lines : list string) : list string :=
  List.filter
    (fun line => negb (skipLine (Str.trim line)) && negb (isSnapshotRow line))
    lines.

(** The lines after the first, each behind its newline: what [join] puts
    after the first line. *)
Fixpoint linesTail (rows : list string) : string :=
  match rows with
  | [] => EmptyString
  | r :: rest => String Str.nl (r +:+ linesTail rest)
  end.

(** What a project cell is stored as: nothing when the cell is missing or
    empty; otherwise the number [parseFloat] reads from it, or the text
    itself when that is NaN. *)
Definition cellValue (c : option string) : option cell :=
  match c with
  | Some s =>
      if Str.isEmpty s then None
      else Some (if Num.isNaN (Num.parseFloat s) then CStr s
                 else CNum (Num.parseFloat s))
  | None => None
  end.

(** A numeric field of an item holds the reading [x] of its cell: null when
    the reading is NaN or zero, the reading itself otherwise. *)
Definition readAs (field : option number) (x : number) : Prop :=
  (field = None <-> Num.isNaN x = true \/ Num.isZero x = true)
  /\ (forall y, field = Some y -> y = x).

(** A number that a double holds as it is written: NaN, an infinity, zero,
    or a decimal of at most 15 significant digits whose exponent keeps it
    well inside the range of the normal doubles. *)
Definition heldByDouble (x : number) : bool :=
  match x with
  | Fin _ m e => (m =? 0) || ((m <? 10 ^ 15) && (-300 <=? e)%Z && (e <=? 280)%Z)
  | _ => true
  end.

(* ===================================================================== *)
(** * Properties of the codec                                              *)
(* ===================================================================== *)

(** ** Sample evaluations *)

Example toString_samples :
  map Num.toString
    [Fin false 100 0; Fin true 125 (-1); Fin false 5 (-7); Fin false 1 21;
     Fin false 12 20; Fin false 1500 (-2); Fin true 0 0; Fin false 123456 (-3);
     Fin false 5 (-6); Fin false 15 (-8)]
  = ["100"; "-12.5"; "5e-7"; "1e+21"; "1.2e+21"; "15"; "0"; "123.456";
     "0.000005"; "1.5e-7"].
Proof. vm_compute. reflexivity. Qed.

Example toFixed2_samples :
  map Num.toFixed2
    [Fin false 100 0; Fin true 125 (-1); Fin false 12345 (-3); Fin false 5 (-3);
     Fin false 4 (-3); Fin true 1 (-3); Fin false 0 0; Fin false 1 21; NaN]
  = ["100.00"; "-12.50"; "12.35"; "0.01"; "0.00"; "-0.00"; "0.00"; "1e+21"; "NaN"].
Proof. vm_compute. reflexivity. Qed.

Example parseFloat_samples :
  map Num.parseFloat
    ["12.50"; " -3e2x"; "1e"; ".5"; "."; "abc"; "-Infinity"; "12 High St";
     "1.e5"; ""; "0.00"]
  = [Fin false 1250 (-2); Fin true 3 2; Fin false 1 0; Fin false 5 (-1); NaN;
     NaN; Inf true; Fin false 12 0; Fin false 1 5; NaN; Fin false 0 (-2)].
Proof. vm_compute. reflexivity. Qed.

Example parseInt_samples :
  map Num.parseInt ["100"; " -42px"; "1e3"; "abc"; ""; "undefined"; "0"; "+7.9"]
  = [Fin false 100 0; Fin true 42 0; Fin false 1 0; NaN; NaN; NaN;
     Fin false 0 0; Fin false 7 0].
Proof. vm_compute. reflexivity. Qed.

Example dataToCsv_sample :
  dataToCsv (sampleQuote [sampleItem 100; VObj []; sampleItem 30] [0; 2]%nat)
  = Ret (Str.join Str.nl
      ["quoteId,issueDate,dueDate,customer.name,customer.address,customer.phone,customer.email,winder_qty,motor_qty,charger_qty,cord_qty,remote_1ch_qty,remote_16ch_qty,dual_combo_qty,dual_slim_qty,discountPercentage";
       ",,,,,,,,,,,,,,,";
       "";
       "#,Width,Height,Type,Price,Location,F-Name,F-Color,Over,O/I,L/R,Dual,Chain,Winder,Motor,IsLF";
       "1,100,,,125.50,,,,,,,,,,,1";
       "3,30,,,125.50,,,,,,,,,,,1"]).
Proof. vm_compute. reflexivity. Qed.

(** ** The control flow of [csvToData] *)

Lemma try_catch_twice {A} (m h : outcome A) :
  try_catch m (try_catch m h) = try_catch m h.
Proof. destruct m; reflexivity. Qed.

Lemma csvToData_canonical initialState clock s h v b ih rows :
  linesOf s = h :: v :: b :: ih :: rows ->
  csvToData initialState clock s = Ret (Some (parseCanonical clock h v ih rows)).
Proof. unfold csvToData, linesOf. intros ->. reflexivity. Qed.

Lemma csvToData_short initialState clock s :
  (length (linesOf s) < 4)%nat ->
  csvToData initialState clock s
  = try_catch (csvToData_OldFormat initialState clock s) (Ret None).
Proof.
  unfold csvToData, linesOf. intros Hlen.
  destruct (Str.split Str.nl (Str.trim s)) as [|l0 [|l1 [|l2 [|l3 rest]]]];
    simpl in Hlen; try lia; apply try_catch_twice.
Qed.

Lemma csvToData_never_throws initialState clock s :
  csvToData initialState clock s <> Throw.
Proof.
  unfold csvToData.
  destruct (Str.split Str.nl (Str.trim s)) as [|l0 [|l1 [|l2 [|l3 rest]]]];
    try discriminate;
    destruct (csvToData_OldFormat initialState clock s) as [r|]; discriminate.
Qed.

Lemma findIndex_none {A} (p : A -> bool) xs :
  Forall (fun x => p x = false) xs -> findIndex p xs = None.
Proof.
  induction 1 as [|x xs Hx _ IH]; simpl; [reflexivity|].
  rewrite Hx, IH. reflexivity.
Qed.

Lemma legacy_no_marker initialState clock s :
  Forall (fun line => Str.startsWith "#,Width" line = false) (linesOf s) ->
  csvToData_OldFormat initialState clock s = Ret None.
Proof.
  intros Hno. unfold csvToData_OldFormat. fold (linesOf s).
  rewrite findIndex_none; [reflexivity|].
  eapply Forall_impl; [exact Hno|]. simpl. intros line ->.
  apply andb_false_r.
Qed.

(** C9. A text of at least four lines (after trimming) is parsed by the
    canonical branch: the result is a non-null object, the one
    [parseCanonical] builds from lines 0, 1, 3 and the lines after them, and
    it is the same whatever the legacy parser would do (whatever the global
    it reads).  So the legacy parser and a null result need fewer than four
    lines. *)
Theorem csvToData_four_lines_canonical initialState clock s :
  (4 <= length (linesOf s))%nat ->
  (exists h v b ih rows,
      linesOf s = h :: v :: b :: ih :: rows /\
      csvToData initialState clock s
      = Ret (Some (parseCanonical clock h v ih rows))) /\
  csvToData initialState clock s <> Ret None /\
  (forall initialState',
      csvToData initialState' clock s = csvToData initialState clock s).
Proof.
  intros Hlen.
  destruct (linesOf s) as [|h [|v [|b [|ih rows]]]] eqn:Hl; simpl in Hlen; try lia.
  split; [|split].
  - exists h, v, b, ih, rows. split; [reflexivity|].
    by apply csvToData_canonical with b.
  - by rewrite (csvToData_canonical _ _ _ _ _ _ _ _ Hl).
  - intros st'. by rewrite !(csvToData_canonical _ _ _ _ _ _ _ _ Hl).
Qed.

Lemma csvToData_four_lines_canonical_witness :
  (4 <= length (linesOf (text ["a"; "b"; "c"; "d"; "1,2,3"])))%nat /\
  csvToData None (tickingClock 0) (text ["a"; "b"; "c"; "d"; "1,2,3"]) <> Ret None.
Proof.
  split; [vm_compute; lia|].
  apply (csvToData_four_lines_canonical None (tickingClock 0)
           (text ["a"; "b"; "c"; "d"; "1,2,3"])).
  vm_compute; lia.
Defined.

(** C5, as amended.  A text of fewer than four lines none of which starts
    with the legacy marker is not recognised: the legacy parser returns null
    at once and so does [csvToData].  A text of four or more lines is never
    taken as unrecognised: whatever it holds, [csvToData] returns an object.
    And [csvToData] never lets an exception out, on any text. *)
Theorem csvToData_unrecognized_null initialState clock s :
  ((length (linesOf s) < 4)%nat ->
   Forall (fun line => Str.startsWith "#,Width" line = false) (linesOf s) ->
   csvToData_OldFormat initialState clock s = Ret None /\
   csvToData initialState clock s = Ret None) /\
  ((4 <= length (linesOf s))%nat ->
   exists p, csvToData initialState clock s = Ret (Some p)) /\
  csvToData initialState clock s <> Throw.
Proof.
  split; [|split].
  - intros Hlen Hno.
    pose proof (legacy_no_marker initialState clock s Hno) as Hold.
    split; [exact Hold|].
    rewrite csvToData_short by exact Hlen. by rewrite Hold.
  - intros Hlen.
    destruct (linesOf s) as [|h [|v [|b [|ih rows]]]] eqn:Hl; simpl in Hlen; try lia.
    eexists. by apply csvToData_canonical with b.
  - apply csvToData_never_throws.
Qed.

Lemma csvToData_unrecognized_null_witness :
  (length (linesOf (text ["hello"; "world"])) < 4)%nat /\
  Forall (fun line => Str.startsWith "#,Width" line = false)
    (linesOf (text ["hello"; "world"])) /\
  csvToData_OldFormat None (tickingClock 0) (text ["hello"; "world"]) = Ret None /\
  csvToData None (tickingClock 0) (text ["hello"; "world"]) = Ret None.
Proof.
  assert ((length (linesOf (text ["hello"; "world"])) < 4)%nat) as Hlen
    by (vm_compute; lia).
  assert (Forall (fun line => Str.startsWith "#,Width" line = false)
            (linesOf (text ["hello"; "world"]))) as Hno
    by (vm_compute; repeat constructor).
  split; [exact Hlen|]. split; [exact Hno|].
  exact (proj1 (csvToData_unrecognized_null None (tickingClock 0)
                  (text ["hello"; "world"])) Hlen Hno).
Defined.

(** C5 as stated fails: a text of five lines none of which starts with the
    legacy marker, and whose lines 0 and 3 are not the header rows of the
    canonical format, is not answered with null.  The canonical branch takes
    it and returns an object with one item, made from line 4. *)
Lemma unrecognized_text_gets_an_object :
  exists p it,
    Forall (fun line => Str.startsWith "#,Width" line = false)
      (linesOf (text ["hello"; "world"; "this is"; "not a csv"; "at all"])) /\
    linesOf (text ["hello"; "world"; "this is"; "not a csv"; "at all"]) !! 0%nat
    <> Some (Str.join Str.comma (f3SnapshotKeys ++ f1SnapshotKeys)) /\
    linesOf (text ["hello"; "world"; "this is"; "not a csv"; "at all"]) !! 3%nat
    <> Some (Str.join Str.comma itemHeaders) /\
    csvToData None (tickingClock 0)
      (text ["hello"; "world"; "this is"; "not a csv"; "at all"]) = Ret (Some p) /\
    csvToData None (tickingClock 0)
      (text ["hello"; "world"; "this is"; "not a csv"; "at all"]) <> Ret None /\
    items p = [it] /\
    itemId it = "item-0-0" /\ width it = None /\ linePrice it = None.
Proof.
  eexists _, _.
  split; [vm_compute; repeat constructor|].
  split; [vm_compute; discriminate|]. split; [vm_compute; discriminate|].
  split; [vm_compute; reflexivity|]. split; [vm_compute; discriminate|].
  repeat split; reflexivity.
Qed.

(** ** The serializer on any record *)

Lemma dataToCsv_without_items quoteData v :
  activeItems quoteData = Ret v -> Js.truthy v = false ->
  dataToCsv quoteData = Ret "".
Proof.
  unfold dataToCsv, activeItems. cbv zeta.
  destruct (if Js.isNullish (Js.getOpt quoteData "products") then Ret VUndef else _)
    as [productData|]; [|done].
  cbn [obind]. intros [= ->] ->. by rewrite orb_true_r.
Qed.

Lemma itemRow_throws_without_linePrice lfv item index :
  Js.isNullish item = false ->
  Js.truthy (Js.get item "width") || Js.truthy (Js.get item "height") = true ->
  Js.get item "linePrice" = VUndef ->
  itemRow lfv item index = Throw.
Proof.
  intros Hitem Hkept Hprice. unfold itemRow, Js.getProp.
  by rewrite Hitem; cbn [obind]; rewrite Hkept, Hprice.
Qed.

(** C3. [dataToCsv] is not total: on a record whose item has a width and no
    [linePrice] property the test [item.linePrice !== null] lets undefined
    through and the call of [toFixed] on it throws. *)
Theorem dataToCsv_throws_without_linePrice :
  dataToCsv quoteMissingLinePrice = Throw.
Proof. vm_compute. reflexivity. Qed.

(** ** Two runs of a loop kept in step *)

Section InStep.
Context {A St1 St2 : Type} (R : St1 -> St2 -> Prop).

Lemma fold_left_in_step (f1 : St1 -> A -> St1) (f2 : St2 -> A -> St2) xs :
  (forall s1 s2 x, R s1 s2 -> R (f1 s1 x) (f2 s2 x)) ->
  forall s1 s2, R s1 s2 -> R (fold_left f1 xs s1) (fold_left f2 xs s2).
Proof.
  intros Hstep. induction xs as [|x xs IH]; simpl; intros s1 s2 HR; [done|].
  apply IH, Hstep, HR.
Qed.

Lemma forEachM_in_step (f1 : St1 -> A -> nat -> outcome St1)
    (f2 : St2 -> A -> nat -> outcome St2) xs :
  (forall s1 s2 x i, R s1 s2 -> outcomeRel R (f1 s1 x i) (f2 s2 x i)) ->
  forall i s1 s2, R s1 s2 ->
    outcomeRel R (forEachM f1 xs i s1) (forEachM f2 xs i s2).
Proof.
  intros Hstep. induction xs as [|x xs IH]; simpl; intros i s1 s2 HR; [done|].
  specialize (Hstep s1 s2 x i HR).
  destruct (f1 s1 x i) as [a|], (f2 s2 x i) as [b|]; simpl in *; try done.
  by apply IH.
Qed.
End InStep.

(** ** The item loops under two clocks *)

Lemma sameButIds_length st1 st2 :
  sameButIds st1 st2 -> length st1.1 = length st2.1.
Proof. intros [H _]. by rewrite <- (length_map eraseId st1.1), H, length_map. Qed.

Lemma pushItem_sameButIds clock1 clock2 isLfIndex values it1 lf1 it2 lf2 :
  sameButIds (it1, lf1) (it2, lf2) ->
  sameButIds (pushItem clock1 isLfIndex values it1 lf1)
             (pushItem clock2 isLfIndex values it2 lf2).
Proof.
  intros Hs. pose proof (sameButIds_length _ _ Hs) as Hlen.
  destruct Hs as [Hi Hl]. simpl in *. subst lf2. unfold pushItem.
  rewrite !length_app, Hlen.
  assert (map eraseId (it1 ++ [parseItem (clock1 (length it2)) (length it2) values])
          = map eraseId (it2 ++ [parseItem (clock2 (length it2)) (length it2) values]))
    as Hpush by (rewrite !map_app, Hi; reflexivity).
  destruct isLfIndex as [i|]; [|by split].
  destruct (Num.eqb _ _); by split.
Qed.

Lemma pushItem_same_clock clock1 clock2 isLfIndex values its lf :
  (forall k, clock1 k = clock2 k) ->
  pushItem clock1 isLfIndex values its lf = pushItem clock2 isLfIndex values its lf.
Proof. intros Hc. unfold pushItem. by rewrite Hc. Qed.

Lemma itemLineStep_sameButIds clock1 clock2 isLfIndex st1 st2 line :
  sameButIds st1 st2 ->
  sameButIds (itemLineStep clock1 isLfIndex st1 line)
             (itemLineStep clock2 isLfIndex st2 line).
Proof.
  intros Hs. unfold itemLineStep. destruct (skipLine _); [done|].
  destruct st1, st2. by apply pushItem_sameButIds.
Qed.

Lemma parseCanonical_eraseIds clock1 clock2 h v ih rows :
  eraseIds (parseCanonical clock1 h v ih rows)
  = eraseIds (parseCanonical clock2 h v ih rows).
Proof.
  unfold parseCanonical.
  destruct (forEachFrom _ _ _ _) as [f1 f3].
  pose proof (fold_left_in_step sameButIds
                (itemLineStep clock1 (Str.indexOf "IsLF" (Str.split Str.comma ih)))
                (itemLineStep clock2 (Str.indexOf "IsLF" (Str.split Str.comma ih)))
                rows
                (fun s1 s2 x => itemLineStep_sameButIds _ _ _ s1 s2 x)
                ([], []) ([], []) (conj eq_refl eq_refl)) as [Hi Hl].
  destruct (fold_left (itemLineStep clock1 _) _ _) as [i1 l1].
  destruct (fold_left (itemLineStep clock2 _) _ _) as [i2 l2].
  simpl in *. unfold eraseIds. simpl. by rewrite Hi, Hl.
Qed.

Lemma parseCanonical_same_clock clock1 clock2 h v ih rows :
  (forall k, clock1 k = clock2 k) ->
  parseCanonical clock1 h v ih rows = parseCanonical clock2 h v ih rows.
Proof.
  intros Hc. unfold parseCanonical.
  destruct (forEachFrom _ _ _ _) as [f1 f3].
  rewrite (fold_left_in_step eq
             (itemLineStep clock1 (Str.indexOf "IsLF" (Str.split Str.comma ih)))
             (itemLineStep clock2 (Str.indexOf "IsLF" (Str.split Str.comma ih)))
             rows) with (s2 := ([], [])); [done| |done].
  intros s1 s2 x ->. unfold itemLineStep. destruct (skipLine _); [done|].
  by apply pushItem_same_clock.
Qed.

Lemma legacyLineStep_sameButIds clock1 clock2 keys headers isLfIndex s1 s2 line i :
  legacySameButIds s1 s2 ->
  outcomeRel legacySameButIds
    (legacyLineStep clock1 keys headers isLfIndex s1 line i)
    (legacyLineStep clock2 keys headers isLfIndex s2 line i).
Proof.
  intros [Hs Hf]. unfold legacyLineStep. rewrite Hf.
  destruct (skipLine _); [by split|].
  destruct (_ && _).
  - destruct (lgF1Snapshot s2 !! "hasOwnProperty"); [done|].
    destruct (lgF1Snapshot s2 !! _); simpl; by split.
  - pose proof (pushItem_sameButIds clock1 clock2 isLfIndex
                  (Str.split Str.comma (Str.trim line)) _ _ _ _ Hs) as Hp.
    destruct (pushItem clock1 _ _ _ _), (pushItem clock2 _ _ _ _).
    simpl. by split.
Qed.

Lemma legacyLineStep_same_clock clock1 clock2 keys headers isLfIndex s line i :
  (forall k, clock1 k = clock2 k) ->
  legacyLineStep clock1 keys headers isLfIndex s line i
  = legacyLineStep clock2 keys headers isLfIndex s line i.
Proof.
  intros Hc. unfold legacyLineStep.
  by rewrite (pushItem_same_clock clock1 clock2 _ _ _ _ Hc).
Qed.

Lemma legacy_eraseIds initialState clock1 clock2 s :
  mapOutcome (option_map eraseIds) (csvToData_OldFormat initialState clock1 s)
  = mapOutcome (option_map eraseIds) (csvToData_OldFormat initialState clock2 s).
Proof.
  unfold csvToData_OldFormat.
  destruct (findIndex _ _) as [hi|]; [|done].
  destruct initialState as [keys|]; [|done].
  set (headers := Str.split Str.comma _).
  pose proof (forEachM_in_step legacySameButIds
    (legacyLineStep clock1 keys headers (Str.indexOf "IsLF" headers))
    (legacyLineStep clock2 keys headers (Str.indexOf "IsLF" headers))
    (drop (hi + 1) (Str.split Str.nl (Str.trim s)))
    (fun s1 s2 x i => legacyLineStep_sameButIds _ _ _ _ _ s1 s2 x i)
    0%nat (mkLegacy [] [] ∅) (mkLegacy [] [] ∅)
    (conj (conj eq_refl eq_refl) eq_refl)) as Hrel.
  destruct (forEachM (legacyLineStep clock1 _ _ _) _ _ _) as [a|],
           (forEachM (legacyLineStep clock2 _ _ _) _ _ _) as [b|];
    simpl in *; try done.
  destruct Hrel as [[Hi Hl] Hf]. simpl in *.
  unfold eraseIds. simpl. by rewrite Hi, Hl, Hf.
Qed.

Lemma legacy_same_clock initialState clock1 clock2 s :
  (forall k, clock1 k = clock2 k) ->
  csvToData_OldFormat initialState clock1 s = csvToData_OldFormat initialState clock2 s.
Proof.
  intros Hc. unfold csvToData_OldFormat.
  destruct (findIndex _ _) as [hi|]; [|done].
  destruct initialState as [keys|]; [|done].
  set (headers := Str.split Str.comma _).
  pose proof (forEachM_in_step eq
    (legacyLineStep clock1 keys headers (Str.indexOf "IsLF" headers))
    (legacyLineStep clock2 keys headers (Str.indexOf "IsLF" headers))
    (drop (hi + 1) (Str.split Str.nl (Str.trim s)))) as Hrel.
  specialize (Hrel ltac:(intros s1 s2 x i ->;
                         rewrite (legacyLineStep_same_clock clock1 clock2) by done;
                         destruct (legacyLineStep clock2 _ _ _ _ _ _); done)
                0%nat (mkLegacy [] [] ∅) (mkLegacy [] [] ∅) eq_refl).
  destruct (forEachM (legacyLineStep clock1 _ _ _) _ _ _) as [a|],
           (forEachM (legacyLineStep clock2 _ _ _) _ _ _) as [b|];
    simpl in *; try done.
  by subst.
Qed.

(** C8, as amended.  Two runs of [csvToData] on one text, under any two
    clocks, agree on everything but the [itemId] fields, and agree on those
    too when the clocks give the same readings; the same holds of
    [csvToData_OldFormat].  ([dataToCsv] takes the record and nothing else.) *)
Theorem csvToData_deterministic_up_to_ids initialState clock1 clock2 s :
  mapOutcome (option_map eraseIds) (csvToData initialState clock1 s)
  = mapOutcome (option_map eraseIds) (csvToData initialState clock2 s) /\
  mapOutcome (option_map eraseIds) (csvToData_OldFormat initialState clock1 s)
  = mapOutcome (option_map eraseIds) (csvToData_OldFormat initialState clock2 s) /\
  ((forall k, clock1 k = clock2 k) ->
   csvToData initialState clock1 s = csvToData initialState clock2 s /\
   csvToData_OldFormat initialState clock1 s
   = csvToData_OldFormat initialState clock2 s).
Proof.
  split; [|split].
  - destruct (linesOf s) as [|h [|v [|b [|ih rows]]]] eqn:Hl.
    1-4: rewrite !csvToData_short by (rewrite Hl; simpl; lia);
         pose proof (legacy_eraseIds initialState clock1 clock2 s) as He;
         destruct (csvToData_OldFormat initialState clock1 s) as [r1|],
                  (csvToData_OldFormat initialState clock2 s) as [r2|];
         simpl in *; done.
    rewrite !(csvToData_canonical _ _ _ _ _ _ _ _ Hl). simpl.
    by rewrite (parseCanonical_eraseIds clock1 clock2).
  - apply legacy_eraseIds.
  - intros Hc. split; [|by apply legacy_same_clock].
    unfold csvToData.
    rewrite (legacy_same_clock initialState clock1 clock2 s Hc).
    destruct (Str.split Str.nl (Str.trim s)) as [|h [|v [|b [|ih rows]]]]; try done.
    by rewrite (parseCanonical_same_clock clock1 clock2 _ _ _ _ Hc).
Qed.

Lemma csvToData_deterministic_up_to_ids_witness :
  (forall k, tickingClock 5 k = tickingClock 5 k) /\
  csvToData None (tickingClock 5) (text ["a"; "b"; "c"; "d"; "1,2,3"])
  = csvToData None (tickingClock 5) (text ["a"; "b"; "c"; "d"; "1,2,3"]).
Proof.
  split; [reflexivity|].
  apply (csvToData_deterministic_up_to_ids None (tickingClock 5) (tickingClock 5)
           (text ["a"; "b"; "c"; "d"; "1,2,3"])).
  reflexivity.
Defined.

(** C8 as stated fails: the same text parsed at two clock readings gives two
    results, which differ in the [itemId] of the parsed item. *)
Lemma csvToData_not_deterministic :
  csvToData None (tickingClock 1000) (text ["a"; "b"; "c"; "d"; "1,2,3"])
  <> csvToData None (tickingClock 2000) (text ["a"; "b"; "c"; "d"; "1,2,3"]) /\
  (exists p1 p2,
      csvToData None (tickingClock 1000) (text ["a"; "b"; "c"; "d"; "1,2,3"])
      = Ret (Some p1) /\
      csvToData None (tickingClock 2000) (text ["a"; "b"; "c"; "d"; "1,2,3"])
      = Ret (Some p2) /\
      map itemId (items p1) = ["item-1000-0"] /\
      map itemId (items p2) = ["item-2000-0"]).
Proof.
  split; [vm_compute; discriminate|].
  eexists _, _. repeat split; vm_compute; reflexivity.
Qed.

(** ** The LF positions *)

Lemma lfInvariant_nil : lfInvariant [] [].
Proof. split; constructor. Qed.

Lemma pushItem_lfInvariant clock isLfIndex values its lf :
  lfInvariant its lf ->
  lfInvariant (pushItem clock isLfIndex values its lf).1
              (pushItem clock isLfIndex values its lf).2.
Proof.
  intros [Hs Hb]. unfold pushItem.
  assert (lfInvariant (its ++ [parseItem (clock (length its)) (length its) values]) lf)
    as Hkeep.
  { split; [done|]. eapply Forall_impl; [exact Hb|]. simpl. intros k Hk.
    rewrite length_app. simpl. lia. }
  assert (lfInvariant (its ++ [parseItem (clock (length its)) (length its) values])
            (lf ++ [(length (its ++ [parseItem (clock (length its)) (length its) values]) - 1)%nat]))
    as Hpush.
  { rewrite length_app. simpl. replace (length its + 1 - 1)%nat with (length its) by lia.
    split.
    - apply StronglySorted_app. split; [|split; [done|repeat constructor]].
      intros x1 x2 Hx1 ->%list_elem_of_singleton.
      rewrite Forall_forall in Hb. by apply Hb.
    - apply Forall_app. split.
      + eapply Forall_impl; [exact Hb|]. simpl. intros k Hk.
        rewrite length_app. simpl. lia.
      + repeat constructor. rewrite length_app. simpl. lia. }
  destruct isLfIndex as [i|]; [|exact Hkeep].
  destruct (Num.eqb _ _); [exact Hpush|exact Hkeep].
Qed.

Lemma itemLines_lfInvariant clock isLfIndex lines st :
  lfInvariant st.1 st.2 ->
  lfInvariant (fold_left (itemLineStep clock isLfIndex) lines st).1
              (fold_left (itemLineStep clock isLfIndex) lines st).2.
Proof.
  revert st. induction lines as [|line lines IH]; simpl; intros st Hinv; [done|].
  apply IH. unfold itemLineStep. destruct (skipLine _); [done|].
  by apply pushItem_lfInvariant.
Qed.

Lemma legacyLines_lfInvariant clock keys headers isLfIndex lines i st st' :
  lfInvariant (lgItems st) (lgLfIndexes st) ->
  forEachM (legacyLineStep clock keys headers isLfIndex) lines i st = Ret st' ->
  lfInvariant (lgItems st') (lgLfIndexes st').
Proof.
  revert i st. induction lines as [|line lines IH]; simpl; intros i st Hinv Hrun.
  { by inversion Hrun; subst. }
  destruct (legacyLineStep clock keys headers isLfIndex st line i) as [s1|] eqn:Hstep;
    simpl in Hrun; [|done].
  refine (IH _ _ _ Hrun). clear Hrun IH.
  unfold legacyLineStep in Hstep.
  destruct (skipLine _); [by inversion Hstep; subst|].
  destruct (_ && _).
  - destruct (lgF1Snapshot st !! "hasOwnProperty"); [done|].
    destruct (lgF1Snapshot st !! _); by inversion Hstep; subst.
  - pose proof (pushItem_lfInvariant clock isLfIndex
                  (Str.split Str.comma (Str.trim line)) _ _ Hinv) as Hp.
    destruct (pushItem clock _ _ _ _) as [its' lf'].
    by inversion Hstep; subst.
Qed.

Lemma parseCanonical_lfInvariant clock h v ih rows :
  lfInvariant (items (parseCanonical clock h v ih rows))
              (lfIndexes (parseCanonical clock h v ih rows)).
Proof.
  unfold parseCanonical.
  destruct (forEachFrom _ _ _ _) as [f1 f3].
  pose proof (itemLines_lfInvariant clock
                (Str.indexOf "IsLF" (Str.split Str.comma ih)) rows ([], [])
                lfInvariant_nil) as Hinv.
  by destruct (fold_left _ _ _).
Qed.

Lemma legacy_lfInvariant initialState clock s p :
  csvToData_OldFormat initialState clock s = Ret (Some p) ->
  lfInvariant (items p) (lfIndexes p).
Proof.
  unfold csvToData_OldFormat.
  destruct (findIndex _ _) as [hi|]; [|done].
  destruct initialState as [keys|]; [|done].
  destruct (forEachM _ _ _ _) as [st|] eqn:Hrun; simpl; [|done].
  intros [= <-]. simpl.
  eapply legacyLines_lfInvariant; [|exact Hrun]. apply lfInvariant_nil.
Qed.

(** C10. In every non-null result of [csvToData] and of
    [csvToData_OldFormat] the list [lfIndexes] is strictly increasing and each
    of its elements is an index into [items]. *)
Theorem lfIndexes_increasing_in_range initialState clock s p :
  csvToData initialState clock s = Ret (Some p) \/
  csvToData_OldFormat initialState clock s = Ret (Some p) ->
  StronglySorted lt (lfIndexes p) /\
  Forall (fun k => (0 <= k < length (items p))%nat) (lfIndexes p).
Proof.
  intros Hres.
  assert (lfInvariant (items p) (lfIndexes p)) as [Hs Hb].
  { destruct Hres as [Hnew|Hold]; [|by eapply legacy_lfInvariant].
    destruct (linesOf s) as [|h [|v [|b [|ih rows]]]] eqn:Hl.
    1-4: rewrite csvToData_short in Hnew by (rewrite Hl; simpl; lia);
         destruct (csvToData_OldFormat initialState clock s) as [r|] eqn:Hold;
         simpl in Hnew; [|done]; inversion Hnew; subst r;
         by eapply legacy_lfInvariant.
    rewrite (csvToData_canonical _ _ _ _ _ _ _ _ Hl) in Hnew.
    inversion Hnew; subst p. apply parseCanonical_lfInvariant. }
  split; [done|]. eapply Forall_impl; [exact Hb|]. simpl. lia.
Qed.

Lemma lfIndexes_increasing_in_range_witness :
  exists p,
    csvToData None (tickingClock 0)
      (text ["a"; "b"; "c"; "#,Width,IsLF"; "1,10,1"; "2,20,0"; "3,30,1"])
    = Ret (Some p) /\
    lfIndexes p = [0; 2]%nat /\
    StronglySorted lt (lfIndexes p) /\
    Forall (fun k => (0 <= k < length (items p))%nat) (lfIndexes p).
Proof.
  eexists. split; [vm_compute; reflexivity|]. split; [reflexivity|].
  eapply (lfIndexes_increasing_in_range None (tickingClock 0)
            (text ["a"; "b"; "c"; "#,Width,IsLF"; "1,10,1"; "2,20,0"; "3,30,1"])).
  left. vm_compute. reflexivity.
Defined.

(** ** The legacy parser where [initialState] is bound *)

Lemma findIndex_some {A} (p : A -> bool) xs :
  Exists (fun x => p x = true) xs -> exists i, findIndex p xs = Some i.
Proof.
  induction 1 as [x xs Hx|x xs _ [i IH]]; simpl.
  - rewrite Hx. by exists 0%nat.
  - destruct (p x); [by exists 0%nat|]. rewrite IH. by exists (S i).
Qed.

Lemma setProp_lookup_ne (f1 : gmap string cell) key k v :
  key <> k -> setProp f1 key v !! k = f1 !! k.
Proof.
  intros Hne. unfold setProp. destruct (Str.eqb key "__proto__"); [done|].
  by apply lookup_insert_ne.
Qed.

Lemma readSnapshotColumns_lookup_other keys headers values (f1 : gmap string cell) k :
  k ∉ keys -> readSnapshotColumns keys headers values f1 !! k = f1 !! k.
Proof.
  unfold readSnapshotColumns.
  revert f1. induction keys as [|key keys IH]; simpl; intros f1 Hk; [done|].
  apply not_elem_of_cons in Hk as [Hne Hk].
  rewrite IH by done.
  destruct (if Str.eqb key "__proto__" then None else Str.indexOf key headers)
    as [c|]; [|done].
  destruct (values !! c) as [v|]; [|done].
  destruct (Str.isEmpty v); [done|].
  by apply setProp_lookup_ne.
Qed.









(** The condition on the keys is needed: with [hasOwnProperty] among them
    and a column of that name, the first data line stores an own property
    [hasOwnProperty], and the call of the next [F1_SNAPSHOT] row throws. *)
Example legacy_hasOwnProperty_column :
  csvToData_OldFormat (Some ["hasOwnProperty"]) (tickingClock 0)
    (text ["#,Width,hasOwnProperty"; "1,600,4"; "F1_SNAPSHOT,winder_qty,3"])
  = Throw /\
  csvToData (Some ["hasOwnProperty"]) (tickingClock 0)
    (text ["#,Width,hasOwnProperty"; "1,600,4"; "F1_SNAPSHOT,winder_qty,3"])
  = Ret None.
Proof. split; vm_compute; reflexivity. Qed.


(** ** What a cell is read as *)

Lemma numberOrNull_Some x y :
  numberOrNull x = Some y <-> y = x /\ Num.isNaN x = false /\ Num.isZero x = false.
Proof.
  unfold numberOrNull, Num.truthy.
  destruct (Num.isNaN x), (Num.isZero x); simpl; split;
    try (intros [= ->]; done); try (intros (? & ? & ?); congruence).
Qed.

(** ** Facts about strings *)

Lemma app_String c a b : String c a +:+ b = String c (a +:+ b).
Proof. reflexivity. Qed.

Lemma app_empty_r a : a +:+ "" = a.
Proof. induction a as [|c a IH]; [done|]. by rewrite app_String, IH. Qed.

Lemma has_app c a b : Str.has c (a +:+ b) = Str.has c a || Str.has c b.
Proof.
  induction a as [|x a IH]; [done|].
  rewrite app_String. simpl. rewrite IH. by rewrite orb_assoc.
Qed.

Lemma split_no_sep sep a : Str.has sep a = false -> Str.split sep a = [a].
Proof.
  induction a as [|c a IH]; simpl; [done|].
  intros [Hc Ha]%orb_false_elim. rewrite Hc, (IH Ha). done.
Qed.

Lemma split_app_sep sep a b :
  Str.has sep a = false ->
  Str.split sep (a +:+ String sep b) = a :: Str.split sep b.
Proof.
  induction a as [|c a IH]; simpl.
  - intros _. by rewrite Ascii.eqb_refl.
  - intros [Hc Ha]%orb_false_elim. rewrite Hc, (IH Ha). done.
Qed.

Lemma join_cons sep x y ys :
  Str.join sep (x :: y :: ys) = x +:+ String sep (Str.join sep (y :: ys)).
Proof. reflexivity. Qed.

Lemma split_join_prefix sep xs y ys :
  Forall (fun x => Str.has sep x = false) xs ->
  Str.split sep (Str.join sep (xs ++ y :: ys))
  = xs ++ Str.split sep (Str.join sep (y :: ys)).
Proof.
  induction 1 as [|x xs Hx _ IH]; [done|].
  change ((x :: xs) ++ y :: ys) with (x :: (xs ++ y :: ys)).
  destruct (xs ++ y :: ys) as [|z zs] eqn:Hz; [by destruct xs|].
  rewrite join_cons, split_app_sep by done. by rewrite IH.
Qed.

Lemma split_join sep xs :
  xs <> [] ->
  Forall (fun x => Str.has sep x = false) xs ->
  Str.split sep (Str.join sep xs) = xs.
Proof.
  intros Hne Hall. destruct (exists_last Hne) as (ys & y & ->).
  apply Forall_app in Hall as [Hys Hy]. apply Forall_inv in Hy.
  rewrite split_join_prefix by done. simpl. by rewrite split_no_sep.
Qed.

Lemma trimStart_clean s : startsClean s = true -> Str.trimStart s = s.
Proof. destruct s as [|c r]; simpl; [done|]. by destruct (Str.is_ws c). Qed.

Lemma trimEnd_clean s : endsClean s = true -> Str.trimEnd s = s.
Proof.
  induction s as [|c r IH]; [done|].
  destruct r as [|d r'].
  - simpl. by destruct (Str.is_ws c).
  - intros H. change (endsClean (String c (String d r'))) with (endsClean (String d r')) in H.
    specialize (IH H). change (Str.trimEnd (String c (String d r')))
      with (match Str.trimEnd (String d r') with
            | EmptyString => if Str.is_ws c then EmptyString else String c EmptyString
            | r0 => String c r0 end).
    by rewrite IH.
Qed.

Lemma trim_clean s : startsClean s = true -> endsClean s = true -> Str.trim s = s.
Proof. intros Hs He. unfold Str.trim. by rewrite trimStart_clean, trimEnd_clean. Qed.

Lemma endsClean_app a b : endsClean b = true -> endsClean (a +:+ b) = true.
Proof.
  intros Hb. induction a as [|c a IH]; [done|].
  rewrite app_String. destruct (a +:+ b) eqn:Hab; [by destruct a, b|].
  exact IH.
Qed.

Lemma startsClean_app a b : startsClean a = true -> startsClean (a +:+ b) = true.
Proof. by destruct a. Qed.

Lemma endsClean_join sep xs y :
  endsClean y = true -> endsClean (Str.join sep (xs ++ [y])) = true.
Proof.
  intros Hy. induction xs as [|x xs IH]; [done|].
  change ((x :: xs) ++ [y]) with (x :: (xs ++ [y])).
  destruct (xs ++ [y]) as [|z zs] eqn:Hz; [by destruct xs|].
  rewrite join_cons. apply endsClean_app.
  change (endsClean (String sep (Str.join sep (z :: zs))))
    with (match Str.join sep (z :: zs) with
          | EmptyString => negb (Str.is_ws sep)
          | _ => endsClean (Str.join sep (z :: zs)) end).
  destruct (Str.join sep (z :: zs)); [done|exact IH].
Qed.

Lemma has_replaceNl_nl s : Str.has Str.nl (Str.replaceNl s) = false.
Proof.
  induction s as [|c s IH]; [done|]. simpl. rewrite IH.
  destruct (Ascii.eqb c Str.nl) eqn:Hc; [done|]. by rewrite Hc.
Qed.

Lemma replaceNl_id s : Str.has Str.nl s = false -> Str.replaceNl s = s.
Proof.
  induction s as [|c s IH]; [done|]. simpl.
  intros [Hc Hs]%orb_false_elim. by rewrite Hc, IH.
Qed.

Lemma has_replaceNl_comma s :
  Str.has Str.comma (Str.replaceNl s) = Str.has Str.comma s.
Proof.
  induction s as [|c s IH]; [done|]. simpl. rewrite IH.
  destruct (Ascii.eqb c Str.nl) eqn:Hc; [|done].
  apply Ascii.eqb_eq in Hc as ->. done.
Qed.

Lemma quoteCell_id s : Str.has Str.comma s = false -> quoteCell s = s.
Proof. unfold quoteCell. by intros ->. Qed.

Lemma has_quoteCell_nl s : Str.has Str.nl (quoteCell s) = Str.has Str.nl s.
Proof.
  unfold quoteCell. destruct (Str.has Str.comma s); [|done].
  change (String Str.dquote s +:+ String Str.dquote "")
    with (String Str.dquote (s +:+ String Str.dquote "")).
  simpl. rewrite has_app. simpl. by rewrite orb_false_r.
Qed.

Lemma has_join c sep xs :
  Ascii.eqb sep c = false ->
  Forall (fun x => Str.has c x = false) xs ->
  Str.has c (Str.join sep xs) = false.
Proof.
  intros Hsep. induction 1 as [|x xs Hx Hxs IH]; [done|].
  destruct xs as [|y ys]; [done|].
  rewrite join_cons, has_app, Hx.
  change (Str.has c (String sep (Str.join sep (y :: ys))))
    with (Ascii.eqb sep c || Str.has c (Str.join sep (y :: ys))).
  by rewrite Hsep, IH.
Qed.

(** ** Facts about decimal digits *)

Lemma allChars_app p a b : allChars p (a +:+ b) = allChars p a && allChars p b.
Proof.
  induction a as [|c a IH]; [done|].
  change (String c a +:+ b) with (String c (a +:+ b)). simpl.
  by rewrite IH, andb_assoc.
Qed.

Lemma allChars_has p c s : allChars p s = true -> p c = false -> Str.has c s = false.
Proof.
  intros Hs Hc. induction s as [|d s IH]; [done|]. simpl in *.
  apply andb_true_iff in Hs as [Hd Hs]. rewrite (IH Hs), orb_false_r.
  destruct (Ascii.eqb d c) eqn:Heq; [|done].
  apply Ascii.eqb_eq in Heq as ->. congruence.
Qed.

Lemma allChars_impl (p q : ascii -> bool) s :
  (forall c, p c = true -> q c = true) -> allChars p s = true -> allChars q s = true.
Proof.
  intros Hpq. induction s as [|c s IH]; [done|]. simpl.
  intros [Hc Hs]%andb_true_iff. by rewrite (Hpq c Hc), IH.
Qed.

Lemma digitOf_digitChar d : (d < 10)%nat -> Num.digitOf (Num.digitChar d) = Some d.
Proof. intros H. do 10 (destruct d as [|d]; [reflexivity|]). lia. Qed.

Lemma isDigit_digitChar d : (d < 10)%nat -> isDigit (Num.digitChar d) = true.
Proof. intros H. unfold isDigit. by rewrite digitOf_digitChar. Qed.

Lemma allChars_digitsString ds :
  Forall (fun d => (d < 10)%nat) ds -> allChars isDigit (Num.digitsString ds) = true.
Proof.
  induction 1 as [|d ds Hd _ IH]; [done|]. cbn [allChars Num.digitsString].
  by rewrite isDigit_digitChar, IH.
Qed.

Lemma spanDigits_digitsString ds rest :
  Forall (fun d => (d < 10)%nat) ds ->
  startsWithDigit rest = false ->
  Num.spanDigits (Num.digitsString ds +:+ rest) = (ds, rest).
Proof.
  intros Hds Hrest. induction Hds as [|d ds Hd _ IH].
  - destruct rest as [|c r]; [done|]. simpl in *. unfold isDigit in Hrest.
    by destruct (Num.digitOf c).
  - change (Num.digitsString (d :: ds) +:+ rest)
      with (String (Num.digitChar d) (Num.digitsString ds +:+ rest)).
    cbn [Num.spanDigits]. by rewrite digitOf_digitChar, IH.
Qed.

Lemma spanDigits_digitsString_end ds :
  Forall (fun d => (d < 10)%nat) ds ->
  Num.spanDigits (Num.digitsString ds) = (ds, "").
Proof.
  intros Hds. rewrite <- (app_empty_r (Num.digitsString ds)).
  by apply spanDigits_digitsString.
Qed.

Lemma ofDigits_snoc ds d :
  Num.ofDigits (ds ++ [d]) = 10 * Num.ofDigits ds + N.of_nat d.
Proof. unfold Num.ofDigits. by rewrite fold_left_app. Qed.

Lemma ofDigits_app ds es :
  Num.ofDigits (ds ++ es)
  = Num.ofDigits ds * 10 ^ N.of_nat (length es) + Num.ofDigits es.
Proof.
  induction es as [|e es IH] using rev_ind.
  - rewrite app_nil_r. simpl. unfold Num.ofDigits at 3. simpl. lia.
  - rewrite app_assoc, !ofDigits_snoc, IH, length_app. simpl.
    replace (N.of_nat (length es + 1)) with (N.succ (N.of_nat (length es))) by lia.
    rewrite N.pow_succ_r'. lia.
Qed.

Lemma ofDigits_zeros z : Num.ofDigits (Num.zeros z) = 0.
Proof.
  induction z as [|z IH]; [done|].
  change (Num.zeros (S z)) with ([0%nat] ++ Num.zeros z).
  rewrite ofDigits_app, IH. unfold Num.ofDigits. simpl. lia.
Qed.

Lemma length_zeros z : length (Num.zeros z) = z.
Proof. apply length_replicate. Qed.

Lemma Forall_zeros z : Forall (fun d => (d < 10)%nat) (Num.zeros z).
Proof. apply Forall_replicate. lia. Qed.

Lemma ofDigits_app_zeros ds z :
  Num.ofDigits (ds ++ Num.zeros z) = Num.ofDigits ds * 10 ^ N.of_nat z.
Proof. rewrite ofDigits_app, ofDigits_zeros, length_zeros. lia. Qed.

Lemma ofDigits_zeros_app z ds :
  Num.ofDigits (Num.zeros z ++ ds) = Num.ofDigits ds.
Proof. rewrite ofDigits_app, ofDigits_zeros. lia. Qed.

(** What [toDigitsFuel] computes when the fuel suffices. *)
Lemma toDigitsFuel_spec fuel n acc :
  n < 2 ^ N.of_nat fuel -> (0 < fuel)%nat ->
  exists d ds,
    Num.toDigitsFuel fuel n acc = (d :: ds) ++ acc /\
    Forall (fun d => (d < 10)%nat) (d :: ds) /\
    Num.ofDigits (d :: ds) = n /\
    (0 < n -> d <> 0%nat).
Proof.
  revert n acc. induction fuel as [|fuel IH]; intros n acc Hn Hfuel; [lia|].
  cbn [Num.toDigitsFuel]. destruct (n <? 10) eqn:Hlt.
  - apply N.ltb_lt in Hlt. exists (N.to_nat n), [].
    split; [done|]. split; [constructor; [lia|constructor]|].
    split; [unfold Num.ofDigits; cbn [fold_left]; lia|lia].
  - apply N.ltb_ge in Hlt.
    assert (n / 10 < 2 ^ N.of_nat fuel) as Hdiv.
    { replace (N.of_nat (S fuel)) with (N.succ (N.of_nat fuel)) in Hn by lia.
      rewrite N.pow_succ_r' in Hn.
      apply N.Div0.div_lt_upper_bound. lia. }
    assert (0 < fuel)%nat as Hpos.
    { destruct fuel; [|lia]. simpl in Hdiv.
      assert (1 <= n / 10) by (apply N.div_le_lower_bound; lia). lia. }
    destruct (IH (n / 10) (N.to_nat (n mod 10) :: acc) Hdiv Hpos)
      as (d & ds & -> & Hall & Hval & Hhd).
    exists d, (ds ++ [N.to_nat (n mod 10)]).
    split; [cbn [app]; by rewrite <- app_assoc|].
    split; [|split].
    + change (d :: ds ++ [N.to_nat (n mod 10)])
        with ((d :: ds) ++ [N.to_nat (n mod 10)]).
      apply Forall_app. split; [done|]. constructor; [|constructor].
      pose proof (N.mod_upper_bound n 10). lia.
    + change (d :: ds ++ [N.to_nat (n mod 10)])
        with ((d :: ds) ++ [N.to_nat (n mod 10)]).
      rewrite ofDigits_snoc, Hval, N2Nat.id.
      pose proof (N.div_mod n 10). lia.
    + intros _. apply Hhd.
      apply N.div_str_pos. lia.
Qed.

Lemma toDigits_spec n :
  exists d ds,
    Num.toDigits n = d :: ds /\
    Forall (fun d => (d < 10)%nat) (d :: ds) /\
    Num.ofDigits (d :: ds) = n /\
    (0 < n -> d <> 0%nat).
Proof.
  unfold Num.toDigits.
  destruct (toDigitsFuel_spec (S (N.to_nat (N.log2 n))) n []) as (d & ds & H & ?).
  - replace (N.of_nat (S (N.to_nat (N.log2 n)))) with (N.succ (N.log2 n)) by lia.
    destruct (N.eq_dec n 0) as [->|Hn]; [done|].
    apply N.log2_spec. lia.
  - lia.
  - exists d, ds. by rewrite H, app_nil_r.
Qed.

Lemma toDigits_digits n : Forall (fun d => (d < 10)%nat) (Num.toDigits n).
Proof. destruct (toDigits_spec n) as (d & ds & -> & H & _). done. Qed.

Lemma ofDigits_toDigits n : Num.ofDigits (Num.toDigits n) = n.
Proof. destruct (toDigits_spec n) as (d & ds & -> & _ & H & _). done. Qed.

Lemma ofDigits_cons d ds :
  Num.ofDigits (d :: ds) = N.of_nat d * 10 ^ N.of_nat (length ds) + Num.ofDigits ds.
Proof.
  change (d :: ds) with ([d] ++ ds). rewrite ofDigits_app.
  unfold Num.ofDigits at 1. simpl. lia.
Qed.

Lemma length_toDigits_le n k :
  n < 10 ^ N.of_nat k -> (0 < k)%nat -> (length (Num.toDigits n) <= k)%nat.
Proof.
  intros Hn Hk.
  destruct (N.eq_dec n 0) as [->|Hpos].
  { change (Num.toDigits 0) with [0%nat]. cbn [length]. lia. }
  destruct (toDigits_spec n) as (d & ds & -> & _ & Hval & Hhd).
  rewrite ofDigits_cons in Hval. cbn [length].
  destruct (le_lt_dec k (length ds)) as [Hge|]; [|lia]. exfalso.
  assert (10 ^ N.of_nat k <= 10 ^ N.of_nat (length ds))
    by (apply N.pow_le_mono_r; lia).
  specialize (Hhd ltac:(lia)).
  assert (1 <= N.of_nat d) by lia.
  nia.
Qed.

(** ** Facts about the printing and the reading of numbers *)

Lemma stripZeros_zeros ds :
  ds = Num.stripZeros ds ++ Num.zeros (length ds - length (Num.stripZeros ds)).
Proof.
  induction ds as [|d ds IH]; [done|]. cbn [Num.stripZeros].
  destruct (Num.stripZeros ds) as [|r rs] eqn:Hs.
  - cbn [app length] in IH. rewrite Nat.sub_0_r in IH.
    destruct (Nat.eqb d 0) eqn:Hd.
    + apply Nat.eqb_eq in Hd as ->. cbn [app length]. rewrite Nat.sub_0_r.
      change (Num.zeros (S (length ds))) with (0%nat :: Num.zeros (length ds)).
      by rewrite <- IH.
    + cbn [app length].
      replace (S (length ds) - 1)%nat with (length ds) by lia. by rewrite <- IH.
  - cbn [app length] in *.
    replace (S (length ds) - S (S (length rs)))%nat
      with (length ds - S (length rs))%nat by lia.
    by rewrite <- IH.
Qed.

Lemma length_stripZeros ds : (length (Num.stripZeros ds) <= length ds)%nat.
Proof.
  pose proof (stripZeros_zeros ds) as H. apply (f_equal length) in H.
  rewrite length_app in H. lia.
Qed.

Lemma stripZeros_cons d ds :
  d <> 0%nat -> exists r, Num.stripZeros (d :: ds) = d :: r.
Proof.
  intros Hd. cbn [Num.stripZeros]. destruct (Num.stripZeros ds); [|by eexists].
  apply Nat.eqb_neq in Hd. rewrite Hd. by eexists.
Qed.

Lemma Forall_stripZeros (P : nat -> Prop) ds : Forall P ds -> Forall P (Num.stripZeros ds).
Proof.
  intros H. rewrite (stripZeros_zeros ds) in H. by apply Forall_app in H as [H _].
Qed.

Lemma digit_start d r :
  (d < 10)%nat ->
  Str.trimStart (String (Num.digitChar d) r) = String (Num.digitChar d) r /\
  Num.spanSign (String (Num.digitChar d) r) = (false, String (Num.digitChar d) r) /\
  Str.startsWith "Infinity" (String (Num.digitChar d) r) = false /\
  Str.startsWith "total" (Str.toLowerCase (String (Num.digitChar d) r)) = false /\
  startsClean (String (Num.digitChar d) r) = true.
Proof. intros H. do 10 (destruct d as [|d]; [done|]). lia. Qed.

Lemma signed_start neg ds r :
  Forall (fun d => (d < 10)%nat) ds -> ds <> [] ->
  Num.spanSign (Str.trimStart (signString neg +:+ Num.digitsString ds +:+ r))
  = (neg, Num.digitsString ds +:+ r).
Proof.
  intros Hds Hne. destruct ds as [|d ds]; [done|].
  apply Forall_inv in Hds.
  change (Num.digitsString (d :: ds) +:+ r)
    with (String (Num.digitChar d) (Num.digitsString ds +:+ r)).
  destruct (digit_start d (Num.digitsString ds +:+ r) Hds) as (Ht & Hs & _).
  destruct neg; [done|].
  change (signString false +:+ ?x) with x. by rewrite Ht, Hs.
Qed.

Lemma parseInt_signed neg ds r :
  Forall (fun d => (d < 10)%nat) ds -> ds <> [] -> startsWithDigit r = false ->
  Num.parseInt (signString neg +:+ Num.digitsString ds +:+ r)
  = Fin neg (Num.ofDigits ds) 0.
Proof.
  intros Hds Hne Hr. unfold Num.parseInt.
  rewrite signed_start, spanDigits_digitsString by done.
  by destruct ds.
Qed.

Lemma toString_integer neg m :
  0 < m -> m < 10 ^ 21 ->
  Num.toString (Fin neg m 0) = signString neg +:+ Num.digitsString (Num.toDigits m).
Proof.
  intros Hpos Hlt. unfold Num.toString.
  destruct m as [|p]; [lia|]. fold (signString neg). f_equal.
  pose proof (length_toDigits_le (N.pos p) 21 Hlt ltac:(lia)) as Hlen.
  pose proof (length_stripZeros (Num.toDigits (N.pos p))) as Hk.
  unfold Num.positional.
  replace ((Z.of_nat (length (Num.stripZeros (Num.toDigits (N.pos p))))
            <=? Z.of_nat (length (Num.toDigits (N.pos p))) + 0)%Z
           && (Z.of_nat (length (Num.toDigits (N.pos p))) + 0 <=? 21)%Z)
    with true by (symmetry; apply andb_true_iff; split; apply Z.leb_le; lia).
  replace (Z.to_nat (Z.of_nat (length (Num.toDigits (N.pos p))) + 0
                     - Z.of_nat (length (Num.stripZeros (Num.toDigits (N.pos p))))))
    with (length (Num.toDigits (N.pos p))
          - length (Num.stripZeros (Num.toDigits (N.pos p))))%nat by lia.
  by rewrite <- stripZeros_zeros.
Qed.

Lemma toDigits_nonempty n : Num.toDigits n <> [].
Proof. by destruct (toDigits_spec n) as (d & ds & -> & _). Qed.

(** A non-zero integer below 10^21 is printed in plain digits and read back
    by [parseInt]. *)
Lemma parseInt_toString_integer neg m :
  0 < m -> m < 10 ^ 21 ->
  Num.parseInt (Num.toString (Fin neg m 0)) = Fin neg m 0.
Proof.
  intros Hpos Hlt. rewrite toString_integer by done.
  rewrite <- (app_empty_r (Num.digitsString _)).
  rewrite parseInt_signed; [|apply toDigits_digits|apply toDigits_nonempty|done].
  by rewrite ofDigits_toDigits.
Qed.

Lemma parseFloat_signed_int neg ip tail :
  Forall (fun d => (d < 10)%nat) ip -> ip <> [] ->
  startsWithDigit tail = false -> Str.startsWith "." tail = false ->
  Num.parseFloat (signString neg +:+ Num.digitsString ip +:+ tail)
  = Fin neg (Num.ofDigits ip) (Num.spanExponent tail).
Proof.
  intros Hip Hne Ht Hdot. unfold Num.parseFloat.
  rewrite signed_start by done.
  assert (Str.startsWith "Infinity" (Num.digitsString ip +:+ tail) = false) as ->.
  { destruct ip as [|d ip]; [done|]. apply Forall_inv in Hip.
    apply (digit_start d (Num.digitsString ip +:+ tail) Hip). }
  rewrite spanDigits_digitsString by done.
  destruct ip as [|d ip]; [done|].
  destruct tail as [|c tail]; [done|].
  cbn [Str.startsWith] in Hdot. rewrite andb_true_r in Hdot.
  destruct (Ascii.eqb_spec "."%char c) as [<-|Hc]; [done|].
  destruct c as [[] [] [] [] [] [] [] []]; done.
Qed.

Lemma parseFloat_signed_frac neg ip fp tail :
  Forall (fun d => (d < 10)%nat) ip -> ip <> [] ->
  Forall (fun d => (d < 10)%nat) fp ->
  startsWithDigit tail = false ->
  Num.parseFloat (signString neg +:+ Num.digitsString ip
                  +:+ String "."%char (Num.digitsString fp +:+ tail))
  = Fin neg (Num.ofDigits (ip ++ fp))
        (Num.spanExponent tail - Z.of_nat (length fp)).
Proof.
  intros Hip Hne Hfp Ht. unfold Num.parseFloat.
  rewrite signed_start by done.
  assert (Str.startsWith "Infinity"
            (Num.digitsString ip +:+ String "."%char (Num.digitsString fp +:+ tail))
          = false) as ->.
  { destruct ip as [|d ip]; [done|]. apply Forall_inv in Hip.
    apply (digit_start d _ Hip). }
  rewrite spanDigits_digitsString by done.
  rewrite spanDigits_digitsString by done.
  by destruct ip.
Qed.

Lemma spanExponent_expString x :
  Num.spanExponent (String "e"%char (Num.expString x)) = x.
Proof.
  unfold Num.spanExponent, Num.expString.
  change (Ascii.eqb "e" "e" || Ascii.eqb "e" "E") with true. cbv iota.
  pose proof (toDigits_digits (Z.abs_N x)) as Hds.
  pose proof (toDigits_nonempty (Z.abs_N x)) as Hne.
  pose proof (ofDigits_toDigits (Z.abs_N x)) as Hval.
  destruct (Z.ltb_spec x 0).
  - cbn [Num.spanSign]. rewrite spanDigits_digitsString_end by done.
    destruct (Num.toDigits (Z.abs_N x)) as [|d ds] eqn:Hd; [done|].
    rewrite Hval. lia.
  - cbn [Num.spanSign]. rewrite spanDigits_digitsString_end by done.
    destruct (Num.toDigits (Z.abs_N x)) as [|d ds] eqn:Hd; [done|].
    rewrite Hval. lia.
Qed.

Lemma eqb_scaled neg D z e :
  Num.eqb (Fin neg D (Z.of_nat z + e)) (Fin neg (D * 10 ^ N.of_nat z) e) = true.
Proof.
  unfold Num.eqb. rewrite Z.min_r by lia.
  replace (Z.of_nat z + e - e)%Z with (Z.of_nat z) by lia.
  rewrite Z.sub_diag, N2Z.inj_mul, N2Z.inj_pow, nat_N_Z. simpl (10 ^ 0)%Z.
  rewrite Z.mul_1_r. change (Z.of_N 10) with 10%Z.
  rewrite Z.eqb_refl, Bool.eqb_reflx. by rewrite orb_true_r.
Qed.

Lemma eqb_scaled_int neg D z e :
  (0 <= Z.of_nat z + e)%Z ->
  Num.eqb (Fin neg (D * 10 ^ N.of_nat (Z.to_nat (Z.of_nat z + e))) 0)
          (Fin neg (D * 10 ^ N.of_nat z) e) = true.
Proof.
  intros Hge. unfold Num.eqb.
  assert ((Z.of_N (D * 10 ^ N.of_nat (Z.to_nat (Z.of_nat z + e)))
           * 10 ^ (0 - Z.min 0 e))%Z
          = (Z.of_N (D * 10 ^ N.of_nat z) * 10 ^ (e - Z.min 0 e))%Z) as ->.
  { rewrite !N2Z.inj_mul, !N2Z.inj_pow, !nat_N_Z. change (Z.of_N 10) with 10%Z.
    rewrite Z2Nat.id by done. rewrite <- !Z.mul_assoc. f_equal.
    rewrite <- !Z.pow_add_r by lia. f_equal. lia. }
  rewrite Z.eqb_refl, Bool.eqb_reflx. by rewrite orb_true_r.
Qed.

(** What [toString] works with for a non-zero [m]: the digits without the
    zeros at the end, their count, and the count of the zeros dropped. *)
Lemma toDigits_stripped m :
  0 < m ->
  exists d ds z,
    Num.stripZeros (Num.toDigits m) = d :: ds /\
    Forall (fun d => (d < 10)%nat) (d :: ds) /\
    length (Num.toDigits m) = (length (d :: ds) + z)%nat /\
    m = Num.ofDigits (d :: ds) * 10 ^ N.of_nat z.
Proof.
  intros Hpos.
  destruct (toDigits_spec m) as (d & r & Hall & Hdig & Hval & Hhd).
  destruct (stripZeros_cons d r (Hhd Hpos)) as [ds Hs].
  pose proof (stripZeros_zeros (Num.toDigits m)) as Hz.
  pose proof (length_stripZeros (Num.toDigits m)) as Hlen.
  rewrite Hall in *. rewrite Hs in *.
  exists d, ds, (length (d :: r) - length (d :: ds))%nat.
  split; [done|]. split; [|split].
  - rewrite Hz in Hdig. by apply Forall_app in Hdig as [? _].
  - lia.
  - rewrite <- ofDigits_app_zeros, <- Hz. done.
Qed.

Lemma parseFloat_positional neg d ds n :
  Forall (fun d => (d < 10)%nat) (d :: ds) ->
  exists M E,
    Num.parseFloat (signString neg +:+ Num.positional (d :: ds) n) = Fin neg M E /\
    ((E = (n - Z.of_nat (length (d :: ds)))%Z /\ M = Num.ofDigits (d :: ds)) \/
     (E = 0%Z /\ (0 <= n - Z.of_nat (length (d :: ds)))%Z /\
      M = Num.ofDigits (d :: ds)
          * 10 ^ N.of_nat (Z.to_nat (n - Z.of_nat (length (d :: ds)))))).
Proof.
  intros Hds. unfold Num.positional.
  set (k := Z.of_nat (length (d :: ds))).
  destruct ((k <=? n)%Z && (n <=? 21)%Z) eqn:HA.
  { apply andb_true_iff in HA as [HA1%Z.leb_le HA2%Z.leb_le].
    eexists _, _. split.
    - rewrite <- (app_empty_r (Num.digitsString _)).
      apply parseFloat_signed_int; try done.
      apply Forall_app. split; [done|apply Forall_zeros].
    - right. split; [done|]. split; [lia|]. by rewrite ofDigits_app_zeros. }
  destruct ((0 <? n)%Z && (n <=? 21)%Z) eqn:HB.
  { apply andb_true_iff in HB as [HB1%Z.ltb_lt HB2%Z.leb_le].
    assert (n < k)%Z as Hnk.
    { apply andb_false_iff in HA as [HA%Z.leb_gt|HA%Z.leb_gt]; lia. }
    eexists _, _. split.
    - rewrite <- (app_empty_r (Num.digitsString (drop _ _))).
      apply parseFloat_signed_frac; try done.
      + by apply Forall_take.
      + destruct (Z.to_nat n) eqn:Hn; [lia|done].
      + by apply Forall_drop.
    - left. rewrite take_drop. split; [|done].
      rewrite length_drop. cbn [Num.spanExponent]. unfold k in *. lia. }
  destruct ((-6 <? n)%Z && (n <=? 0)%Z) eqn:HC.
  { apply andb_true_iff in HC as [HC1%Z.ltb_lt HC2%Z.leb_le].
    eexists _, _. split.
    - rewrite <- (app_empty_r (Num.digitsString (Num.zeros _ ++ _))).
      apply (parseFloat_signed_frac neg [0%nat]); try done.
      + constructor; [lia|constructor].
      + apply Forall_app. split; [apply Forall_zeros|done].
    - left. rewrite length_app, length_zeros. cbn [Num.spanExponent].
      split; [unfold k; lia|].
      change ([0%nat] ++ Num.zeros (Z.to_nat (- n)) ++ d :: ds)
        with (Num.zeros (S (Z.to_nat (- n))) ++ d :: ds).
      by rewrite ofDigits_zeros_app. }
  destruct ds as [|d' ds'].
  - eexists _, _. split.
    + change (String (Num.digitChar d) (String "e" (Num.expString (n - 1))))
        with (Num.digitsString [d] +:+ String "e" (Num.expString (n - 1))).
      apply parseFloat_signed_int; done.
    + left. rewrite spanExponent_expString. unfold k. cbn [length]. split; [lia|done].
  - eexists _, _. split.
    + change (String (Num.digitChar d) (String "." (Num.digitsString (d' :: ds')))
              +:+ String "e" (Num.expString (n - 1)))
        with (Num.digitsString [d] +:+ String "."
                (Num.digitsString (d' :: ds') +:+ String "e" (Num.expString (n - 1)))).
      apply parseFloat_signed_frac; try done.
      * constructor; [by apply Forall_inv in Hds|constructor].
      * by apply Forall_inv_tail in Hds.
    + left. rewrite spanExponent_expString. unfold k. cbn [length app]. split; [lia|done].
Qed.

(** Printing a finite non-zero number and reading it back with [parseFloat]
    gives a number equal to it. *)
Lemma parseFloat_toString neg m e :
  0 < m ->
  exists y, Num.parseFloat (Num.toString (Fin neg m e)) = y /\
            Num.isNaN y = false /\
            Num.eqb y (Fin neg m e) = true.
Proof.
  intros Hpos.
  destruct (toDigits_stripped m Hpos) as (d & ds & z & Hs & Hdig & Hlen & Hm).
  unfold Num.toString. destruct m as [|p]; [lia|].
  rewrite Hs, Hlen. fold (signString neg).
  destruct (parseFloat_positional neg d ds
              (Z.of_nat (length (d :: ds) + z) + e) Hdig)
    as (M & E & -> & Hcases).
  eexists. split; [done|]. split; [done|].
  replace (Z.of_nat (length (d :: ds) + z) + e - Z.of_nat (length (d :: ds)))%Z
    with (Z.of_nat z + e)%Z in Hcases by lia.
  rewrite Hm.
  destruct Hcases as [[-> ->]|(-> & Hge & ->)].
  - apply eqb_scaled.
  - by apply eqb_scaled_int.
Qed.

Lemma plainText_has s :
  plainText s = true -> Str.has Str.comma s = false /\ Str.has Str.nl s = false.
Proof. intros H. split; by apply (allChars_has plainChar). Qed.

Lemma isDigit_plain c : isDigit c = true -> plainChar c = true.
Proof. destruct c as [[] [] [] [] [] [] [] []]; done. Qed.

Lemma isDigit_head c r :
  isDigit c = true ->
  startsClean (String c r) = true /\
  Str.startsWith "total" (Str.toLowerCase (String c r)) = false.
Proof. destruct c as [[] [] [] [] [] [] [] []]; done. Qed.

Lemma plainText_digitsString ds :
  Forall (fun d => (d < 10)%nat) ds -> plainText (Num.digitsString ds) = true.
Proof.
  intros H. apply (allChars_impl isDigit); [apply isDigit_plain|].
  by apply allChars_digitsString.
Qed.

Lemma plainText_app a b : plainText (a +:+ b) = plainText a && plainText b.
Proof. apply allChars_app. Qed.

Lemma plainText_expString x : plainText (Num.expString x) = true.
Proof.
  unfold Num.expString. cbn [plainText allChars].
  fold (plainText (Num.digitsString (Num.toDigits (Z.abs_N x)))).
  rewrite plainText_digitsString by apply toDigits_digits.
  by destruct (x <? 0)%Z.
Qed.

Lemma plainText_positional ds n :
  Forall (fun d => (d < 10)%nat) ds -> plainText (Num.positional ds n) = true.
Proof.
  intros Hds. unfold Num.positional.
  destruct (_ && _).
  { apply plainText_digitsString, Forall_app. split; [done|apply Forall_zeros]. }
  destruct (_ && _).
  { rewrite plainText_app. cbn [plainText allChars].
    fold (plainText (Num.digitsString (drop (Z.to_nat n) ds))).
    rewrite !plainText_digitsString; [done|by apply Forall_drop|by apply Forall_take]. }
  destruct (_ && _).
  { cbn [plainText allChars].
    fold (plainText (Num.digitsString (Num.zeros (Z.to_nat (- n)) ++ ds))).
    rewrite plainText_digitsString; [done|].
    apply Forall_app. split; [apply Forall_zeros|done]. }
  destruct ds as [|d [|d' ds']]; [done| |].
  - cbn [plainText allChars]. fold (plainText (Num.expString (n - 1))).
    rewrite plainText_expString, isDigit_plain; [done|].
    apply isDigit_digitChar. by apply Forall_inv in Hds.
  - rewrite plainText_app. cbn [plainText allChars].
    fold (plainText (Num.digitsString (d' :: ds'))).
    fold (plainText (Num.expString (n - 1))).
    rewrite plainText_expString, plainText_digitsString, isDigit_plain; try done.
    + apply isDigit_digitChar. by apply Forall_inv in Hds.
    + by apply Forall_inv_tail in Hds.
Qed.

Lemma plainText_toString x : plainText (Num.toString x) = true.
Proof.
  destruct x as [|[]|neg m e]; try done.
  unfold Num.toString. destruct m as [|p]; [done|].
  rewrite plainText_app, plainText_positional.
  - by destruct neg.
  - apply Forall_stripZeros, toDigits_digits.
Qed.

Lemma positional_head d ds n :
  (d < 10)%nat ->
  exists c r, Num.positional (d :: ds) n = String c r /\ isDigit c = true.
Proof.
  intros Hd. unfold Num.positional.
  destruct ((Z.of_nat (length (d :: ds)) <=? n)%Z && (n <=? 21)%Z).
  { cbn [app Num.digitsString].
    eexists _, _. split; [reflexivity|by apply isDigit_digitChar]. }
  destruct ((0 <? n)%Z && (n <=? 21)%Z) eqn:HB.
  { apply andb_true_iff in HB as [HB%Z.ltb_lt _].
    destruct (Z.to_nat n) as [|n'] eqn:Hn; [lia|].
    cbn [take Num.digitsString].
    change (String ?c ?a +:+ ?b) with (String c (a +:+ b)).
    eexists _, _. split; [reflexivity|by apply isDigit_digitChar]. }
  destruct ((-6 <? n)%Z && (n <=? 0)%Z); [by eexists _, _|].
  destruct ds.
  - eexists _, _. split; [reflexivity|by apply isDigit_digitChar].
  - change (String ?c ?a +:+ ?b) with (String c (a +:+ b)).
    eexists _, _. split; [reflexivity|by apply isDigit_digitChar].
Qed.

(** A positive number is printed with a digit in front. *)
Lemma toString_positive_head m e :
  0 < m -> exists c r, Num.toString (Fin false m e) = String c r /\ isDigit c = true.
Proof.
  intros Hpos.
  destruct (toDigits_stripped m Hpos) as (d & ds & z & Hs & Hdig & _).
  unfold Num.toString. destruct m as [|p]; [lia|]. rewrite Hs.
  apply positional_head. by apply Forall_inv in Hdig.
Qed.

Lemma padded3_spec ds :
  Forall (fun d => (d < 10)%nat) ds ->
  Forall (fun d => (d < 10)%nat) (Num.padded3 ds) /\
  (3 <= length (Num.padded3 ds))%nat /\
  Num.ofDigits (Num.padded3 ds) = Num.ofDigits ds.
Proof.
  intros Hds. unfold Num.padded3. split; [|split].
  - apply Forall_app. split; [apply Forall_zeros|done].
  - rewrite length_app, length_zeros. lia.
  - apply ofDigits_zeros_app.
Qed.

(** A price in hundredths below 10^21 is printed by [toFixed(2)] with its
    two decimals. *)
Lemma toFixed2_cents neg m :
  0 < m -> m < 10 ^ 23 ->
  exists ip fp,
    Num.toFixed2 (Fin neg m (-2))
    = signString neg +:+ Num.digitsString ip +:+ String "."%char (Num.digitsString fp) /\
    Forall (fun d => (d < 10)%nat) ip /\ ip <> [] /\
    Forall (fun d => (d < 10)%nat) fp /\ length fp = 2%nat /\
    Num.ofDigits (ip ++ fp) = m.
Proof.
  intros Hpos Hlt. unfold Num.toFixed2, Num.atLeast1e21, Num.hundredths.
  change (0 <=? -2)%Z with false. change (0 <=? -2 + 2)%Z with true. cbv iota.
  change (21 + Z.to_N (- -2)) with 23. change (10 ^ Z.to_N (-2 + 2)) with 1.
  rewrite N.mul_1_r.
  destruct (N.leb_spec (10 ^ 23) m) as [|_]; [lia|].
  destruct (padded3_spec (Num.toDigits m) (toDigits_digits m)) as (Hdig & Hlen & Hval).
  set (ds := Num.padded3 (Num.toDigits m)) in *.
  exists (take (length ds - 2) ds), (drop (length ds - 2) ds).
  split; [|split; [|split; [|split; [|split]]]].
  - replace (neg && negb (m =? 0)) with neg; [done|].
    destruct (N.eqb_spec m 0); [lia|]. by rewrite andb_true_r.
  - by apply Forall_take.
  - destruct ds as [|a [|b [|c r]]]; cbn [length] in *; try lia.
    replace (S (S (S (length r))) - 2)%nat with (S (length r)) by lia. done.
  - by apply Forall_drop.
  - rewrite length_drop. lia.
  - by rewrite take_drop, Hval, ofDigits_toDigits.
Qed.

Lemma parseFloat_toFixed2_cents neg m :
  0 < m -> m < 10 ^ 23 ->
  Num.parseFloat (Num.toFixed2 (Fin neg m (-2))) = Fin neg m (-2).
Proof.
  intros Hpos Hlt.
  destruct (toFixed2_cents neg m Hpos Hlt) as (ip & fp & -> & Hip & Hne & Hfp & Hlen & Hval).
  rewrite <- (app_empty_r (Num.digitsString fp)).
  rewrite parseFloat_signed_frac by done.
  by rewrite Hval, Hlen.
Qed.

Lemma plainText_toFixed2 x : plainText (Num.toFixed2 x) = true.
Proof.
  destruct x as [|b|neg m e]; [done|apply plainText_toString|].
  unfold Num.toFixed2. destruct (Num.atLeast1e21 m e); [apply plainText_toString|].
  destruct (padded3_spec _ (toDigits_digits (Num.hundredths m e))) as (Hdig & _).
  rewrite !plainText_app. cbn [plainText allChars].
  fold (plainText (Num.digitsString
          (drop (length (Num.padded3 (Num.toDigits (Num.hundredths m e))) - 2)
                (Num.padded3 (Num.toDigits (Num.hundredths m e)))))).
  rewrite !plainText_digitsString; [|by apply Forall_drop|by apply Forall_take].
  by destruct (neg && _).
Qed.

(** ** The serializer on a record of the data model *)

Lemma itemValue_get it :
  Js.get (itemValue it) "width" = numValue (width it) /\
  Js.get (itemValue it) "height" = numValue (height it) /\
  Js.get (itemValue it) "fabricType" = textValue (fabricType it) /\
  Js.get (itemValue it) "linePrice" = numValue (linePrice it) /\
  Js.get (itemValue it) "location" = VStr (location it) /\
  Js.get (itemValue it) "fabric" = VStr (fabric it) /\
  Js.get (itemValue it) "color" = VStr (color it) /\
  Js.get (itemValue it) "over" = VStr (over it) /\
  Js.get (itemValue it) "oi" = VStr (oi it) /\
  Js.get (itemValue it) "lr" = VStr (lr it) /\
  Js.get (itemValue it) "dual" = VStr (dual it) /\
  Js.get (itemValue it) "chain" = numValue (chain it) /\
  Js.get (itemValue it) "winder" = VStr (winder it) /\
  Js.get (itemValue it) "motor" = VStr (motor it).
Proof. repeat split; reflexivity. Qed.

Lemma eqb_ofNat j i : Num.eqb (Num.ofNat j) (Num.ofNat i) = Nat.eqb j i.
Proof.
  unfold Num.eqb, Num.ofNat. rewrite Z.min_id, Z.sub_diag, !Z.mul_1_r.
  rewrite Bool.eqb_reflx, orb_true_r, andb_true_r.
  destruct (Nat.eqb_spec j i) as [->|Hne]; [apply Z.eqb_refl|].
  apply Z.eqb_neq. lia.
Qed.

Lemma includesIndex_modified lf i :
  Js.includesIndex (VArr (map (fun i => VNum (Num.ofNat i)) lf)) i
  = Ret (bool_decide (i ∈ lf)).
Proof.
  cbn [Js.includesIndex]. f_equal.
  induction lf as [|j lf IH]; [done|].
  cbn [map existsb]. rewrite IH, eqb_ofNat.
  destruct (Nat.eqb_spec j i) as [->|Hne].
  - cbn [orb]. symmetry. apply bool_decide_eq_true_2, list_elem_of_here.
  - cbn [orb]. apply bool_decide_ext. rewrite elem_of_cons.
    split; [by right|]. intros [->|H]; [done|exact H].
Qed.

Lemma numberCell_field o :
  Js.toString (Js.or (numValue o) (VStr "")) = Ret (numberCell o).
Proof.
  destruct o as [x|]; [|done]. unfold Js.or. cbn [numValue Js.truthy numberCell].
  by destruct (Num.truthy x).
Qed.

Lemma textCell_field s : Js.toString (Js.or (VStr s) (VStr "")) = Ret s.
Proof. by destruct s. Qed.

Lemma typeCell_field o :
  Js.toString (Js.or (textValue o) (VStr "")) = Ret (default "" o).
Proof. destruct o as [[|c s]|]; done. Qed.

Lemma itemRow_itemValue lf it index :
  itemRow (VArr (map (fun i => VNum (Num.ofNat i)) lf)) (itemValue it) index
  = Ret (if keptItem it
         then Some (Str.join Str.comma (rowCells it index (bool_decide (index ∈ lf))))
         else None).
Proof.
  unfold itemRow, keptItem, Js.getProp.
  change (Js.isNullish (itemValue it)) with false. cbv iota. cbn [obind].
  destruct (itemValue_get it)
    as (-> & -> & -> & -> & -> & -> & -> & -> & -> & -> & -> & -> & -> & ->).
  destruct (Js.truthy (numValue (width it)) || Js.truthy (numValue (height it)));
    [|done].
  rewrite includesIndex_modified.
  assert ((if negb (Js.isNull (numValue (linePrice it)))
           then Js.toFixed2 (numValue (linePrice it)) else Ret "")
          = Ret (priceCell (linePrice it))) as -> by (by destruct (linePrice it)).
  cbn [obind mapM_from]. unfold itemCell.
  rewrite !numberCell_field, !textCell_field, typeCell_field.
  cbn [obind Js.toString]. unfold rowCells.
  rewrite (quoteCell_id (Num.toString (Num.ofNat (index + 1))))
    by apply plainText_has, plainText_toString.
  by destruct (bool_decide (index ∈ lf)).
Qed.

(** ** Reading back the row of an item *)

Lemma wfInteger_cell o :
  wfInteger o = true ->
  plainText (numberCell o) = true /\
  numberOrNull (Num.parseInt (quoteCell (numberCell o))) = o.
Proof.
  intros Hwf. split.
  { destruct o as [x|]; [|done]. cbn [numberCell].
    destruct (Num.truthy x); [apply plainText_toString|done]. }
  destruct o as [[| |neg m e]|]; try done.
  destruct e as [|p|p]; try done.
  cbn [wfInteger] in Hwf.
  apply andb_true_iff in Hwf as [Hpos%N.ltb_lt Hlt%N.ltb_lt].
  assert (Num.truthy (Fin neg m 0) = true) as Htr by (by destruct m; [lia|]).
  cbn [numberCell]. rewrite Htr.
  rewrite quoteCell_id by apply plainText_has, plainText_toString.
  rewrite parseInt_toString_integer by done.
  unfold numberOrNull. by rewrite Htr.
Qed.

Lemma wfPrice_cell o :
  wfPrice o = true ->
  plainText (priceCell o) = true /\
  numberOrNull (Num.parseFloat (quoteCell (priceCell o))) = o.
Proof.
  intros Hwf. split.
  { destruct o as [x|]; [apply plainText_toFixed2|done]. }
  destruct o as [[| |neg m e]|]; try done.
  destruct e as [|p|[p|[p| |]|]]; try done.
  cbn [wfPrice] in Hwf.
  apply andb_true_iff in Hwf as [Hpos%N.ltb_lt Hlt%N.ltb_lt].
  cbn [priceCell].
  rewrite quoteCell_id by apply plainText_has, plainText_toFixed2.
  rewrite parseFloat_toFixed2_cents by done.
  unfold numberOrNull. by destruct m; [lia|].
Qed.

Lemma wfType_cell o :
  wfType o = true ->
  plainText (default "" o) = true /\
  stringOrNull (Some (quoteCell (default "" o))) = o.
Proof.
  destruct o as [s|]; [|done]. cbn [wfType default].
  intros [Hne Hplain]%andb_true_iff. split; [done|].
  rewrite quoteCell_id by by apply plainText_has.
  by destruct s.
Qed.

Lemma wfItem_fields it :
  wfItem it = true ->
  wfInteger (width it) = true /\ wfInteger (height it) = true /\
  wfInteger (chain it) = true /\ wfPrice (linePrice it) = true /\
  wfType (fabricType it) = true /\
  Forall (fun s => plainText s = true)
    [location it; fabric it; color it; over it; oi it; lr it; dual it;
     winder it; motor it].
Proof.
  unfold wfItem. rewrite !andb_true_iff, forallb_forall, Forall_forall.
  intros [[[[[H1 H2] H3] H4] H5] H6]. repeat split; try done.
  intros s Hs. apply H6. by apply list_elem_of_In.
Qed.

Lemma rowCells_plain it index isLf :
  wfItem it = true ->
  rowCells it index isLf
  = [ Num.toString (Num.ofNat (index + 1));
      numberCell (width it); numberCell (height it);
      default "" (fabricType it); priceCell (linePrice it);
      location it; fabric it; color it; over it; oi it; lr it; dual it;
      numberCell (chain it); winder it; motor it;
      if isLf then "1" else "0" ] /\
  Forall (fun c => plainText c = true) (rowCells it index isLf).
Proof.
  intros (Hw & Hh & Hc & Hp & Ht & Htexts)%wfItem_fields.
  apply wfInteger_cell in Hw as [Hw _], Hh as [Hh _], Hc as [Hc _].
  apply wfPrice_cell in Hp as [Hp _]. apply wfType_cell in Ht as [Ht _].
  repeat match goal with
         | H : Forall _ (_ :: _) |- _ => apply Forall_cons in H as [? H]
         end.
  assert (forall s, plainText s = true -> quoteCell s = s) as Hq
    by (intros s Hs; by apply quoteCell_id, plainText_has).
  unfold rowCells. rewrite !Hq by done. split; [done|].
  repeat (constructor; [done || apply plainText_toString || by destruct isLf|]).
  constructor.
Qed.

Lemma parseItem_rowCells it now n index isLf :
  wfItem it = true ->
  parseItem now n (rowCells it index isLf)
  = mkItem ("item-" +:+ Num.toString (Fin false now 0) +:+ "-"
            +:+ Num.toString (Num.ofNat n))
      (width it) (height it) (fabricType it) (linePrice it) (location it)
      (fabric it) (color it) (over it) (oi it) (lr it) (dual it) (chain it)
      (winder it) (motor it).
Proof.
  intros Hwf. pose proof (rowCells_plain it index isLf Hwf) as [_ Hplain].
  apply wfItem_fields in Hwf as (Hw & Hh & Hc & Hp & Ht & Htexts).
  apply wfInteger_cell in Hw as [_ Hw], Hh as [_ Hh], Hc as [_ Hc].
  apply wfPrice_cell in Hp as [_ Hp]. apply wfType_cell in Ht as [_ Ht].
  repeat match goal with
         | H : Forall _ (_ :: _) |- _ => apply Forall_cons in H as [? H]
         end.
  assert (forall s, plainText s = true -> quoteCell s = s) as Hq
    by (intros s Hs; by apply quoteCell_id, plainText_has).
  unfold parseItem, rowCells.
  cbn [lookup list_lookup argString stringOrEmpty default].
  rewrite Ht. change (id ?x) with x.
  rewrite Hw, Hh, Hc, Hp, !Hq by done. done.
Qed.

Lemma row_line_clean it index isLf :
  wfItem it = true ->
  let line := Str.join Str.comma (rowCells it index isLf) in
  Str.trim line = line /\ skipLine line = false /\
  Str.split Str.comma line = rowCells it index isLf /\
  Str.has Str.nl line = false.
Proof.
  intros Hwf line. pose proof (rowCells_plain it index isLf Hwf) as [_ Hplain].
  assert (exists c r, line = String c r /\ isDigit c = true) as (c & r & Hline & Hc).
  { destruct (toString_positive_head (N.of_nat (index + 1)) 0 ltac:(lia))
      as (c & r & Hhead & Hc).
    exists c. eexists. split; [|exact Hc]. unfold line, rowCells.
    rewrite join_cons. unfold Num.ofNat. rewrite Hhead. reflexivity. }
  assert (endsClean line = true) as Hend.
  { unfold line, rowCells.
    change [?a; ?b; ?c0; ?d; ?e; ?f; ?g; ?h; ?i; ?j; ?k; ?l; ?m; ?n; ?o; ?p]
      with ([a; b; c0; d; e; f; g; h; i; j; k; l; m; n; o] ++ [p]).
    apply endsClean_join. by destruct isLf. }
  destruct (isDigit_head c r Hc) as [Hstart Htotal].
  split; [|split; [|split]].
  - apply trim_clean; [by rewrite Hline|done].
  - unfold skipLine. by rewrite Hline, Htotal.
  - apply split_join; [done|].
    eapply Forall_impl; [exact Hplain|]. intros s Hs. by apply plainText_has.
  - apply has_join; [done|].
    eapply Forall_impl; [exact Hplain|]. intros s Hs. by apply plainText_has.
Qed.

Lemma itemLineStep_row clock it index isLf its lf :
  wfItem it = true ->
  itemLineStep clock (Some 15%nat) (its, lf)
    (Str.join Str.comma (rowCells it index isLf))
  = (its ++ [stampItem clock (length its) it],
     if isLf then lf ++ [length its] else lf).
Proof.
  intros Hwf. destruct (row_line_clean it index isLf Hwf) as (Htrim & Hskip & Hsplit & _).
  unfold itemLineStep. rewrite Htrim, Hskip, Hsplit. cbn [fst snd]. unfold pushItem.
  rewrite parseItem_rowCells by done. fold (stampItem clock (length its) it).
  rewrite length_app. cbn [length].
  replace (length its + 1 - 1)%nat with (length its) by lia.
  destruct isLf; reflexivity.
Qed.

Lemma mapM_itemRows lf its index :
  (let! rows := mapM_from (itemRow (VArr (map (fun i => VNum (Num.ofNat i)) lf)))
                  (map itemValue its) index in
   Ret (omap id rows))
  = Ret (itemRowsOf lf its index).
Proof.
  revert index. induction its as [|it its IH]; intros index; [done|].
  cbn [map mapM_from itemRowsOf]. rewrite itemRow_itemValue. cbn [obind].
  specialize (IH (S index)).
  destruct (mapM_from _ (map itemValue its) (S index)) as [rows|]; [|done].
  cbn [obind] in *. injection IH as IH.
  destruct (keptItem it); cbn [omap list_omap id]; by rewrite IH.
Qed.

Lemma eqb_refl_str s : Str.eqb s s = true.
Proof. unfold Str.eqb. by apply bool_decide_eq_true_2. Qed.

Lemma assoc_f1 key f1 :
  Js.assoc key (map (fun kv : string * number => (kv.1, VNum kv.2)) f1)
  = VNum <$> f1Lookup key f1.
Proof.
  induction f1 as [|[k x] f1 IH]; [done|].
  cbn [map Js.assoc f1Lookup fst snd]. by destruct (Str.eqb k key).
Qed.

Lemma projectCell_text s : projectCell (VStr s) = Ret (quoteCell (Str.replaceNl s)).
Proof. reflexivity. Qed.

Lemma projectCell_or_text s :
  projectCell (Js.or (VStr s) (VStr "")) = Ret (quoteCell (Str.replaceNl s)).
Proof. by destruct s. Qed.

Lemma projectCell_f1 key f1 :
  projectCell
    (f1Value (VObj (map (fun kv : string * number => (kv.1, VNum kv.2)) f1)) key)
  = Ret (f1Cell (f1Lookup key f1)).
Proof.
  unfold f1Value. cbn [Js.get]. rewrite assoc_f1.
  destruct (f1Lookup key f1) as [x|]; [|done].
  cbn [fmap option_fmap option_map default]. unfold id.
  change (negb (Js.isNullish (VNum x))) with true. cbv iota.
  unfold projectCell. cbn [Js.toString obind].
  pose proof (plainText_has _ (plainText_toString x)) as [Hc Hn].
  by rewrite replaceNl_id, quoteCell_id.
Qed.

Lemma quoteValue_get q :
  Js.get (quoteValue q) "quoteId" = VStr (qQuoteId q) /\
  Js.get (quoteValue q) "issueDate" = VStr (qIssueDate q) /\
  Js.get (quoteValue q) "dueDate" = VStr (qDueDate q) /\
  getNestedValue (quoteValue q) "customer.name" = VStr (qName q) /\
  getNestedValue (quoteValue q) "customer.address" = VStr (qAddress q) /\
  getNestedValue (quoteValue q) "customer.phone" = VStr (qPhone q) /\
  getNestedValue (quoteValue q) "customer.email" = VStr (qEmail q) /\
  Js.get (quoteValue q) "f1Snapshot"
  = VObj (map (fun kv => (kv.1, VNum kv.2)) (qF1 q)) /\
  Js.getOpt (quoteValue q) "currentProduct" = VStr (qProduct q) /\
  Js.getOpt (quoteValue q) "products"
  = VObj [(qProduct q, VObj [("items", VArr (map itemValue (qItems q)))])] /\
  Js.getOpt (Js.getOpt (quoteValue q) "uiMetadata") "lfModifiedRowIndexes"
  = VArr (map (fun i => VNum (Num.ofNat i)) (qLf q)).
Proof. repeat split; reflexivity. Qed.

Lemma projectValues_quoteValue q :
  mapM_from (fun v _ => projectCell v)
    ([ Js.or (VStr (qQuoteId q)) (VStr "");
       Js.or (VStr (qIssueDate q)) (VStr "");
       Js.or (VStr (qDueDate q)) (VStr "");
       VStr (qName q); VStr (qAddress q); VStr (qPhone q); VStr (qEmail q) ]
     ++ map (f1Value (VObj (map (fun kv => (kv.1, VNum kv.2)) (qF1 q))))
            f1SnapshotKeys) 0
  = Ret (projectCells q).
Proof.
  unfold f1SnapshotKeys, projectCells. cbn [map app mapM_from].
  rewrite !projectCell_or_text, !projectCell_text, !projectCell_f1.
  reflexivity.
Qed.

Lemma get_single key v : Js.get (VObj [(key, v)]) key = v.
Proof. cbn [Js.get Js.assoc]. by rewrite eqb_refl_str. Qed.

Lemma dataToCsv_quoteValue q : dataToCsv (quoteValue q) = Ret (csvOf q).
Proof.
  unfold dataToCsv.
  destruct (quoteValue_get q)
    as (-> & -> & -> & -> & -> & -> & -> & -> & -> & -> & ->).
  cbn [Js.isNullish Js.toString obind]. rewrite !get_single.
  change (Js.get (VObj [("items", ?v)]) "items") with v.
  change (Js.or (VObj ?f) ?v) with (VObj f).
  change (Js.or (VArr ?f) ?v) with (VArr f).
  cbn [Js.truthy negb orb]. cbv beta zeta.
  rewrite projectValues_quoteValue. cbn [obind].
  rewrite mapM_itemRows. reflexivity.
Qed.

(** ** The lines of a serialized record *)

Lemma row_endsClean it index isLf :
  endsClean (Str.join Str.comma (rowCells it index isLf)) = true.
Proof.
  unfold rowCells.
  change [?a; ?b; ?c0; ?d; ?e; ?f; ?g; ?h; ?i; ?j; ?k; ?l; ?m; ?n; ?o; ?p]
    with ([a; b; c0; d; e; f; g; h; i; j; k; l; m; n; o] ++ [p]).
  apply endsClean_join. by destruct isLf.
Qed.

Lemma itemRowsOf_endsClean lf its index :
  Forall (fun row => endsClean row = true) (itemRowsOf lf its index).
Proof.
  revert index. induction its as [|it its IH]; intros index; cbn [itemRowsOf];
    [constructor|].
  destruct (keptItem it); [|apply IH].
  constructor; [apply row_endsClean|apply IH].
Qed.

Lemma has_nl_projectCells q :
  Str.has Str.nl (Str.join Str.comma (projectCells q)) = false.
Proof.
  apply has_join; [done|]. unfold projectCells. apply Forall_app. split.
  - apply Forall_map, Forall_forall. intros s _. cbn beta.
    by rewrite has_quoteCell_nl, has_replaceNl_nl.
  - apply Forall_map, Forall_forall. intros key _. cbn beta.
    destruct (f1Lookup key (qF1 q)) as [x|]; [|done].
    apply plainText_has, plainText_toString.
Qed.

Lemma trim_csvOf q : Str.trim (csvOf q) = csvOf q.
Proof.
  apply trim_clean.
  - unfold csvOf. cbn [app]. rewrite join_cons. by apply startsClean_app.
  - unfold csvOf.
    pose proof (itemRowsOf_endsClean (qLf q) (qItems q) 0) as Hall.
    induction (itemRowsOf (qLf q) (qItems q) 0) as [|r rows _] using rev_ind.
    + change ([?a; ?b; ?c; ?d] ++ []) with ([a; b; c] ++ [d]).
      by apply endsClean_join.
    + rewrite app_assoc. apply endsClean_join.
      by apply Forall_app in Hall as [_ ?%Forall_inv].
Qed.

(** The first four lines of a serialized record are the two header rows, the
    project values and the blank line; the lines after them are the item
    rows when no cell of an item holds a newline. *)
Lemma linesOf_csvOf q :
  exists rest,
    linesOf (csvOf q)
    = Str.join Str.comma (f3SnapshotKeys ++ f1SnapshotKeys)
      :: Str.join Str.comma (projectCells q)
      :: "" :: Str.join Str.comma itemHeaders :: rest /\
    (Forall (fun row => Str.has Str.nl row = false)
            (itemRowsOf (qLf q) (qItems q) 0) ->
     rest = itemRowsOf (qLf q) (qItems q) 0).
Proof.
  unfold linesOf. rewrite trim_csvOf. unfold csvOf.
  destruct (itemRowsOf (qLf q) (qItems q) 0) as [|r rows] eqn:Hrows.
  - exists []. split; [|done]. cbn [app]. rewrite !join_cons.
    rewrite split_app_sep by done.
    rewrite split_app_sep by apply has_nl_projectCells.
    rewrite split_app_sep by done.
    by rewrite split_no_sep.
  - exists (Str.split Str.nl (Str.join Str.nl (r :: rows))).
    split; [|intros Hall; by apply split_join].
    cbn [app].
    rewrite (join_cons _ (Str.join Str.comma (f3SnapshotKeys ++ f1SnapshotKeys))).
    rewrite split_app_sep by done.
    rewrite (join_cons _ (Str.join Str.comma (projectCells q))).
    rewrite split_app_sep by apply has_nl_projectCells.
    rewrite (join_cons _ "").
    rewrite split_app_sep by done.
    rewrite (join_cons _ (Str.join Str.comma itemHeaders)).
    by rewrite split_app_sep.
Qed.

Lemma wfKept_cons it its :
  wfKept (it :: its) = true ->
  (keptItem it = true -> wfItem it = true) /\ wfKept its = true.
Proof.
  unfold wfKept. cbn [forallb]. intros [H1 H2]%andb_true_iff. split; [|done].
  intros Hk. by rewrite Hk in H1.
Qed.

Lemma itemRowsOf_no_newline lf its index :
  wfKept its = true ->
  Forall (fun row => Str.has Str.nl row = false) (itemRowsOf lf its index).
Proof.
  revert index. induction its as [|it its IH]; intros index Hwf; cbn [itemRowsOf];
    [constructor|].
  apply wfKept_cons in Hwf as [Hit Hwf].
  destruct (keptItem it); [|by apply IH].
  constructor; [|by apply IH].
  by apply (row_line_clean it index _ (Hit eq_refl)).
Qed.

Lemma fold_itemRowsOf clock lf its index st :
  wfKept its = true ->
  fold_left (itemLineStep clock (Some 15%nat)) (itemRowsOf lf its index) st
  = collectRows clock lf its index st.
Proof.
  revert index st. induction its as [|it its IH]; intros index st Hwf; [done|].
  apply wfKept_cons in Hwf as [Hit Hwf].
  cbn [itemRowsOf collectRows]. destruct (keptItem it); [|by apply IH].
  cbn [fold_left]. destruct st as [acc lfs].
  rewrite itemLineStep_row by auto. by apply IH.
Qed.

Lemma parseCanonical_fields clock h v ih rows :
  items (parseCanonical clock h v ih rows)
  = (fold_left (itemLineStep clock (Str.indexOf "IsLF" (Str.split Str.comma ih)))
       rows ([], [])).1 /\
  lfIndexes (parseCanonical clock h v ih rows)
  = (fold_left (itemLineStep clock (Str.indexOf "IsLF" (Str.split Str.comma ih)))
       rows ([], [])).2 /\
  f1Snapshot (parseCanonical clock h v ih rows)
  = (forEachFrom (projectStep (Str.split Str.comma v)) (Str.split Str.comma h) 0
       (∅, mkF3 ∅ ∅)).1 /\
  f3Data (parseCanonical clock h v ih rows)
  = (forEachFrom (projectStep (Str.split Str.comma v)) (Str.split Str.comma h) 0
       (∅, mkF3 ∅ ∅)).2.
Proof.
  unfold parseCanonical.
  destruct (forEachFrom _ _ _ _) as [f1 f3].
  by destruct (fold_left _ _ _) as [its lf].
Qed.

(** The canonical branch on a serialized record. *)
Lemma csvToData_csvOf initialState clock q :
  exists p,
    csvToData initialState clock (csvOf q) = Ret (Some p) /\
    (wfKept (qItems q) = true ->
     items p = (collectRows clock (qLf q) (qItems q) 0 ([], [])).1 /\
     lfIndexes p = (collectRows clock (qLf q) (qItems q) 0 ([], [])).2) /\
    f1Snapshot p
    = (forEachFrom (projectStep (Str.split Str.comma (Str.join Str.comma (projectCells q))))
         (f3SnapshotKeys ++ f1SnapshotKeys) 0 (∅, mkF3 ∅ ∅)).1 /\
    f3Data p
    = (forEachFrom (projectStep (Str.split Str.comma (Str.join Str.comma (projectCells q))))
         (f3SnapshotKeys ++ f1SnapshotKeys) 0 (∅, mkF3 ∅ ∅)).2.
Proof.
  destruct (linesOf_csvOf q) as (rest & Hlines & Hrest).
  eexists. split; [by apply csvToData_canonical with ""|].
  destruct (parseCanonical_fields clock
              (Str.join Str.comma (f3SnapshotKeys ++ f1SnapshotKeys))
              (Str.join Str.comma (projectCells q))
              (Str.join Str.comma itemHeaders) rest) as (-> & -> & -> & ->).
  split; [|done].
  intros Hwf. rewrite (Hrest (itemRowsOf_no_newline _ _ _ Hwf)).
  change (Str.indexOf "IsLF" (Str.split Str.comma (Str.join Str.comma itemHeaders)))
    with (Some 15%nat).
  by rewrite fold_itemRowsOf.
Qed.

(** ** What the canonical branch collects from the rows of a record *)


Lemma collectRows_all_kept clock lf its acc lfs :
  Forall (fun it => keptItem it = true) its ->
  collectRows clock lf its (length acc) (acc, lfs)
  = (acc ++ imap (fun j it => stampItem clock (length acc + j) it) its,
     lfs ++ filter (fun k => k ∈ lf) (seq (length acc) (length its))).
Proof.
  intros Hall. revert acc lfs.
  induction Hall as [|it its Hit _ IH]; intros acc lfs.
  { cbn [collectRows imap length seq]. by rewrite filter_nil, !app_nil_r. }
  cbn [collectRows fst snd length seq]. rewrite Hit.
  specialize (IH (acc ++ [stampItem clock (length acc) it])
                 (if bool_decide (length acc ∈ lf) then lfs ++ [length acc] else lfs)).
  rewrite length_app in IH. cbn [length] in IH.
  replace (length acc + 1)%nat with (S (length acc)) in IH by lia.
  rewrite IH. rewrite imap_cons, Nat.add_0_r, <- app_assoc. cbn [app].
  f_equal.
  - f_equal. f_equal. apply imap_ext. intros j x _. cbn. f_equal. lia.
  - rewrite filter_cons. destruct (decide (length acc ∈ lf)) as [Hin|Hout].
    + rewrite bool_decide_eq_true_2 by done. by rewrite <- app_assoc.
    + by rewrite bool_decide_eq_false_2.
Qed.

(** ** The project row *)

Lemma forEachFrom_app {A St} (f : St -> A -> nat -> St) xs ys i s :
  forEachFrom f (xs ++ ys) i s
  = forEachFrom f ys (i + length xs) (forEachFrom f xs i s).
Proof.
  revert i s. induction xs as [|x xs IH]; intros i s; cbn [app forEachFrom length].
  - by rewrite Nat.add_0_r.
  - rewrite IH. f_equal. lia.
Qed.

Section ProjectView.
Context (cells : list string).
Context (view : gmap string cell * F3Data -> option cell) (effect : string -> bool).
Hypothesis view_step : forall st h i,
  view (projectStep cells st h i)
  = if effect h
    then match stringOrNull (cells !! i) with
         | Some v => Some (finalValue v)
         | None => view st
         end
    else view st.

Lemma view_unaffected hs i st :
  Forall (fun h => effect h = false) hs ->
  view (forEachFrom (projectStep cells) hs i st) = view st.
Proof.
  intros Hall. revert i st. induction Hall as [|h hs Hh _ IH]; intros i st; [done|].
  cbn [forEachFrom]. by rewrite IH, view_step, Hh.
Qed.

Lemma view_set pre h post i st :
  Forall (fun h => effect h = false) pre ->
  effect h = true ->
  Forall (fun h => effect h = false) post ->
  view (forEachFrom (projectStep cells) (pre ++ h :: post) i st)
  = match stringOrNull (cells !! (i + length pre)%nat) with
    | Some v => Some (finalValue v)
    | None => view st
    end.
Proof.
  intros Hpre Hh Hpost. rewrite forEachFrom_app. cbn [forEachFrom].
  rewrite view_unaffected, view_step, Hh by done.
  by rewrite view_unaffected.
Qed.
End ProjectView.

Lemma f1Key_not_proto h : h ∈ f1SnapshotKeys -> Str.eqb h "__proto__" = false.
Proof.
  unfold f1SnapshotKeys. intros H.
  repeat (apply elem_of_cons in H as [->|H]; [done|]).
  by apply elem_of_nil in H.
Qed.

Lemma eqb_str_spec a b : reflect (a = b) (Str.eqb a b).
Proof. unfold Str.eqb. apply bool_decide_reflect. Qed.

Lemma projectStep_f1_view cells key st h i :
  (projectStep cells st h i).1 !! key
  = if bool_decide (h ∈ f1SnapshotKeys) && Str.eqb h key
    then match stringOrNull (cells !! i) with
         | Some v => Some (finalValue v)
         | None => st.1 !! key
         end
    else st.1 !! key.
Proof.
  unfold projectStep.
  destruct (stringOrNull (cells !! i)) as [v|]; [|by destruct (_ && _)].
  destruct (bool_decide (h ∈ f1SnapshotKeys)) eqn:Hf1.
  - apply bool_decide_eq_true in Hf1. cbn [fst andb].
    unfold setProp. rewrite (f1Key_not_proto h Hf1).
    destruct (eqb_str_spec h key) as [->|Hne].
    + by rewrite lookup_insert_eq.
    + by rewrite lookup_insert_ne.
  - cbn [andb]. destruct (Str.startsWith "customer." h); [done|].
    by destruct (bool_decide (h ∈ f3SnapshotKeys)).
Qed.

Lemma projectStep_customer_view cells k st h i :
  customer (projectStep cells st h i).2 !! k
  = if negb (bool_decide (h ∈ f1SnapshotKeys)) && Str.startsWith "customer." h
       && Str.eqb (customerKey h) k && negb (Str.eqb k "__proto__")
    then match stringOrNull (cells !! i) with
         | Some v => Some (finalValue v)
         | None => customer st.2 !! k
         end
    else customer st.2 !! k.
Proof.
  unfold projectStep.
  destruct (stringOrNull (cells !! i)) as [v|]; [|by destruct (_ && _)].
  destruct (bool_decide (h ∈ f1SnapshotKeys)); [done|]. cbn [negb andb].
  destruct (Str.startsWith "customer." h).
  - cbn [snd customer andb]. fold (customerKey h).
    destruct (eqb_str_spec (customerKey h) k) as [->|Hne].
    + unfold setProp. cbn [andb]. destruct (Str.eqb k "__proto__"); [done|].
      by rewrite lookup_insert_eq.
    + by rewrite setProp_lookup_ne.
  - cbn [andb]. by destruct (bool_decide (h ∈ f3SnapshotKeys)).
Qed.

Lemma headers_NoDup : NoDup (f3SnapshotKeys ++ f1SnapshotKeys).
Proof. apply (bool_decide_unpack _). vm_compute. exact I. Qed.

(** The aggregate key read from column [j] of the project row. *)
Lemma f1_lookup_column cells key j st :
  (f3SnapshotKeys ++ f1SnapshotKeys) !! j = Some key ->
  key ∈ f1SnapshotKeys ->
  (forEachFrom (projectStep cells) (f3SnapshotKeys ++ f1SnapshotKeys) 0 st).1 !! key
  = match stringOrNull (cells !! j) with
    | Some v => Some (finalValue v)
    | None => st.1 !! key
    end.
Proof.
  intros Hj Hkey. pose proof headers_NoDup as Hnd.
  pose proof (take_drop_middle _ _ _ Hj) as Hsplit.
  rewrite <- Hsplit in Hnd |- *.
  apply NoDup_app in Hnd as (_ & Hpre & Hpost%NoDup_cons).
  destruct Hpost as [Hpost _].
  rewrite (view_set cells (fun st => st.1 !! key)
             (fun h => bool_decide (h ∈ f1SnapshotKeys) && Str.eqb h key)).
  - rewrite length_take_le; [done|]. apply lookup_lt_Some in Hj. lia.
  - intros. apply projectStep_f1_view.
  - apply Forall_forall. intros h Hh.
    destruct (eqb_str_spec h key) as [->|]; [|by rewrite andb_false_r].
    exfalso. apply (Hpre key Hh). apply list_elem_of_here.
  - rewrite bool_decide_eq_true_2 by done. by destruct (eqb_str_spec key key).
  - apply Forall_forall. intros h Hh.
    destruct (eqb_str_spec h key) as [->|]; [|by rewrite andb_false_r].
    done.
Qed.

Lemma toString_nonempty x : Str.isEmpty (Num.toString x) = false.
Proof.
  destruct x as [|[]|neg m e]; try done.
  destruct (N.eq_dec m 0) as [->|Hm]; [done|].
  destruct neg.
  - unfold Num.toString. by destruct m.
  - destruct (toString_positive_head m e ltac:(lia)) as (c & r & -> & _). done.
Qed.

Lemma finalValue_toString x :
  Num.isNaN x = false ->
  exists y, finalValue (Num.toString x) = CNum y /\ Num.eqb y x = true.
Proof.
  intros Hx. destruct x as [|[]|neg m e]; try done.
  - by exists (Inf true).
  - by exists (Inf false).
  - destruct (N.eq_dec m 0) as [->|Hm].
    + exists (Fin false 0 0). split; [done|].
      unfold Num.eqb. by rewrite !Z.mul_0_l.
    + destruct (parseFloat_toString neg m e ltac:(lia)) as (y & Hy & Hnan & Heq).
      exists y. split; [|done]. unfold finalValue. by rewrite Hy, Hnan.
Qed.

(** ** Round trips *)

Lemma roundTrip_quoteValue initialState clock q :
  roundTrip initialState clock (quoteValue q) = csvToData initialState clock (csvOf q).
Proof. unfold roundTrip. by rewrite dataToCsv_quoteValue. Qed.

Lemma wfAllKept_spec its :
  wfAllKept its = true ->
  wfKept its = true /\ Forall (fun it => keptItem it = true) its.
Proof.
  unfold wfAllKept, wfKept. rewrite !forallb_forall, Forall_forall.
  intros H. split.
  - intros it Hit. apply H in Hit as [-> ->]%andb_true_iff. done.
  - intros it Hit%list_elem_of_In. by apply H in Hit as [-> _]%andb_true_iff.
Qed.

Lemma identity_cell_plain s :
  Str.has Str.comma s = false ->
  quoteCell (Str.replaceNl s) = Str.replaceNl s /\
  Str.has Str.comma (quoteCell (Str.replaceNl s)) = false.
Proof.
  intros Hs. rewrite quoteCell_id by by rewrite has_replaceNl_comma.
  by rewrite has_replaceNl_comma.
Qed.

Lemma f1Cells_plain q :
  Forall (fun c => Str.has Str.comma c = false)
    (map (fun key => f1Cell (f1Lookup key (qF1 q))) f1SnapshotKeys).
Proof.
  apply Forall_map, Forall_forall. intros key _. cbn beta.
  destruct (f1Lookup key (qF1 q)) as [x|]; [|done].
  apply plainText_has, plainText_toString.
Qed.

Lemma split_projectCells q :
  plainIdentity q = true ->
  Str.split Str.comma (Str.join Str.comma (projectCells q)) = projectCells q.
Proof.
  unfold plainIdentity. rewrite forallb_forall. intros Hplain.
  apply split_join; [done|]. unfold projectCells. apply Forall_app.
  split; [|apply f1Cells_plain].
  apply Forall_map, Forall_forall. intros s Hs%list_elem_of_In. cbn beta.
  apply identity_cell_plain. apply Hplain in Hs. by destruct (Str.has Str.comma s).
Qed.

Lemma split_projectCells_name q :
  plainUpToName q = true ->
  Str.split Str.comma (Str.join Str.comma (projectCells q)) !! 3%nat
  = Some (Str.replaceNl (qName q)).
Proof.
  unfold plainUpToName. cbn [forallb]. rewrite !andb_true_iff, !negb_true_iff.
  intros (H0 & H1 & H2 & H3 & _).
  unfold projectCells. cbn [map].
  change ([?a; ?b; ?c; ?d; ?e; ?f; ?g] ++ ?r) with ([a; b; c; d] ++ e :: ([f; g] ++ r)).
  rewrite split_join_prefix.
  - cbn [app lookup list_lookup]. by rewrite (proj1 (identity_cell_plain _ H3)).
  - repeat constructor; by apply identity_cell_plain.
Qed.

Lemma aggregate_roundtrip cells q key x :
  cells = projectCells q ->
  key ∈ f1SnapshotKeys -> f1Lookup key (qF1 q) = Some x -> Num.isNaN x = false ->
  exists y,
    (forEachFrom (projectStep cells) (f3SnapshotKeys ++ f1SnapshotKeys) 0
       (∅, mkF3 ∅ ∅)).1 !! key = Some (CNum y) /\
    Num.eqb y x = true.
Proof.
  intros -> Hkey Hx Hnan.
  destruct (proj1 (list_elem_of_lookup _ _) Hkey) as [j Hj].
  assert ((f3SnapshotKeys ++ f1SnapshotKeys) !! (7 + j)%nat = Some key) as Hcol
    by (rewrite lookup_app_r; cbn [length f3SnapshotKeys]; [|lia];
        by replace (7 + j - 7)%nat with j by lia).
  assert (projectCells q !! (7 + j)%nat = Some (Num.toString x)) as Hcell.
  { unfold projectCells. rewrite lookup_app_r; cbn [length map]; [|lia].
    replace (7 + j - 7)%nat with j by lia.
    by rewrite list_lookup_fmap, Hj; cbn; rewrite Hx. }
  rewrite (f1_lookup_column _ key (7 + j)) by done.
  rewrite Hcell. cbn [stringOrNull]. rewrite toString_nonempty.
  destruct (finalValue_toString x Hnan) as (y & -> & Hy). by exists y.
Qed.

(** C1, as amended.  For a record whose items all have a width or a height
    and are of the kind the format carries (widths, heights and chains
    non-zero integers below 10^21 or null, prices non-zero amounts in
    hundredths below 10^21 or null, a type that is null or not empty, texts
    without comma and newline), parsing the serialized record gives the
    items back field by field, in order, with fresh identifiers, and the LF
    positions are the modified rows that are positions of the list.  When
    the identity and customer texts hold no comma, every aggregate key bound
    to a number other than NaN comes back bound to a number equal to it.  In
    particular a three-item record with modified rows 0 and 2 has the LF
    column 1, 0, 1 and is parsed with LF positions 0 and 2. *)
Theorem roundtrip_items_lf_aggregates :
  (forall initialState clock q,
      wfAllKept (qItems q) = true ->
      exists p,
        roundTrip initialState clock (quoteValue q) = Ret (Some p) /\
        items p = imap (stampItem clock) (qItems q) /\
        (forall k, k ∈ lfIndexes p <-> k ∈ qLf q /\ (k < length (qItems q))%nat) /\
        (plainIdentity q = true ->
         forall key x,
           key ∈ f1SnapshotKeys -> f1Lookup key (qF1 q) = Some x ->
           Num.isNaN x = false ->
           exists y, f1Snapshot p !! key = Some (CNum y) /\ Num.eqb y x = true)) /\
  (let q := sampleRecord
              [blind (Some (Fin false 1200 0)) (Some (Fin false 900 0)) "Kitchen";
               blind (Some (Fin false 800 0)) None "Hall";
               blind None (Some (Fin false 2100 0)) "Study"] [0; 2]%nat "Smith" in
   exists s p,
     dataToCsv (quoteValue q) = Ret s /\ lfColumn s = ["1"; "0"; "1"] /\
     csvToData None (tickingClock 0) s = Ret (Some p) /\
     lfIndexes p = [0; 2]%nat).
Proof.
  split.
  - intros st clock q [Hwf Hkept]%wfAllKept_spec.
    rewrite roundTrip_quoteValue.
    destruct (csvToData_csvOf st clock q) as (p & -> & Hitems & Hf1 & _).
    destruct (Hitems Hwf) as [Hi Hl].
    pose proof (collectRows_all_kept clock (qLf q) (qItems q) [] [] Hkept) as Hc.
    cbn [length Nat.add app] in Hc. rewrite Hc in Hi, Hl.
    cbn [fst snd] in Hi, Hl.
    exists p. split; [done|]. split; [done|]. split.
    + intros k. rewrite Hl, list_elem_of_filter, elem_of_seq.
      split; intros [Hin Hlt]; (split; [exact Hin|lia]).
    + intros Hplain key x Hkey Hx Hnan. rewrite Hf1.
      by apply (aggregate_roundtrip _ q key x (split_projectCells q Hplain)).
  - intros q. exists (csvOf q). eexists.
    split; [apply dataToCsv_quoteValue|].
    split; [vm_compute; reflexivity|].
    split; [vm_compute; reflexivity|reflexivity].
Qed.

Lemma roundtrip_items_lf_aggregates_witness :
  let q := sampleRecord
             [blind (Some (Fin false 1200 0)) (Some (Fin false 900 0)) "Kitchen";
              blind (Some (Fin false 800 0)) None "Hall"] [1]%nat "Smith" in
  wfAllKept (qItems q) = true /\ plainIdentity q = true /\
  exists p y,
    roundTrip None (tickingClock 0) (quoteValue q) = Ret (Some p) /\
    items p = imap (stampItem (tickingClock 0)) (qItems q) /\
    f1Snapshot p !! "discountPercentage" = Some (CNum y) /\
    Num.eqb y (Fin false 125 (-1)) = true.
Proof.
  intros q.
  assert (wfAllKept (qItems q) = true) as Hwf by (vm_compute; reflexivity).
  assert (plainIdentity q = true) as Hplain by (vm_compute; reflexivity).
  split; [exact Hwf|]. split; [exact Hplain|].
  destruct (proj1 roundtrip_items_lf_aggregates None (tickingClock 0) q Hwf)
    as (p & Hp & Hitems & _ & Hf1).
  destruct (Hf1 Hplain "discountPercentage" (Fin false 125 (-1)))
    as (y & Hy & Heq); [|reflexivity|reflexivity|].
  { unfold f1SnapshotKeys. rewrite !elem_of_cons. auto 10. }
  exists p, y. by repeat split.
Defined.

(** C1 as stated fails: a record with a valid product whose second item has
    a width, whose first item has neither width nor height, and whose only
    modified row is row 1 is parsed back with the LF position 0. *)
Lemma lf_position_shifts_after_dropped_item :
  let q := sampleRecord
             [blind None None "Store";
              blind (Some (Fin false 800 0)) None "Hall"] [1]%nat "Smith" in
  existsb keptItem (qItems q) = true /\
  exists p,
    roundTrip None (tickingClock 0) (quoteValue q) = Ret (Some p) /\
    lfIndexes p = [0]%nat /\ qLf q = [1]%nat /\
    ~ (forall k, k ∈ lfIndexes p <-> k ∈ qLf q).
Proof.
  split; [reflexivity|]. eexists. split; [vm_compute; reflexivity|].
  split; [reflexivity|]. split; [reflexivity|].
  intros H. specialize (H 0%nat). cbn in H.
  destruct H as [H _]. specialize (H ltac:(apply list_elem_of_here)).
  apply list_elem_of_singleton in H. discriminate.
Qed.

(** ** Items without width and height *)








(** ** Quoting and the customer name *)

Lemma customer_name_column cells st :
  customer (forEachFrom (projectStep cells) (f3SnapshotKeys ++ f1SnapshotKeys) 0 st).2
    !! "name"
  = match stringOrNull (cells !! 3%nat) with
    | Some v => Some (finalValue v)
    | None => customer st.2 !! "name"
    end.
Proof.
  change (f3SnapshotKeys ++ f1SnapshotKeys)
    with (["quoteId"; "issueDate"; "dueDate"] ++ "customer.name"
          :: (["customer.address"; "customer.phone"; "customer.email"]
              ++ f1SnapshotKeys)).
  rewrite (view_set cells (fun st => customer st.2 !! "name")
             (fun h => negb (bool_decide (h ∈ f1SnapshotKeys))
                       && Str.startsWith "customer." h
                       && Str.eqb (customerKey h) "name"
                       && negb (Str.eqb "name" "__proto__"))).
  - reflexivity.
  - intros. apply projectStep_customer_view.
  - repeat (constructor; [vm_compute; reflexivity|]). constructor.
  - vm_compute. reflexivity.
  - repeat (constructor; [vm_compute; reflexivity|]). constructor.
Qed.

Lemma isEmpty_replaceNl s : Str.isEmpty (Str.replaceNl s) = Str.isEmpty s.
Proof. by destruct s. Qed.

Lemma name_roundtrip initialState clock q :
  plainUpToName q = true ->
  Str.isEmpty (qName q) = false ->
  Num.isNaN (Num.parseFloat (Str.replaceNl (qName q))) = true ->
  exists p,
    roundTrip initialState clock (quoteValue q) = Ret (Some p) /\
    customer (f3Data p) !! "name" = Some (CStr (Str.replaceNl (qName q))).
Proof.
  intros Hplain Hne Hnan. rewrite roundTrip_quoteValue.
  destruct (csvToData_csvOf initialState clock q) as (p & -> & _ & _ & Hf3).
  exists p. split; [done|].
  rewrite Hf3, customer_name_column, split_projectCells_name by done.
  cbn [stringOrNull]. rewrite isEmpty_replaceNl, Hne.
  unfold finalValue. by rewrite Hnan.
Qed.

(** ** A name with a comma *)

Lemma str_app_assoc a b c : (a +:+ b) +:+ c = a +:+ (b +:+ c).
Proof. induction a as [|x a IH]; [done|]. by rewrite !app_String, IH. Qed.

Lemma replaceNl_app a b :
  Str.replaceNl (a +:+ b) = Str.replaceNl a +:+ Str.replaceNl b.
Proof.
  induction a as [|c a IH]; [reflexivity|].
  rewrite app_String. cbn [Str.replaceNl]. by rewrite IH, app_String.
Qed.

Lemma finalValue_dquote r :
  finalValue (String Str.dquote r) = CStr (String Str.dquote r).
Proof. reflexivity. Qed.

(** The cell the reader finds in the column of the name when the name has a
    comma: the opening quote and the name up to the comma. *)
Lemma split_projectCells_comma_name q a rest :
  forallb (fun s => negb (Str.has Str.comma s)) [qQuoteId q; qIssueDate q; qDueDate q]
  = true ->
  qName q = a +:+ String Str.comma rest ->
  Str.has Str.comma a = false ->
  Str.split Str.comma (Str.join Str.comma (projectCells q)) !! 3%nat
  = Some (String Str.dquote (Str.replaceNl a)).
Proof.
  cbn [forallb]. rewrite !andb_true_iff, !negb_true_iff.
  intros (H0 & H1 & H2 & _) Hname Ha.
  unfold projectCells. cbn [map].
  change ([?a0; ?b; ?c; ?d; ?e; ?f; ?g] ++ ?r) with ([a0; b; c] ++ d :: ([e; f; g] ++ r)).
  rewrite split_join_prefix by (repeat constructor; by apply identity_cell_plain).
  cbn [app]. rewrite join_cons.
  assert (quoteCell (Str.replaceNl (qName q))
          = String Str.dquote (Str.replaceNl a)
            +:+ String Str.comma (Str.replaceNl rest +:+ String Str.dquote "")) as ->.
  { unfold quoteCell. rewrite has_replaceNl_comma, Hname, has_app.
    cbn [Str.has]. rewrite Ascii.eqb_refl, orb_true_r.
    rewrite replaceNl_app. cbn [Str.replaceNl].
    change (Ascii.eqb Str.comma Str.nl) with false. cbv iota.
    rewrite !app_String, str_app_assoc. by rewrite app_String. }
  rewrite str_app_assoc.
  change (String Str.comma ?x +:+ ?y) with (String Str.comma (x +:+ y)).
  rewrite split_app_sep; [reflexivity|].
  cbn [Str.has]. by rewrite has_replaceNl_comma, Ha.
Qed.

Lemma comma_name_roundtrip initialState clock q a rest :
  forallb (fun s => negb (Str.has Str.comma s)) [qQuoteId q; qIssueDate q; qDueDate q]
  = true ->
  qName q = a +:+ String Str.comma rest ->
  Str.has Str.comma a = false ->
  exists p,
    roundTrip initialState clock (quoteValue q) = Ret (Some p) /\
    customer (f3Data p) !! "name"
    = Some (CStr (String Str.dquote (Str.replaceNl a))).
Proof.
  intros Hplain Hname Ha. rewrite roundTrip_quoteValue.
  destruct (csvToData_csvOf initialState clock q) as (p & -> & _ & _ & Hf3).
  exists p. split; [done|].
  rewrite Hf3, customer_name_column.
  rewrite (split_projectCells_comma_name q a rest Hplain Hname Ha).
  cbn [stringOrNull Str.isEmpty]. by rewrite finalValue_dquote.
Qed.

Lemma itemRowsOf_elem lf its index k it :
  its !! k = Some it ->
  keptItem it = true ->
  Str.join Str.comma
    (rowCells it (index + k) (bool_decide ((index + k)%nat ∈ lf)))
  ∈ itemRowsOf lf its index.
Proof.
  revert index k. induction its as [|x its IH]; intros index k; [by rewrite lookup_nil|].
  destruct k as [|k]; cbn [lookup list_lookup itemRowsOf].
  - intros [= ->] ->. rewrite Nat.add_0_r. apply list_elem_of_here.
  - intros Hk Hkept. replace (index + S k)%nat with (S index + k)%nat by lia.
    destruct (keptItem x); [apply list_elem_of_further|]; by apply IH.
Qed.

(** C4, as amended.  [dataToCsv] writes every identity and customer text
    with its newlines replaced by spaces and, when it holds a comma, between
    double quotes, every aggregate as the text of its number, and every cell
    of an item row between double quotes when it holds a comma.  [csvToData]
    splits the project row on every comma and does not undo the quoting: a
    name with a comma, after identity texts without one, is read back as the
    opening quote and the name up to its first comma.  A name that is not
    empty, does not begin like a number and comes after identity texts
    without comma, itself without comma, is read back as the name with its
    newlines replaced by spaces (as itself when it has none), and that text
    is read back unchanged when serialized again. *)
Theorem quoting_and_names initialState clock q :
  dataToCsv (quoteValue q)
  = Ret (documentOf
           (map (fun s => quoteCell (Str.replaceNl s))
              [qQuoteId q; qIssueDate q; qDueDate q; qName q; qAddress q;
               qPhone q; qEmail q]
            ++ map (fun key => f1Cell (f1Lookup key (qF1 q))) f1SnapshotKeys)
           (itemRowsOf (qLf q) (qItems q) 0)) /\
  (forall k it,
      qItems q !! k = Some it ->
      keptItem it = true ->
      Str.join Str.comma
        (Num.toString (Num.ofNat (k + 1))
         :: map quoteCell
              [numberCell (width it); numberCell (height it);
               default "" (fabricType it); priceCell (linePrice it); location it;
               fabric it; color it; over it; oi it; lr it; dual it;
               numberCell (chain it); winder it; motor it]
         ++ [if bool_decide (k ∈ qLf q) then "1" else "0"])
      ∈ itemRowsOf (qLf q) (qItems q) 0) /\
  (forall a rest,
      forallb (fun s => negb (Str.has Str.comma s))
        [qQuoteId q; qIssueDate q; qDueDate q] = true ->
      qName q = a +:+ String Str.comma rest ->
      Str.has Str.comma a = false ->
      exists p,
        roundTrip initialState clock (quoteValue q) = Ret (Some p) /\
        customer (f3Data p) !! "name"
        = Some (CStr (String Str.dquote (Str.replaceNl a)))) /\
  (plainUpToName q = true ->
   Str.isEmpty (qName q) = false ->
   Num.isNaN (Num.parseFloat (Str.replaceNl (qName q))) = true ->
   exists p p',
     roundTrip initialState clock (quoteValue q) = Ret (Some p) /\
     customer (f3Data p) !! "name" = Some (CStr (Str.replaceNl (qName q))) /\
     roundTrip initialState clock
       (quoteValue (withName q (Str.replaceNl (qName q)))) = Ret (Some p') /\
     customer (f3Data p') !! "name" = Some (CStr (Str.replaceNl (qName q)))).
Proof.
  split; [|split; [|split]].
  - apply dataToCsv_quoteValue.
  - intros k it Hk Hkept.
    exact (itemRowsOf_elem (qLf q) (qItems q) 0 k it Hk Hkept).
  - intros a rest. apply comma_name_roundtrip.
  - intros Hplain Hne Hnan.
    destruct (name_roundtrip initialState clock q Hplain Hne Hnan) as (p & Hp & Hname).
    assert (Str.replaceNl (Str.replaceNl (qName q)) = Str.replaceNl (qName q))
      as Hidem by apply replaceNl_id, has_replaceNl_nl.
    destruct (name_roundtrip initialState clock
                (withName q (Str.replaceNl (qName q))))
      as (p' & Hp' & Hname').
    + revert Hplain. unfold plainUpToName, withName. cbn [forallb qQuoteId
        qIssueDate qDueDate qName]. by rewrite has_replaceNl_comma.
    + cbn [withName qName]. by rewrite isEmpty_replaceNl.
    + cbn [withName qName]. by rewrite Hidem.
    + cbn [withName qName] in Hname'. rewrite Hidem in Hname'.
      by exists p, p'.
Qed.

Lemma quoting_and_names_witness :
  plainUpToName (sampleRecord [blind (Some (Fin false 1200 0)) None "Kitchen"] []
                   ("Smith" +:+ String Str.nl "and Sons")) = true /\
  Str.isEmpty (qName (sampleRecord [blind (Some (Fin false 1200 0)) None "Kitchen"]
                        [] ("Smith" +:+ String Str.nl "and Sons"))) = false /\
  Num.isNaN
    (Num.parseFloat
       (Str.replaceNl
          (qName (sampleRecord [blind (Some (Fin false 1200 0)) None "Kitchen"] []
                    ("Smith" +:+ String Str.nl "and Sons"))))) = true /\
  (exists p,
    roundTrip None (tickingClock 0)
      (quoteValue (sampleRecord [blind (Some (Fin false 1200 0)) None "Kitchen"] []
                     ("Smith" +:+ String Str.nl "and Sons"))) = Ret (Some p) /\
    customer (f3Data p) !! "name" = Some (CStr "Smith and Sons")) /\
  (exists p,
    roundTrip None (tickingClock 0)
      (quoteValue (sampleRecord [blind (Some (Fin false 1200 0)) None "Kitchen"] []
                     "Smith, J.")) = Ret (Some p) /\
    customer (f3Data p) !! "name" = Some (CStr (String Str.dquote "Smith"))).
Proof.
  assert (plainUpToName (sampleRecord [blind (Some (Fin false 1200 0)) None "Kitchen"]
                           [] ("Smith" +:+ String Str.nl "and Sons")) = true) as H1
    by (vm_compute; reflexivity).
  assert (Str.isEmpty
            (qName (sampleRecord [blind (Some (Fin false 1200 0)) None "Kitchen"] []
                      ("Smith" +:+ String Str.nl "and Sons"))) = false) as H2
    by (vm_compute; reflexivity).
  assert (Num.isNaN
            (Num.parseFloat
               (Str.replaceNl
                  (qName (sampleRecord [blind (Some (Fin false 1200 0)) None "Kitchen"]
                            [] ("Smith" +:+ String Str.nl "and Sons"))))) = true) as H3
    by (vm_compute; reflexivity).
  split; [exact H1|]. split; [exact H2|]. split; [exact H3|]. split.
  - destruct (proj2 (proj2 (proj2
                (quoting_and_names None (tickingClock 0)
                   (sampleRecord [blind (Some (Fin false 1200 0)) None "Kitchen"] []
                      ("Smith" +:+ String Str.nl "and Sons"))))) H1 H2 H3)
      as (p & p' & Hp & Hname & _).
    exists p. split; [exact Hp|exact Hname].
  - exact (proj1 (proj2 (proj2
              (quoting_and_names None (tickingClock 0)
                 (sampleRecord [blind (Some (Fin false 1200 0)) None "Kitchen"] []
                    "Smith, J."))))
             "Smith" " J." eq_refl eq_refl eq_refl).
Defined.

(** C4 as stated fails: the customer name [Smith, J.] is written between
    quotes and read back as the text before its comma, quote included. *)
Lemma comma_name_not_restored :
  let q := sampleRecord [blind (Some (Fin false 1200 0)) None "Kitchen"] []
             "Smith, J." in
  exists p,
    roundTrip None (tickingClock 0) (quoteValue q) = Ret (Some p) /\
    customer (f3Data p) !! "name" = Some (CStr (String Str.dquote "Smith")) /\
    customer (f3Data p) !! "name" <> Some (CStr "Smith, J.").
Proof.
  intros q. eexists. split; [vm_compute; reflexivity|].
  split; [vm_compute; reflexivity|]. vm_compute. discriminate.
Qed.

(* ===================================================================== *)
(** * Further properties of the serializer                                 *)
(* ===================================================================== *)

(** ** The nested customer fields *)

Lemma get_falsy v k : Js.truthy v = false -> Js.get v k = VUndef.
Proof. by destruct v. Qed.

(** X1.  [getNestedValue] on one of the four customer fields: the value of
    the field when [customer] is truthy and has it (a field that is null is
    passed on as null), and the empty string in every other case: no
    [customer], a [customer] that is null, a number, an empty string, or one
    without the field.  It is never [undefined]. *)
Theorem getNestedValue_customer obj field :
  field ∈ ["name"; "address"; "phone"; "email"] ->
  getNestedValue obj ("customer." +:+ field)
  = (if Js.truthy (Js.get obj "customer")
        && negb (Js.isUndef (Js.get (Js.get obj "customer") field))
     then Js.get (Js.get obj "customer") field
     else VStr "")
  /\ getNestedValue obj ("customer." +:+ field) <> VUndef.
Proof.
  intros Hin.
  assert (Str.has "." field = false) as Hfield.
  { repeat (apply elem_of_cons in Hin as [->|Hin]; [reflexivity|]).
    by apply elem_of_nil in Hin. }
  assert (getNestedValue obj ("customer." +:+ field)
          = (if Js.truthy (Js.get obj "customer")
                && negb (Js.isUndef (Js.get (Js.get obj "customer") field))
             then Js.get (Js.get obj "customer") field
             else VStr "")) as Heq.
  { unfold getNestedValue.
    change ("customer." +:+ field) with ("customer" +:+ String "." field).
    rewrite split_app_sep by reflexivity.
    rewrite split_no_sep by exact Hfield.
    cbn [fold_left].
    destruct (Js.truthy obj) eqn:Hobj.
    - cbn [andb]. destruct (Js.get obj "customer") eqn:Hc; reflexivity.
    - rewrite (get_falsy _ _ Hobj). reflexivity. }
  split; [exact Heq|]. rewrite Heq.
  destruct (Js.truthy (Js.get obj "customer")); [|discriminate].
  cbn [andb].
  destruct (Js.get (Js.get obj "customer") field); discriminate.
Qed.

Lemma getNestedValue_customer_witness :
  "name" ∈ ["name"; "address"; "phone"; "email"] /\
  getNestedValue (VObj [("customer", VObj [("name", VNull)])]) "customer.name"
  = VNull /\
  getNestedValue (VObj [("customer", VNum (Fin false 7 0))]) "customer.name"
  = VStr "" /\
  getNestedValue VUndef "customer.name" = VStr "" /\
  getNestedValue (VObj [("customer", VObj [("name", VStr "Ann")])]) "customer.name"
  <> VUndef.
Proof.
  assert ("name" ∈ ["name"; "address"; "phone"; "email"]) as Hf
    by apply list_elem_of_here.
  split; [exact Hf|].
  split; [reflexivity|]. split; [reflexivity|]. split; [reflexivity|].
  exact (proj2 (getNestedValue_customer
                  (VObj [("customer", VObj [("name", VStr "Ann")])]) "name" Hf)).
Defined.

(** ** The shape of the serialized text *)

Lemma mapM_from_length {A B} (f : A -> nat -> outcome B) xs i ys :
  mapM_from f xs i = Ret ys -> length ys = length xs.
Proof.
  revert i ys. induction xs as [|x xs IH]; intros i ys; cbn [mapM_from].
  - by intros [= <-].
  - destruct (f x i) as [y|]; [|discriminate]. cbn [obind].
    destruct (mapM_from f xs (S i)) as [ys'|] eqn:Hrest; [|discriminate].
    cbn [obind]. intros [= <-]. cbn [length]. by rewrite (IH _ _ Hrest).
Qed.

Lemma mapM_from_lookup {A B} (f : A -> nat -> outcome B) xs i ys k y :
  mapM_from f xs i = Ret ys -> ys !! k = Some y ->
  exists x, xs !! k = Some x /\ f x (i + k)%nat = Ret y.
Proof.
  revert i ys k. induction xs as [|x xs IH]; intros i ys k; cbn [mapM_from].
  - intros [= <-]. by rewrite lookup_nil.
  - destruct (f x i) as [y0|] eqn:Hx; [|discriminate]. cbn [obind].
    destruct (mapM_from f xs (S i)) as [ys'|] eqn:Hrest; [|discriminate].
    cbn [obind]. intros [= <-]. destruct k as [|k]; cbn.
    + intros [= <-]. exists x. by rewrite Nat.add_0_r.
    + intros Hk. destruct (IH _ _ _ Hrest Hk) as (x' & Hx' & Hf).
      exists x'. split; [done|]. by replace (i + S k)%nat with (S i + k)%nat by lia.
Qed.

Lemma mapM_projectCell vs i cells :
  mapM_from (fun v _ => projectCell v) vs i = Ret cells ->
  length cells = length vs /\
  Forall (fun c => Str.has Str.nl c = false) cells.
Proof.
  intros Hrun. split; [exact (mapM_from_length _ _ _ _ Hrun)|].
  apply Forall_forall. intros c [k Hk]%list_elem_of_lookup_1.
  destruct (mapM_from_lookup _ _ _ _ _ _ Hrun Hk) as (v & _ & Hv).
  unfold projectCell in Hv. destruct (Js.toString v) as [t|]; [|discriminate].
  cbn [obind] in Hv. injection Hv as <-.
  by rewrite has_quoteCell_nl, has_replaceNl_nl.
Qed.

Lemma itemCell_number x : itemCell (VNum x) = Ret (Num.toString x).
Proof.
  unfold itemCell. cbn [Js.toString obind]. f_equal.
  apply quoteCell_id, plainText_has, plainText_toString.
Qed.

(** The cells of an item row. *)
Lemma itemRow_cells lfv item index row :
  itemRow lfv item index = Ret (Some row) ->
  exists front isLf,
    Js.includesIndex lfv index = Ret isLf /\
    length front = 14%nat /\
    row = Str.join Str.comma
            (Num.toString (Num.ofNat (index + 1))
             :: front ++ [if isLf : bool then "1" else "0"]).
Proof.
  unfold itemRow, Js.getProp.
  destruct (Js.isNullish item); [discriminate|]. cbn [obind].
  destruct (_ || _); [|discriminate].
  destruct (if negb _ then _ else _) as [price|]; [|discriminate]. cbn [obind].
  destruct (Js.includesIndex lfv index) as [isLf|]; [|discriminate]. cbn [obind].
  cbn [mapM_from]. rewrite !itemCell_number. cbn [obind].
  repeat match goal with
         | |- context [obind (itemCell ?v) _] =>
             destruct (itemCell v) as [?c|]; cbn [obind]; [|discriminate]
         end.
  intros [= <-].
  eexists [_; _; _; _; _; _; _; _; _; _; _; _; _; _], isLf.
  split; [reflexivity|]. split; [reflexivity|].
  cbn [app]. by destruct isLf.
Qed.

Lemma itemRow_rowShape lfv item index row :
  itemRow lfv item index = Ret (Some row) -> rowShape lfv index row.
Proof.
  intros (front & isLf & Hlf & Hlen & ->)%itemRow_cells.
  eexists _, isLf. split; [reflexivity|].
  split; [cbn [length]; rewrite length_app, Hlen; reflexivity|].
  split; [reflexivity|]. split; [exact Hlf|].
  rewrite lookup_cons_ne_0 by lia. cbn [Nat.pred].
  rewrite lookup_app_r by lia. rewrite Hlen. reflexivity.
Qed.

Lemma itemRow_endsClean lfv item index row :
  itemRow lfv item index = Ret (Some row) -> endsClean row = true.
Proof.
  intros (front & isLf & _ & _ & ->)%itemRow_cells.
  rewrite app_comm_cons. apply endsClean_join. by destruct isLf.
Qed.

Lemma mapM_itemRow_endsClean lfv vs i rowopts :
  mapM_from (itemRow lfv) vs i = Ret rowopts ->
  Forall (fun row => endsClean row = true) (omap id rowopts).
Proof.
  intros Hrun. apply Forall_forall. intros row Hrow.
  apply list_elem_of_omap in Hrow as (ro & [k Hk]%list_elem_of_lookup_1 & Hro).
  cbn in Hro. subst ro.
  destruct (mapM_from_lookup _ _ _ _ _ _ Hrun Hk) as (item & _ & Hitem).
  exact (itemRow_endsClean _ _ _ _ Hitem).
Qed.

Lemma documentOf_trim projectValues rows :
  Forall (fun row => endsClean row = true) rows ->
  Str.trim (documentOf projectValues rows) = documentOf projectValues rows.
Proof.
  intros Hall. apply trim_clean.
  - unfold documentOf. cbn [app]. rewrite join_cons. by apply startsClean_app.
  - unfold documentOf.
    induction rows as [|r rows _] using rev_ind.
    + change ([?a; ?b; ?c; ?d] ++ []) with ([a; b; c] ++ [d]).
      by apply endsClean_join.
    + rewrite app_assoc. apply endsClean_join.
      by apply Forall_app in Hall as [_ ?%Forall_inv].
Qed.

Lemma documentOf_lines projectValues rows :
  Forall (fun c => Str.has Str.nl c = false) projectValues ->
  Forall (fun row => endsClean row = true) rows ->
  exists rest,
    linesOf (documentOf projectValues rows)
    = Str.join Str.comma (f3SnapshotKeys ++ f1SnapshotKeys)
      :: Str.join Str.comma projectValues
      :: "" :: Str.join Str.comma itemHeaders :: rest /\
    (Forall (fun row => Str.has Str.nl row = false) rows -> rest = rows).
Proof.
  intros Hpv Hrows. unfold linesOf. rewrite documentOf_trim by done.
  assert (Str.has Str.nl (Str.join Str.comma projectValues) = false) as Hline
    by (by apply has_join).
  unfold documentOf. destruct rows as [|r rows].
  - exists []. split; [|done]. cbn [app]. rewrite !join_cons.
    rewrite split_app_sep by done.
    rewrite split_app_sep by exact Hline.
    rewrite split_app_sep by done.
    by rewrite split_no_sep.
  - exists (Str.split Str.nl (Str.join Str.nl (r :: rows))).
    split; [|intros Hall; by apply split_join].
    cbn [app].
    rewrite (join_cons _ (Str.join Str.comma (f3SnapshotKeys ++ f1SnapshotKeys))).
    rewrite split_app_sep by done.
    rewrite (join_cons _ (Str.join Str.comma projectValues)).
    rewrite split_app_sep by exact Hline.
    rewrite (join_cons _ "").
    rewrite split_app_sep by done.
    rewrite (join_cons _ (Str.join Str.comma itemHeaders)).
    by rewrite split_app_sep.
Qed.

(** The two ways [dataToCsv] returns. *)
Lemma dataToCsv_inv quoteData s :
  dataToCsv quoteData = Ret s ->
  (exists v, activeItems quoteData = Ret v /\ Js.truthy v = false /\ s = "")
  \/ (exists vs projectValues rowopts,
        activeItems quoteData = Ret (VArr vs) /\
        length projectValues = length (f3SnapshotKeys ++ f1SnapshotKeys) /\
        Forall (fun c => Str.has Str.nl c = false) projectValues /\
        mapM_from (itemRow (lfList quoteData)) vs 0 = Ret rowopts /\
        s = documentOf projectValues (omap id rowopts)).
Proof.
  unfold dataToCsv, activeItems. cbv zeta. fold (lfList quoteData).
  destruct (if Js.isNullish (Js.getOpt quoteData "products") then Ret VUndef else _)
    as [productData|]; [|discriminate].
  cbn [obind].
  destruct (Js.truthy productData) eqn:Hpd; cbn [negb orb].
  2:{ intros [= <-]. left. eexists. split; [reflexivity|].
      by rewrite (get_falsy _ _ Hpd). }
  destruct (Js.truthy (Js.get productData "items")) eqn:Hitems; cbn [negb].
  2:{ intros [= <-]. left. eexists. split; [reflexivity|]. by split. }
  destruct (mapM_from (fun v _ => projectCell v) _ _) as [projectValues|] eqn:Hpv;
    [|discriminate].
  cbn [obind].
  destruct (Js.get productData "items") as [| | | | |vs|]; try discriminate.
  destruct (mapM_from (itemRow _) vs 0%nat) as [rowopts|] eqn:Hrows; [|discriminate].
  cbn [obind]. intros [= <-]. right.
  exists vs, projectValues, rowopts.
  destruct (mapM_projectCell _ _ _ Hpv) as [Hlen Hnl].
  split; [reflexivity|]. split; [exact Hlen|]. split; [exact Hnl|].
  split; [exact Hrows|reflexivity].
Qed.

(** X2.  Whatever the record, a text that [dataToCsv] returns is either
    empty or made of the two fixed header rows, a project row of sixteen
    cells without a newline, the blank line and the item rows; the row of the
    item at position [i] has sixteen cells, the first being [i + 1] and the
    last being the LF flag, [1] or [0]. *)
Theorem dataToCsv_shape quoteData s :
  dataToCsv quoteData = Ret s ->
  s <> "" ->
  exists vs projectValues rowopts,
    activeItems quoteData = Ret (VArr vs) /\
    s = documentOf projectValues (omap id rowopts) /\
    length projectValues = length (f3SnapshotKeys ++ f1SnapshotKeys) /\
    Forall (fun c => Str.has Str.nl c = false) projectValues /\
    length rowopts = length vs /\
    forall i row, rowopts !! i = Some (Some row) -> rowShape (lfList quoteData) i row.
Proof.
  intros Hres Hne.
  destruct (dataToCsv_inv _ _ Hres)
    as [(v & _ & _ & ->)|(vs & pv & rowopts & Hact & Hlen & Hnl & Hrows & ->)];
    [done|].
  exists vs, pv, rowopts. repeat (split; [done|]).
  split; [exact (mapM_from_length _ _ _ _ Hrows)|].
  intros i row Hi.
  destruct (mapM_from_lookup _ _ _ _ _ _ Hrows Hi) as (item & _ & Hitem).
  exact (itemRow_rowShape _ _ _ _ Hitem).
Qed.

Lemma dataToCsv_shape_witness :
  exists s,
    dataToCsv (sampleQuote [sampleItem 600; VObj []; sampleItem 700] [2%nat])
    = Ret s /\
    s <> "" /\
    exists vs projectValues rowopts,
      activeItems (sampleQuote [sampleItem 600; VObj []; sampleItem 700] [2%nat])
      = Ret (VArr vs) /\
      s = documentOf projectValues (omap id rowopts) /\
      length projectValues = length (f3SnapshotKeys ++ f1SnapshotKeys) /\
      Forall (fun c => Str.has Str.nl c = false) projectValues /\
      length rowopts = length vs /\
      forall i row,
        rowopts !! i = Some (Some row) ->
        rowShape (lfList (sampleQuote [sampleItem 600; VObj []; sampleItem 700]
                            [2%nat])) i row.
Proof.
  eexists. split; [vm_compute; reflexivity|]. split; [discriminate|].
  apply (dataToCsv_shape
           (sampleQuote [sampleItem 600; VObj []; sampleItem 700] [2%nat]));
    [vm_compute; reflexivity|discriminate].
Defined.

(** ** Reading what the serializer wrote *)

Lemma csvToData_empty initialState clock : csvToData initialState clock "" = Ret None.
Proof.
  rewrite csvToData_short by (vm_compute; lia).
  rewrite legacy_no_marker; [reflexivity|].
  vm_compute. constructor; [reflexivity|constructor].
Qed.

(** X3.  What [dataToCsv] returns is read by the canonical branch of
    [csvToData], whatever the record, its cells and the global of the legacy
    parser: the text is empty exactly when the item list of the active
    product is falsy, and then [csvToData] returns null; in every other case
    the text has no white space around it, its lines 0, 2 and 3 are the two
    header rows and the blank line, and [csvToData] returns the object built
    from them. *)
Theorem csvToData_after_dataToCsv initialState clock quoteData s :
  dataToCsv quoteData = Ret s ->
  ((exists v, activeItems quoteData = Ret v /\ Js.truthy v = false) /\
   s = "" /\
   csvToData initialState clock s = Ret None)
  \/ ((exists vs, activeItems quoteData = Ret (VArr vs)) /\
      Str.trim s = s /\
      exists v rest,
        linesOf s
        = Str.join Str.comma (f3SnapshotKeys ++ f1SnapshotKeys)
          :: v :: "" :: Str.join Str.comma itemHeaders :: rest /\
        csvToData initialState clock s
        = Ret (Some (parseCanonical clock
                       (Str.join Str.comma (f3SnapshotKeys ++ f1SnapshotKeys))
                       v (Str.join Str.comma itemHeaders) rest))).
Proof.
  intros Hres.
  destruct (dataToCsv_inv _ _ Hres)
    as [(v & Hact & Hv & ->)|(vs & pv & rowopts & Hact & Hlen & Hnl & Hrows & ->)].
  - left. split; [by exists v|]. split; [reflexivity|apply csvToData_empty].
  - right. pose proof (mapM_itemRow_endsClean _ _ _ _ Hrows) as Hclean.
    split; [by exists vs|]. split; [by apply documentOf_trim|].
    destruct (documentOf_lines pv (omap id rowopts) Hnl Hclean) as (rest & Hl & _).
    exists (Str.join Str.comma pv), rest. split; [exact Hl|].
    exact (csvToData_canonical _ _ _ _ _ _ _ _ Hl).
Qed.

Lemma csvToData_after_dataToCsv_witness :
  exists s,
    dataToCsv (sampleQuote [sampleItem 600; VObj []; sampleItem 700] [2%nat])
    = Ret s /\
    Str.trim s = s /\
    exists v rest,
      linesOf s
      = Str.join Str.comma (f3SnapshotKeys ++ f1SnapshotKeys)
        :: v :: "" :: Str.join Str.comma itemHeaders :: rest /\
      csvToData None (tickingClock 5) s
      = Ret (Some (parseCanonical (tickingClock 5)
                     (Str.join Str.comma (f3SnapshotKeys ++ f1SnapshotKeys))
                     v (Str.join Str.comma itemHeaders) rest)).
Proof.
  eexists. split; [vm_compute; reflexivity|].
  destruct (csvToData_after_dataToCsv None (tickingClock 5)
              (sampleQuote [sampleItem 600; VObj []; sampleItem 700] [2%nat])
              _ ltac:(vm_compute; reflexivity))
    as [(_ & Hs & _)|(_ & Htrim & Hrest)]; [discriminate Hs|].
  split; [exact Htrim|exact Hrest].
Defined.

(** ** Identifiers are not written *)

Lemma itemRowsOf_eraseId lf its index :
  itemRowsOf lf (map eraseId its) index = itemRowsOf lf its index.
Proof.
  revert index. induction its as [|it its IH]; intros index; [reflexivity|].
  cbn [map itemRowsOf]. rewrite IH. reflexivity.
Qed.

(** X4.  [dataToCsv] does not write the identifiers of the items: two
    records that differ in the [itemId] of their items only are written to
    the same text. *)
Theorem dataToCsv_ignores_itemId q its :
  map eraseId its = map eraseId (qItems q) ->
  dataToCsv (quoteValue (withItems q its)) = dataToCsv (quoteValue q).
Proof.
  intros Hsame. rewrite !dataToCsv_quoteValue. f_equal.
  unfold csvOf. f_equal. f_equal.
  change (qLf (withItems q its)) with (qLf q).
  change (qItems (withItems q its)) with its.
  rewrite <- (itemRowsOf_eraseId _ its), <- (itemRowsOf_eraseId _ (qItems q)).
  by rewrite Hsame.
Qed.

Lemma dataToCsv_ignores_itemId_witness :
  map eraseId [stampItem (tickingClock 5) 0 (blind (Some (Fin false 600 0)) None "Hall")]
  = map eraseId (qItems (sampleRecord
                           [blind (Some (Fin false 600 0)) None "Hall"] [] "Ann")) /\
  dataToCsv (quoteValue
               (withItems (sampleRecord
                             [blind (Some (Fin false 600 0)) None "Hall"] [] "Ann")
                  [stampItem (tickingClock 5) 0
                     (blind (Some (Fin false 600 0)) None "Hall")]))
  = dataToCsv (quoteValue (sampleRecord
                             [blind (Some (Fin false 600 0)) None "Hall"] [] "Ann")).
Proof.
  assert (map eraseId [stampItem (tickingClock 5) 0
                         (blind (Some (Fin false 600 0)) None "Hall")]
          = map eraseId (qItems (sampleRecord
                                   [blind (Some (Fin false 600 0)) None "Hall"] []
                                   "Ann"))) as Hsame by reflexivity.
  split; [exact Hsame|].
  exact (dataToCsv_ignores_itemId _ _ Hsame).
Defined.

(** ** Items that are not a list *)

(** X5.  [dataToCsv] is not total: when the item list of the active product
    is truthy and not an array (a string, a number, an object), the call
    [items.map] fails and [dataToCsv] throws. *)
Theorem dataToCsv_throws_unless_array quoteData v :
  activeItems quoteData = Ret v ->
  Js.truthy v = true ->
  (forall vs, v <> VArr vs) ->
  dataToCsv quoteData = Throw.
Proof.
  unfold dataToCsv, activeItems. cbv zeta.
  destruct (if Js.isNullish (Js.getOpt quoteData "products") then Ret VUndef else _)
    as [productData|]; [|discriminate].
  cbn [obind]. intros [= <-] Hv Hna.
  rewrite Hv. destruct (Js.truthy productData) eqn:Hpd.
  2:{ rewrite (get_falsy _ _ Hpd) in Hv. discriminate. }
  cbn [negb orb].
  destruct (mapM_from (fun v _ => projectCell v) _ _); [|reflexivity].
  cbn [obind].
  destruct (Js.get productData "items") as [| | | | |vs|]; try reflexivity.
  by destruct (Hna vs).
Qed.

Lemma dataToCsv_throws_unless_array_witness :
  activeItems (VObj [("currentProduct", VStr "rollerBlind");
                     ("products",
                      VObj [("rollerBlind", VObj [("items", VStr "none")])])])
  = Ret (VStr "none") /\
  Js.truthy (VStr "none") = true /\
  dataToCsv (VObj [("currentProduct", VStr "rollerBlind");
                   ("products",
                    VObj [("rollerBlind", VObj [("items", VStr "none")])])])
  = Throw.
Proof.
  assert (activeItems (VObj [("currentProduct", VStr "rollerBlind");
                             ("products",
                              VObj [("rollerBlind", VObj [("items", VStr "none")])])])
          = Ret (VStr "none")) as Hact by (vm_compute; reflexivity).
  split; [exact Hact|]. split; [reflexivity|].
  apply (dataToCsv_throws_unless_array _ _ Hact); [reflexivity|discriminate].
Defined.

(* ===================================================================== *)
(** * Further properties of the parser                                     *)
(* ===================================================================== *)

(** ** White space around the text *)

Lemma trimStart_ws w : allChars Str.is_ws w = true -> Str.trimStart w = "".
Proof.
  induction w as [|c r IH]; [reflexivity|].
  cbn [allChars Str.trimStart]. intros [Hc Hr]%andb_true_iff.
  rewrite Hc. auto.
Qed.

Lemma trimEnd_ws w : allChars Str.is_ws w = true -> Str.trimEnd w = "".
Proof.
  induction w as [|c r IH]; [reflexivity|].
  cbn [allChars Str.trimEnd]. intros [Hc Hr]%andb_true_iff.
  rewrite (IH Hr), Hc. reflexivity.
Qed.

Lemma trimEnd_app_ws s w :
  allChars Str.is_ws w = true -> Str.trimEnd (s +:+ w) = Str.trimEnd s.
Proof.
  intros Hw. induction s as [|c r IH].
  - apply trimEnd_ws, Hw.
  - change (String c r +:+ w) with (String c (r +:+ w)).
    cbn [Str.trimEnd]. rewrite IH. reflexivity.
Qed.

Lemma trim_app_ws s w :
  allChars Str.is_ws w = true -> Str.trim (s +:+ w) = Str.trim s.
Proof.
  intros Hw. unfold Str.trim. induction s as [|c r IH].
  - change ("" +:+ w) with w. rewrite (trimStart_ws _ Hw). reflexivity.
  - change (String c r +:+ w) with (String c (r +:+ w)).
    cbn [Str.trimStart]. destruct (Str.is_ws c); [exact IH|].
    apply (trimEnd_app_ws (String c r)), Hw.
Qed.

Lemma trim_ws_app w s :
  allChars Str.is_ws w = true -> Str.trim (w +:+ s) = Str.trim s.
Proof.
  unfold Str.trim. induction w as [|c r IH]; [reflexivity|].
  cbn [allChars]. intros [Hc Hr]%andb_true_iff.
  change (String c r +:+ s) with (String c (r +:+ s)).
  cbn [Str.trimStart]. rewrite Hc. auto.
Qed.

Lemma trim_padded w1 s w2 :
  allChars Str.is_ws w1 = true -> allChars Str.is_ws w2 = true ->
  Str.trim (w1 +:+ s +:+ w2) = Str.trim s.
Proof.
  intros H1 H2. rewrite (trim_ws_app _ _ H1). apply trim_app_ws, H2.
Qed.

Lemma legacy_same_trim initialState clock s1 s2 :
  Str.trim s1 = Str.trim s2 ->
  csvToData_OldFormat initialState clock s1
  = csvToData_OldFormat initialState clock s2.
Proof. intros H. unfold csvToData_OldFormat. rewrite H. reflexivity. Qed.

Lemma csvToData_same_trim initialState clock s1 s2 :
  Str.trim s1 = Str.trim s2 ->
  csvToData initialState clock s1 = csvToData initialState clock s2.
Proof.
  intros H. unfold csvToData.
  rewrite (legacy_same_trim initialState clock s1 s2 H), H. reflexivity.
Qed.

(** X6.  White space around the text does not count: a text padded with
    blanks, tabs, carriage returns or newlines in front and behind (a final
    newline, leading blank lines) is parsed to the same result as the text
    itself, by [csvToData] and by [csvToData_OldFormat]. *)
Theorem csvToData_ignores_padding initialState clock w1 s w2 :
  allChars Str.is_ws w1 = true ->
  allChars Str.is_ws w2 = true ->
  csvToData initialState clock (w1 +:+ s +:+ w2) = csvToData initialState clock s
  /\ csvToData_OldFormat initialState clock (w1 +:+ s +:+ w2)
     = csvToData_OldFormat initialState clock s.
Proof.
  intros H1 H2. split.
  - apply csvToData_same_trim, trim_padded; assumption.
  - apply legacy_same_trim, trim_padded; assumption.
Qed.

Lemma csvToData_ignores_padding_witness :
  allChars Str.is_ws (String Str.nl " ") = true /\
  csvToData (Some []) (tickingClock 5)
    (String Str.nl " " +:+ text ["#,Width,Height"; "1,600,900"]
     +:+ String Str.nl " ")
  = csvToData (Some []) (tickingClock 5) (text ["#,Width,Height"; "1,600,900"]).
Proof.
  assert (allChars Str.is_ws (String Str.nl " ") = true) as Hw
    by (vm_compute; reflexivity).
  split; [exact Hw|].
  exact (proj1 (csvToData_ignores_padding (Some []) (tickingClock 5)
                  (String Str.nl " ") (text ["#,Width,Height"; "1,600,900"])
                  (String Str.nl " ") Hw Hw)).
Defined.

(** ** Searching the lines and the header cells *)

Lemma findIndex_app {A} (p : A -> bool) pre x rest :
  Forall (fun y => p y = false) pre -> p x = true ->
  findIndex p (pre ++ x :: rest) = Some (length pre).
Proof.
  intros Hpre Hx. induction Hpre as [|y pre Hy _ IH]; cbn [findIndex app length].
  - rewrite Hx. reflexivity.
  - rewrite Hy, IH. reflexivity.
Qed.

Lemma findIndex_Some_inv {A} (p : A -> bool) xs i :
  findIndex p xs = Some i ->
  exists x, xs !! i = Some x /\ p x = true
            /\ Forall (fun y => p y = false) (take i xs).
Proof.
  revert i. induction xs as [|y xs IH]; intros i; cbn [findIndex]; [discriminate|].
  destruct (p y) eqn:Hy.
  - intros [= <-]. exists y. repeat split; [exact Hy|constructor].
  - destruct (findIndex p xs) as [j|]; [|discriminate].
    intros [= <-]. destruct (IH j eq_refl) as (x & Hx & Hp & Hall).
    exists x. repeat split; [exact Hx|exact Hp|]. cbn [take]. constructor; assumption.
Qed.

Lemma indexOf_None x xs : x ∉ xs -> Str.indexOf x xs = None.
Proof.
  induction xs as [|y ys IH]; [reflexivity|].
  intros [Hne Hnin]%not_elem_of_cons. cbn [Str.indexOf]. unfold Str.eqb.
  rewrite bool_decide_eq_false_2 by congruence.
  rewrite (IH Hnin). reflexivity.
Qed.

Lemma indexOf_Some x xs i :
  Str.indexOf x xs = Some i -> xs !! i = Some x.
Proof.
  revert i. induction xs as [|y ys IH]; intros i; cbn [Str.indexOf]; [discriminate|].
  unfold Str.eqb. destruct (bool_decide_reflect (y = x)) as [->|Hne].
  - intros [= <-]. reflexivity.
  - destruct (Str.indexOf x ys) as [j|]; [|discriminate].
    intros [= <-]. exact (IH j eq_refl).
Qed.

(** ** The two branches of [csvToData] *)

Lemma csvToData_cases initialState clock s p :
  csvToData initialState clock s = Ret (Some p) ->
  (exists h v b ih rows,
      linesOf s = h :: v :: b :: ih :: rows /\
      p = parseCanonical clock h v ih rows)
  \/ ((length (linesOf s) < 4)%nat /\
      csvToData_OldFormat initialState clock s = Ret (Some p)).
Proof.
  intros Hres.
  destruct (linesOf s) as [|h [|v [|b [|ih rows]]]] eqn:Hl.
  1-4: right; split; [cbn [length]; lia|];
       rewrite csvToData_short in Hres by (rewrite Hl; cbn [length]; lia);
       destruct (csvToData_OldFormat initialState clock s) as [r|];
       cbn [try_catch] in Hres; [congruence|discriminate].
  left. exists h, v, b, ih, rows. split; [reflexivity|].
  rewrite (csvToData_canonical _ _ _ _ _ _ _ _ Hl) in Hres. congruence.
Qed.

Lemma legacy_inv initialState clock s p :
  csvToData_OldFormat initialState clock s = Ret (Some p) ->
  exists keys hi h st,
    initialState = Some keys /\
    linesOf s !! hi = Some h /\
    isLegacyHeader h = true /\
    Forall (fun line => isLegacyHeader line = false) (take hi (linesOf s)) /\
    forEachM (legacyLineStep clock keys (Str.split Str.comma h)
                (Str.indexOf "IsLF" (Str.split Str.comma h)))
      (drop (hi + 1) (linesOf s)) 0 (mkLegacy [] [] ∅) = Ret st /\
    p = mkParsed (lgItems st) (lgLfIndexes st) (lgF1Snapshot st) (mkF3 ∅ ∅).
Proof.
  unfold csvToData_OldFormat. fold (linesOf s).
  change (fun line => negb (Str.isEmpty (Str.trim line))
                      && Str.startsWith "#,Width" line) with isLegacyHeader.
  destruct (findIndex isLegacyHeader (linesOf s)) as [hi|] eqn:Hfind; [|discriminate].
  destruct (findIndex_Some_inv _ _ _ Hfind) as (h & Hh & Hp & Hfirst).
  rewrite Hh. cbn [default].
  destruct initialState as [keys|]; [|discriminate].
  destruct (forEachM _ _ _ _) as [st|] eqn:Hrun; cbn [obind]; [|discriminate].
  intros [= <-]. exists keys, hi, h, st. repeat split; assumption.
Qed.

(** ** Invariants of the loops *)

Lemma fold_left_invariant {A St} (P : St -> Prop) (f : St -> A -> St) xs :
  (forall s x, P s -> P (f s x)) ->
  forall s, P s -> P (fold_left f xs s).
Proof.
  intros Hstep. induction xs as [|x xs IH]; cbn [fold_left]; intros s Hs; auto.
Qed.

Lemma forEachFrom_invariant {A St} (P : St -> Prop) (f : St -> A -> nat -> St) xs :
  (forall s x i, x ∈ xs -> P s -> P (f s x i)) ->
  forall i s, P s -> P (forEachFrom f xs i s).
Proof.
  induction xs as [|x xs IH]; cbn [forEachFrom]; intros Hstep i s Hs; [exact Hs|].
  apply IH.
  - intros s' y j Hy. apply Hstep. apply list_elem_of_further, Hy.
  - apply Hstep; [apply list_elem_of_here|exact Hs].
Qed.

Lemma forEachM_invariant {A St} (P : St -> Prop)
    (f : St -> A -> nat -> outcome St) xs :
  (forall s x i s', P s -> f s x i = Ret s' -> P s') ->
  forall i s s', P s -> forEachM f xs i s = Ret s' -> P s'.
Proof.
  intros Hstep. induction xs as [|x xs IH]; cbn [forEachM]; intros i s s' Hs Hrun.
  - congruence.
  - destruct (f s x i) as [s1|] eqn:Hf; cbn [obind] in Hrun; [|discriminate].
    exact (IH _ _ _ (Hstep _ _ _ _ Hs Hf) Hrun).
Qed.

Lemma pushItem_items clock isLfIndex values its lf :
  (pushItem clock isLfIndex values its lf).1
  = its ++ [parseItem (clock (length its)) (length its) values].
Proof.
  unfold pushItem. destruct isLfIndex as [i|]; [|reflexivity].
  destruct (Num.eqb _ _); reflexivity.
Qed.

Lemma pushItem_lf clock isLfIndex values its lf :
  (pushItem clock isLfIndex values its lf).2
  = match isLfIndex with
    | Some i =>
        if Num.eqb (Num.parseInt (argString (values !! i))) (Fin false 1 0)
        then lf ++ [length its] else lf
    | None => lf
    end.
Proof.
  unfold pushItem. destruct isLfIndex as [i|]; [|reflexivity].
  destruct (Num.eqb _ _); [|reflexivity].
  cbn [snd]. rewrite length_app. cbn [length].
  replace (length its + 1 - 1)%nat with (length its) by lia. reflexivity.
Qed.

(** Each step of the legacy loop leaves the items alone or pushes one. *)
Lemma legacyLineStep_items clock keys headers isLfIndex st line i st' :
  legacyLineStep clock keys headers isLfIndex st line i = Ret st' ->
  (lgItems st' = lgItems st /\ lgLfIndexes st' = lgLfIndexes st)
  \/ exists values,
       lgItems st' = (pushItem clock isLfIndex values (lgItems st) (lgLfIndexes st)).1 /\
       lgLfIndexes st' = (pushItem clock isLfIndex values (lgItems st) (lgLfIndexes st)).2.
Proof.
  unfold legacyLineStep. destruct (skipLine _); [intros [= <-]; left; auto|].
  destruct (_ && _).
  - destruct (lgF1Snapshot st !! "hasOwnProperty"); [discriminate|].
    destruct (lgF1Snapshot st !! _); intros [= <-]; left; auto.
  - destruct (pushItem clock isLfIndex _ _ _) as [its' lf'] eqn:Hp.
    intros [= <-]. right. eexists. rewrite Hp. split; reflexivity.
Qed.

(** ** The items of the canonical branch, line by line *)

Lemma dataLines_cons line rows :
  dataLines (line :: rows)
  = if skipLine (Str.trim line) then dataLines rows else line :: dataLines rows.
Proof. unfold dataLines. cbn [List.filter]. destruct (skipLine _); reflexivity. Qed.

Lemma itemLines_spec clock isLfIndex rows acc lfs :
  fold_left (itemLineStep clock isLfIndex) rows (acc, lfs)
  = (acc ++ imap (fun k line =>
                    parseItem (clock (length acc + k)%nat) (length acc + k)%nat
                      (Str.split Str.comma (Str.trim line)))
                 (dataLines rows),
     lfs ++ lfPositions isLfIndex (dataLines rows) (length acc)).
Proof.
  revert acc lfs. induction rows as [|line rows IH]; intros acc lfs.
  - cbn [fold_left dataLines List.filter imap lfPositions].
    rewrite !app_nil_r. reflexivity.
  - cbn [fold_left]. rewrite dataLines_cons.
    assert (itemLineStep clock isLfIndex (acc, lfs) line
            = if skipLine (Str.trim line) then (acc, lfs)
              else pushItem clock isLfIndex
                     (Str.split Str.comma (Str.trim line)) acc lfs) as ->
      by reflexivity.
    destruct (skipLine (Str.trim line)); [apply IH|].
    rewrite (surjective_pairing (pushItem _ _ _ _ _)).
    rewrite pushItem_items, pushItem_lf, IH.
    rewrite length_app. cbn [length imap lfPositions].
    rewrite Nat.add_0_r, <- app_assoc. cbn [app].
    f_equal.
    + f_equal. f_equal. apply imap_ext. intros k x _. cbn.
      replace (length acc + 1 + k)%nat with (length acc + S k)%nat by lia.
      reflexivity.
    + replace (length acc + 1)%nat with (S (length acc)) by lia.
      unfold lineIsLf. destruct isLfIndex as [i|]; [|reflexivity].
      destruct (Num.eqb _ _); [|reflexivity].
      rewrite <- app_assoc. reflexivity.
Qed.

Lemma parseCanonical_items clock h v ih rows :
  items (parseCanonical clock h v ih rows)
  = imap (fun k line => parseItem (clock k) k (Str.split Str.comma (Str.trim line)))
         (dataLines rows)
  /\ lfIndexes (parseCanonical clock h v ih rows)
     = lfPositions (Str.indexOf "IsLF" (Str.split Str.comma ih)) (dataLines rows) 0.
Proof.
  unfold parseCanonical.
  destruct (forEachFrom _ _ _ _) as [f1 f3].
  rewrite itemLines_spec. cbn [items lfIndexes app length Nat.add]. auto.
Qed.

(** X7.  In the canonical branch the blank lines and the footer lines of
    the item table give nothing, and the k-th of the other lines gives the
    k-th item: items and LF positions are numbered by the lines that count,
    not by the lines of the text. *)
Theorem canonical_items_line_by_line initialState clock s h v b ih rows :
  linesOf s = h :: v :: b :: ih :: rows ->
  exists p,
    csvToData initialState clock s = Ret (Some p) /\
    items p
    = imap (fun k line =>
              parseItem (clock k) k (Str.split Str.comma (Str.trim line)))
           (dataLines rows) /\
    lfIndexes p
    = lfPositions (Str.indexOf "IsLF" (Str.split Str.comma ih)) (dataLines rows) 0.
Proof.
  intros Hl. exists (parseCanonical clock h v ih rows).
  split; [exact (csvToData_canonical _ _ _ _ _ _ _ _ Hl)|].
  apply parseCanonical_items.
Qed.

Lemma canonical_items_line_by_line_witness :
  linesOf (text ["quoteId"; "Q1"; ""; "#,Width,IsLF"; "1,600,0"; "";
                 "2,700,1"; "Total,1300"])
  = "quoteId" :: "Q1" :: "" :: "#,Width,IsLF"
    :: ["1,600,0"; ""; "2,700,1"; "Total,1300"] /\
  dataLines ["1,600,0"; ""; "2,700,1"; "Total,1300"] = ["1,600,0"; "2,700,1"] /\
  exists p,
    csvToData None (tickingClock 5)
      (text ["quoteId"; "Q1"; ""; "#,Width,IsLF"; "1,600,0"; "";
             "2,700,1"; "Total,1300"]) = Ret (Some p) /\
    items p
    = imap (fun k line =>
              parseItem (tickingClock 5 k) k (Str.split Str.comma (Str.trim line)))
           (dataLines ["1,600,0"; ""; "2,700,1"; "Total,1300"]) /\
    lfIndexes p
    = lfPositions (Str.indexOf "IsLF" (Str.split Str.comma "#,Width,IsLF"))
        (dataLines ["1,600,0"; ""; "2,700,1"; "Total,1300"]) 0.
Proof.
  assert (linesOf (text ["quoteId"; "Q1"; ""; "#,Width,IsLF"; "1,600,0"; "";
                         "2,700,1"; "Total,1300"])
          = "quoteId" :: "Q1" :: "" :: "#,Width,IsLF"
            :: ["1,600,0"; ""; "2,700,1"; "Total,1300"]) as Hl
    by (vm_compute; reflexivity).
  split; [exact Hl|]. split; [vm_compute; reflexivity|].
  exact (canonical_items_line_by_line None (tickingClock 5) _ _ _ _ _ _ Hl).
Defined.

Lemma dataLines_idem rows : dataLines (dataLines rows) = dataLines rows.
Proof.
  induction rows as [|line rows IH]; [reflexivity|].
  rewrite dataLines_cons. destruct (skipLine (Str.trim line)) eqn:Hskip; [exact IH|].
  rewrite dataLines_cons, Hskip, IH. reflexivity.
Qed.

(** ** A text built from its lines *)

Lemma trimEnd_app_clean a t :
  endsClean a = true -> Str.trimEnd (a +:+ t) = a +:+ Str.trimEnd t.
Proof.
  induction a as [|c a IH]; [discriminate|].
  destruct a as [|d a'].
  - intros Hc. change (String c "" +:+ t) with (String c t).
    cbn [Str.trimEnd]. cbn [endsClean] in Hc.
    destruct (Str.trimEnd t); [|reflexivity].
    apply negb_true_iff in Hc. rewrite Hc. reflexivity.
  - intros H. change (endsClean (String c (String d a'))) with (endsClean (String d a')) in H.
    specialize (IH H).
    change (String c (String d a') +:+ t) with (String c (String d a' +:+ t)).
    cbn [Str.trimEnd]. rewrite IH.
    change (String d a' +:+ Str.trimEnd t) with (String d (a' +:+ Str.trimEnd t)).
    reflexivity.
Qed.

Lemma trimEnd_app_nonblank a t :
  Str.trimEnd t <> "" -> Str.trimEnd (a +:+ t) = a +:+ Str.trimEnd t.
Proof.
  intros Ht. induction a as [|c a IH]; [reflexivity|].
  change (String c a +:+ t) with (String c (a +:+ t)).
  cbn [Str.trimEnd]. rewrite IH.
  change (String c a +:+ Str.trimEnd t) with (String c (a +:+ Str.trimEnd t)).
  destruct (a +:+ Str.trimEnd t) eqn:Heq; [|reflexivity].
  destruct a; [|discriminate]. by destruct Ht.
Qed.

Lemma trimEnd_decomp r :
  exists w, r = Str.trimEnd r +:+ w /\ allChars Str.is_ws w = true.
Proof.
  induction r as [|c r (w & Hr & Hw)]; [by exists ""|].
  cbn [Str.trimEnd]. destruct (Str.trimEnd r) as [|d r'] eqn:Ht.
  - change ("" +:+ w) with w in Hr. subst w.
    destruct (Str.is_ws c) eqn:Hc.
    + exists (String c r). split; [reflexivity|]. cbn [allChars]. by rewrite Hc, Hw.
    + by exists r.
  - exists w. split; [|exact Hw].
    change (String c (String d r') +:+ w) with (String c (String d r' +:+ w)).
    by rewrite <- Hr.
Qed.

Lemma trimEnd_blank t : Str.trimEnd t = "" -> allChars Str.is_ws t = true.
Proof.
  intros Ht. destruct (trimEnd_decomp t) as (w & Hw & Hall).
  rewrite Ht in Hw. change ("" +:+ w) with w in Hw. by subst w.
Qed.

Lemma trim_trimEnd r : Str.trim (Str.trimEnd r) = Str.trim r.
Proof.
  destruct (trimEnd_decomp r) as (w & Hw & Hall).
  rewrite Hw at 2. by rewrite trim_app_ws.
Qed.

Lemma has_trimEnd c r : Str.has c r = false -> Str.has c (Str.trimEnd r) = false.
Proof.
  destruct (trimEnd_decomp r) as (w & Hw & _).
  rewrite Hw at 1. rewrite has_app. by intros [? _]%orb_false_elim.
Qed.

Lemma trim_blank line : allChars Str.is_ws line = true -> Str.trim line = "".
Proof. intros H. unfold Str.trim. by rewrite (trimStart_ws _ H). Qed.

Lemma dataLines_blank rows :
  Forall (fun line => allChars Str.is_ws line = true) rows -> dataLines rows = [].
Proof.
  induction 1 as [|line rows Hline _ IH]; [reflexivity|].
  rewrite dataLines_cons, (trim_blank _ Hline). exact IH.
Qed.

Lemma join_linesTail front r rows :
  Str.join Str.nl ((front ++ [r]) ++ rows)
  = Str.join Str.nl (front ++ [r]) +:+ linesTail rows.
Proof.
  revert front r. induction rows as [|x rows IH]; intros front r.
  - by rewrite app_nil_r, app_empty_r.
  - change ((front ++ [r]) ++ x :: rows) with ((front ++ [r]) ++ [x] ++ rows).
    rewrite app_assoc, IH.
    replace (Str.join Str.nl ((front ++ [r]) ++ [x]))
      with (Str.join Str.nl (front ++ [r]) +:+ String Str.nl x).
    + cbn [linesTail]. rewrite str_app_assoc. reflexivity.
    + clear. induction front as [|f front IH]; [reflexivity|].
      change (((f :: front) ++ [r]) ++ [x]) with (f :: ((front ++ [r]) ++ [x])).
      change ((f :: front) ++ [r]) with (f :: (front ++ [r])).
      destruct (front ++ [r]) as [|y ys] eqn:Hy; [by destruct front|].
      change ((y :: ys) ++ [x]) with (y :: (ys ++ [x])).
      rewrite !join_cons, str_app_assoc.
      change (String Str.nl (Str.join Str.nl (y :: ys)) +:+ String Str.nl x)
        with (String Str.nl (Str.join Str.nl (y :: ys) +:+ String Str.nl x)).
      rewrite IH. reflexivity.
Qed.

(** What the final trim leaves of the lines after the header: nothing when
    they are all blank, and otherwise lines that give the same items. *)
Lemma trimEnd_linesTail rows :
  Forall (fun line => Str.has Str.nl line = false) rows ->
  (Str.trimEnd (linesTail rows) = ""
   /\ Forall (fun line => allChars Str.is_ws line = true) rows)
  \/ (exists u,
        Str.trimEnd (linesTail rows) = String Str.nl u /\
        map Str.trim (dataLines (Str.split Str.nl u)) = map Str.trim (dataLines rows)).
Proof.
  induction 1 as [|r rest Hr _ IH]; [by left|].
  cbn [linesTail Str.trimEnd].
  destruct IH as [[Ht Hblank]|(u & Ht & Hsame)].
  - rewrite trimEnd_app_ws by exact (trimEnd_blank _ Ht).
    destruct (Str.trimEnd r) as [|c r'] eqn:Htr.
    + left. change (Str.is_ws Str.nl) with true. cbn iota. split; [reflexivity|].
      constructor; [exact (trimEnd_blank _ Htr)|exact Hblank].
    + right. exists (String c r'). split; [reflexivity|].
      rewrite <- Htr, split_no_sep by exact (has_trimEnd _ _ Hr).
      rewrite !dataLines_cons, trim_trimEnd, (dataLines_blank _ Hblank).
      change (dataLines []) with (@nil string).
      destruct (skipLine (Str.trim r)); [reflexivity|].
      cbn [map]. by rewrite trim_trimEnd.
  - right. rewrite trimEnd_app_nonblank by (rewrite Ht; discriminate).
    rewrite Ht. exists (r +:+ String Str.nl u).
    destruct (r +:+ String Str.nl u) eqn:Heq; [by destruct r|]. rewrite <- Heq.
    split; [reflexivity|].
    rewrite split_app_sep by exact Hr.
    rewrite !dataLines_cons. destruct (skipLine (Str.trim r)); [exact Hsame|].
    cbn [map]. by rewrite Hsame.
Qed.

Lemma lfPositions_trim isLfIndex l1 l2 k :
  map Str.trim l1 = map Str.trim l2 ->
  lfPositions isLfIndex l1 k = lfPositions isLfIndex l2 k.
Proof.
  revert l2 k. induction l1 as [|a l1 IH]; intros [|c l2] k; try discriminate;
    [reflexivity|].
  cbn [map]. intros [= Ha Hl]. cbn [lfPositions]. unfold lineIsLf.
  rewrite Ha, (IH _ _ Hl). reflexivity.
Qed.

Lemma imap_trim {B} (f : nat -> string -> B) l1 l2 :
  map Str.trim l1 = map Str.trim l2 ->
  imap (fun k line => f k (Str.trim line)) l1
  = imap (fun k line => f k (Str.trim line)) l2.
Proof.
  revert f l2. induction l1 as [|a l1 IH]; intros f [|c l2]; try discriminate;
    [reflexivity|].
  cbn [map]. intros [= Ha Hl]. cbn [imap]. rewrite Ha. f_equal.
  exact (IH (fun k t => f (S k) t) _ Hl).
Qed.

(** The item loop looks at the trimmed lines that it does not skip. *)
Lemma itemLines_same_trim clock isLfIndex rows1 rows2 st :
  map Str.trim (dataLines rows1) = map Str.trim (dataLines rows2) ->
  fold_left (itemLineStep clock isLfIndex) rows1 st
  = fold_left (itemLineStep clock isLfIndex) rows2 st.
Proof.
  intros Hsame. destruct st as [acc lfs]. rewrite !itemLines_spec.
  rewrite (lfPositions_trim _ _ _ _ Hsame).
  f_equal. f_equal.
  exact (imap_trim
           (fun k t => parseItem (clock (length acc + k)%nat) (length acc + k)%nat
                         (Str.split Str.comma t)) _ _ Hsame).
Qed.

Lemma parseCanonical_same_trim clock h v ih rows1 rows2 :
  map Str.trim (dataLines rows1) = map Str.trim (dataLines rows2) ->
  parseCanonical clock h v ih rows1 = parseCanonical clock h v ih rows2.
Proof.
  intros Hsame. unfold parseCanonical.
  destruct (forEachFrom _ _ _ _) as [f1 f3].
  by rewrite (itemLines_same_trim _ _ _ _ _ Hsame).
Qed.

(** A text built from a first line that begins with a visible character,
    two more lines, an item header line that ends with a visible character
    and any further lines is parsed by the canonical branch from these very
    lines: what the final trim takes away, blank lines at the end and white
    space at the end of the last line, gives no item anyway. *)
Lemma csvToData_text initialState clock h v b ih rows :
  startsClean h = true ->
  endsClean ih = true ->
  Forall (fun line => Str.has Str.nl line = false) (h :: v :: b :: ih :: rows) ->
  csvToData initialState clock (text (h :: v :: b :: ih :: rows))
  = Ret (Some (parseCanonical clock h v ih rows)).
Proof.
  intros Hh Hih Hnl.
  assert (Forall (fun line => Str.has Str.nl line = false) [h; v; b; ih]) as Hfront.
  { repeat (apply Forall_cons in Hnl as [? Hnl]). repeat constructor; assumption. }
  assert (Forall (fun line => Str.has Str.nl line = false) rows) as Hrows.
  { by do 4 apply Forall_inv_tail in Hnl. }
  assert (endsClean (Str.join Str.nl ([h; v; b] ++ [ih])) = true) as Hclean
    by (by apply endsClean_join).
  assert (exists rows',
             linesOf (text (h :: v :: b :: ih :: rows)) = h :: v :: b :: ih :: rows'
             /\ map Str.trim (dataLines rows') = map Str.trim (dataLines rows))
    as (rows' & Hl & Hsame).
  { unfold linesOf, text, Str.trim.
    change (h :: v :: b :: ih :: rows) with (([h; v; b] ++ [ih]) ++ rows).
    rewrite join_linesTail.
    rewrite trimStart_clean
      by (cbn [app]; rewrite join_cons; by apply startsClean_app, startsClean_app).
    rewrite trimEnd_app_clean by exact Hclean.
    destruct (trimEnd_linesTail rows Hrows) as [[-> Hblank]|(u & -> & Hsame)].
    - exists []. rewrite app_empty_r. split.
      + by apply split_join.
      + by rewrite (dataLines_blank _ Hblank).
    - exists (Str.split Str.nl u). split; [|exact Hsame].
      assert (Str.join Str.nl ([h; v; b] ++ [ih]) +:+ String Str.nl u
              = Str.join Str.nl ([h; v; b; ih] ++ [u])) as ->.
      { change ([h; v; b; ih] ++ [u]) with (([h; v; b] ++ [ih]) ++ [u]).
        rewrite join_linesTail. cbn [linesTail]. by rewrite app_empty_r. }
      rewrite split_join_prefix by exact Hfront. reflexivity. }
  rewrite (csvToData_canonical _ _ _ _ _ _ _ _ Hl).
  by rewrite (parseCanonical_same_trim _ _ _ _ _ _ Hsame).
Qed.

Lemma Forall_dataLines (P : string -> Prop) rows :
  Forall P rows -> Forall P (dataLines rows).
Proof.
  induction 1 as [|line rows Hline _ IH]; [constructor|].
  rewrite dataLines_cons. destruct (skipLine _); [exact IH|by constructor].
Qed.

(** X8.  In a text built from its lines, the first beginning and the item
    header line ending with a visible character, the lines of the item table
    that are blank or begin with [total] in any letter case can be taken out
    without any change to the result of [csvToData]. *)
Theorem canonical_footers_removable initialState clock h v b ih rows :
  startsClean h = true ->
  endsClean ih = true ->
  Forall (fun line => Str.has Str.nl line = false) (h :: v :: b :: ih :: rows) ->
  csvToData initialState clock (text (h :: v :: b :: ih :: rows))
  = csvToData initialState clock (text (h :: v :: b :: ih :: dataLines rows)).
Proof.
  intros Hh Hih Hnl.
  rewrite (csvToData_text _ _ _ _ _ _ _ Hh Hih Hnl).
  rewrite csvToData_text; [|exact Hh|exact Hih|].
  - do 2 f_equal. apply parseCanonical_same_trim. by rewrite dataLines_idem.
  - repeat (apply Forall_cons in Hnl as [? Hnl]).
    repeat (constructor; [assumption|]). by apply Forall_dataLines.
Qed.

Lemma canonical_footers_removable_witness :
  startsClean "quoteId" = true /\
  endsClean "#,Width,IsLF" = true /\
  Forall (fun line => Str.has Str.nl line = false)
    ("quoteId" :: "Q1" :: "" :: "#,Width,IsLF"
     :: ["1,600,0 "; "  "; "TOTAL,,1300"; "2,700,1  "; "Total"; ""]) /\
  dataLines ["1,600,0 "; "  "; "TOTAL,,1300"; "2,700,1  "; "Total"; ""]
  = ["1,600,0 "; "2,700,1  "] /\
  csvToData None (tickingClock 5)
    (text ("quoteId" :: "Q1" :: "" :: "#,Width,IsLF"
           :: ["1,600,0 "; "  "; "TOTAL,,1300"; "2,700,1  "; "Total"; ""]))
  = csvToData None (tickingClock 5)
      (text ("quoteId" :: "Q1" :: "" :: "#,Width,IsLF"
             :: dataLines ["1,600,0 "; "  "; "TOTAL,,1300"; "2,700,1  "; "Total"; ""])).
Proof.
  assert (Forall (fun line => Str.has Str.nl line = false)
            ("quoteId" :: "Q1" :: "" :: "#,Width,IsLF"
             :: ["1,600,0 "; "  "; "TOTAL,,1300"; "2,700,1  "; "Total"; ""])) as Hnl
    by (repeat constructor).
  split; [reflexivity|]. split; [reflexivity|]. split; [exact Hnl|].
  split; [vm_compute; reflexivity|].
  exact (canonical_footers_removable None (tickingClock 5)
           "quoteId" "Q1" "" "#,Width,IsLF"
           ["1,600,0 "; "  "; "TOTAL,,1300"; "2,700,1  "; "Total"; ""]
           eq_refl eq_refl Hnl).
Defined.

(** ** A header row without an IsLF column *)

Lemma lfPositions_None lines k : lfPositions None lines k = [].
Proof.
  revert k. induction lines as [|line lines IH]; intros k; [reflexivity|].
  cbn [lfPositions lineIsLf]. apply IH.
Qed.

Lemma legacy_no_IsLF initialState clock s p :
  csvToData_OldFormat initialState clock s = Ret (Some p) ->
  Forall (fun line => "IsLF" ∉ Str.split Str.comma line) (linesOf s) ->
  lfIndexes p = [].
Proof.
  intros Hres Hall.
  destruct (legacy_inv _ _ _ _ Hres) as (keys & hi & h & st & _ & Hh & _ & _ & Hrun & ->).
  cbn [lfIndexes].
  rewrite Forall_forall in Hall.
  rewrite (indexOf_None _ _ (Hall h (list_elem_of_lookup_2 _ _ _ Hh))) in Hrun.
  refine (forEachM_invariant (fun st => lgLfIndexes st = []) _ _ _ _ _ _ _ Hrun);
    [|reflexivity].
  intros s0 line i s1 Hs0 Hstep.
  destruct (legacyLineStep_items _ _ _ _ _ _ _ _ Hstep) as [[_ ->]|(values & _ & ->)].
  - exact Hs0.
  - rewrite pushItem_lf. exact Hs0.
Qed.

(** X9.  The LF column is found by its header name alone: when no line of
    the text has a cell that is exactly [IsLF] (the column is missing, is
    spelled in another case, or carries a carriage return), the result has
    no LF position, whatever the rows hold. *)
Theorem no_IsLF_header_no_lfIndexes initialState clock s p :
  csvToData initialState clock s = Ret (Some p) \/
  csvToData_OldFormat initialState clock s = Ret (Some p) ->
  Forall (fun line => "IsLF" ∉ Str.split Str.comma line) (linesOf s) ->
  lfIndexes p = [].
Proof.
  intros [Hnew|Hold] Hall; [|exact (legacy_no_IsLF _ _ _ _ Hold Hall)].
  destruct (csvToData_cases _ _ _ _ Hnew)
    as [(h & v & b & ih & rows & Hl & ->)|[_ Hold]];
    [|exact (legacy_no_IsLF _ _ _ _ Hold Hall)].
  rewrite (proj2 (parseCanonical_items clock h v ih rows)).
  rewrite Hl in Hall.
  do 3 apply Forall_inv_tail in Hall. apply Forall_inv in Hall.
  rewrite (indexOf_None _ _ Hall). apply lfPositions_None.
Qed.

Lemma no_IsLF_header_no_lfIndexes_witness :
  exists p,
    csvToData None (tickingClock 5)
      (text ["quoteId"; "Q1"; ""; "#,Width,islf"; "1,600,1"; "2,700,1"])
    = Ret (Some p) /\
    Forall (fun line => "IsLF" ∉ Str.split Str.comma line)
      (linesOf (text ["quoteId"; "Q1"; ""; "#,Width,islf"; "1,600,1"; "2,700,1"])) /\
    length (items p) = 2%nat /\
    lfIndexes p = [].
Proof.
  eexists. split; [vm_compute; reflexivity|].
  assert (Forall (fun line => "IsLF" ∉ Str.split Str.comma line)
            (linesOf (text ["quoteId"; "Q1"; ""; "#,Width,islf"; "1,600,1"; "2,700,1"])))
    as Hall.
  { apply Forall_forall. intros line Hline Hin.
    vm_compute in Hline.
    repeat (apply elem_of_cons in Hline as [->|Hline];
            [vm_compute in Hin;
             repeat (apply elem_of_cons in Hin as [Hin|Hin]; [discriminate|]);
             apply elem_of_nil in Hin; exact Hin|]).
    apply elem_of_nil in Hline. exact Hline. }
  split; [exact Hall|]. split; [reflexivity|].
  refine (no_IsLF_header_no_lfIndexes None (tickingClock 5)
            (text ["quoteId"; "Q1"; ""; "#,Width,islf"; "1,600,1"; "2,700,1"])
            _ (or_introl _) Hall).
  vm_compute. reflexivity.
Defined.

(** ** The identifiers of the items *)

Lemma eqb_int_inj y a b :
  Num.eqb y (Fin false a 0) = true -> Num.eqb y (Fin false b 0) = true -> a = b.
Proof.
  destruct y as [| |neg M E]; try discriminate.
  unfold Num.eqb.
  intros [Ha _]%andb_true_iff [Hb _]%andb_true_iff.
  apply Z.eqb_eq in Ha, Hb. rewrite Ha in Hb.
  apply Z.mul_cancel_r in Hb; [lia|].
  apply Z.pow_nonzero; lia.
Qed.

Lemma toString_int_inj a b :
  Num.toString (Fin false a 0) = Num.toString (Fin false b 0) -> a = b.
Proof.
  intros Heq.
  destruct (finalValue_toString (Fin false a 0) eq_refl) as (y & Hy & Hya).
  destruct (finalValue_toString (Fin false b 0) eq_refl) as (y' & Hy' & Hyb).
  rewrite Heq, Hy' in Hy. injection Hy as <-.
  exact (eqb_int_inj _ _ _ Hya Hyb).
Qed.

Lemma isDigit_notDash c : isDigit c = true -> notDash c = true.
Proof. destruct c as [[] [] [] [] [] [] [] []]; done. Qed.

Lemma notDash_digitsString ds :
  Forall (fun d => (d < 10)%nat) ds -> allChars notDash (Num.digitsString ds) = true.
Proof.
  intros H. apply (allChars_impl isDigit); [apply isDigit_notDash|].
  by apply allChars_digitsString.
Qed.

Lemma notDash_toString_int m :
  allChars notDash (Num.toString (Fin false m 0)) = true.
Proof.
  unfold Num.toString. destruct m as [|q]; [reflexivity|].
  change ("" +:+ ?x) with x.
  pose proof (toDigits_digits (N.pos q)) as Hdig.
  pose proof (Forall_stripZeros _ _ Hdig) as Hds.
  pose proof (length_stripZeros (Num.toDigits (N.pos q))) as Hlen.
  pose proof (toDigits_nonempty (N.pos q)) as Hne.
  assert (0 < length (Num.toDigits (N.pos q)))%nat as Hpos
    by (destruct (Num.toDigits (N.pos q)); [done|cbn [length]; lia]).
  set (ds := Num.stripZeros (Num.toDigits (N.pos q))) in *.
  set (n := (Z.of_nat (length (Num.toDigits (N.pos q))) + 0)%Z).
  assert (Z.of_nat (length ds) <= n)%Z as Hk by lia.
  assert (0 < n)%Z as Hn by lia.
  clearbody ds n. unfold Num.positional.
  destruct (n <=? 21)%Z eqn:H21.
  - replace (Z.of_nat (length ds) <=? n)%Z with true by (symmetry; apply Z.leb_le; lia).
    cbn [andb]. apply notDash_digitsString, Forall_app.
    split; [done|apply Forall_zeros].
  - rewrite !andb_false_r.
    replace (n <=? 0)%Z with false by (symmetry; apply Z.leb_gt; lia).
    rewrite andb_false_r.
    assert (allChars notDash (Num.expString (n - 1)) = true) as Hexp.
    { unfold Num.expString.
      replace (n - 1 <? 0)%Z with false by (symmetry; apply Z.ltb_ge; lia).
      cbn [allChars]. rewrite notDash_digitsString by apply toDigits_digits.
      reflexivity. }
    destruct ds as [|d [|d' ds']]; [reflexivity| |].
    + cbn [allChars]. rewrite Hexp, isDigit_notDash; [reflexivity|].
      apply isDigit_digitChar. by apply Forall_inv in Hds.
    + rewrite allChars_app. cbn [allChars].
      rewrite Hexp, notDash_digitsString, isDigit_notDash; try reflexivity.
      * apply isDigit_digitChar. by apply Forall_inv in Hds.
      * by apply Forall_inv_tail in Hds.
Qed.

Lemma newId_inj clock a b : newId clock a = newId clock b -> a = b.
Proof.
  unfold newId. intros H.
  rewrite !app_String in H. change ("" +:+ ?x) with x in H.
  injection H as H.
  change ("-" +:+ ?x) with (String "-" x) in H.
  apply (f_equal (Str.split "-")) in H.
  rewrite !split_app_sep in H
    by (apply (allChars_has notDash); [apply notDash_toString_int|reflexivity]).
  injection H as _ H.
  rewrite !split_no_sep in H
    by (apply (allChars_has notDash); [apply notDash_toString_int|reflexivity]).
  injection H as H. apply toString_int_inj in H. lia.
Qed.

Lemma idsByPosition_push clock its it :
  idsByPosition clock its ->
  itemId it = newId clock (length its) ->
  idsByPosition clock (its ++ [it]).
Proof.
  intros Hits Hit k x Hk.
  apply lookup_app_Some in Hk as [Hk|[Hge Hk]]; [exact (Hits _ _ Hk)|].
  apply list_lookup_singleton_Some in Hk as [Hk <-].
  replace k with (length its) by lia. exact Hit.
Qed.

Lemma idsByPosition_NoDup clock its :
  idsByPosition clock its -> NoDup (map itemId its).
Proof.
  intros Hits. apply NoDup_alt. intros i j x Hi Hj.
  change (map itemId its) with (itemId <$> its) in Hi, Hj.
  rewrite list_lookup_fmap in Hi, Hj.
  destruct (its !! i) as [a|] eqn:Ha; [|discriminate].
  destruct (its !! j) as [c|] eqn:Hc; [|discriminate].
  cbn in Hi, Hj. injection Hi as Hi. injection Hj as Hj.
  rewrite (Hits _ _ Ha) in Hi. rewrite (Hits _ _ Hc) in Hj.
  apply (newId_inj clock). congruence.
Qed.

Lemma parseCanonical_idsByPosition clock h v ih rows :
  idsByPosition clock (items (parseCanonical clock h v ih rows)).
Proof.
  rewrite (proj1 (parseCanonical_items clock h v ih rows)).
  intros k it Hk. rewrite list_lookup_imap in Hk.
  destruct (dataLines rows !! k); [|discriminate].
  cbn in Hk. injection Hk as <-. reflexivity.
Qed.

Lemma legacy_idsByPosition initialState clock s p :
  csvToData_OldFormat initialState clock s = Ret (Some p) ->
  idsByPosition clock (items p).
Proof.
  intros Hres.
  destruct (legacy_inv _ _ _ _ Hres) as (keys & hi & h & st & _ & _ & _ & _ & Hrun & ->).
  cbn [items].
  refine (forEachM_invariant (fun st => idsByPosition clock (lgItems st))
            _ _ _ _ _ _ _ Hrun).
  - intros s0 line i s1 Hs0 Hstep.
    destruct (legacyLineStep_items _ _ _ _ _ _ _ _ Hstep) as [[-> _]|(values & -> & _)].
    + exact Hs0.
    + rewrite pushItem_items. apply idsByPosition_push; [exact Hs0|reflexivity].
  - intros k it Hk. cbn in Hk. discriminate.
Qed.

(** X10.  Within one result the identifiers of the items are pairwise
    distinct, whatever the clock reads (even when it stands still or runs
    backwards): the item at position [k] is named after the clock reading and
    after [k], and two positions never give the same name. *)
Theorem itemIds_distinct initialState clock s p :
  csvToData initialState clock s = Ret (Some p) \/
  csvToData_OldFormat initialState clock s = Ret (Some p) ->
  idsByPosition clock (items p) /\ NoDup (map itemId (items p)).
Proof.
  intros Hres.
  assert (idsByPosition clock (items p)) as Hids.
  { destruct Hres as [Hnew|Hold]; [|exact (legacy_idsByPosition _ _ _ _ Hold)].
    destruct (csvToData_cases _ _ _ _ Hnew)
      as [(h & v & b & ih & rows & _ & ->)|[_ Hold]].
    - apply parseCanonical_idsByPosition.
    - exact (legacy_idsByPosition _ _ _ _ Hold). }
  split; [exact Hids|exact (idsByPosition_NoDup _ _ Hids)].
Qed.

Lemma itemIds_distinct_witness :
  exists p,
    csvToData None (fun _ => 1700000000000)
      (text ["quoteId"; "Q1"; ""; "#,Width"; "1,600"; "2,700"; "3,800"])
    = Ret (Some p) /\
    map itemId (items p)
    = ["item-1700000000000-0"; "item-1700000000000-1"; "item-1700000000000-2"] /\
    idsByPosition (fun _ => 1700000000000) (items p) /\
    NoDup (map itemId (items p)).
Proof.
  eexists. split; [vm_compute; reflexivity|]. split; [vm_compute; reflexivity|].
  refine (itemIds_distinct None (fun _ => 1700000000000)
            (text ["quoteId"; "Q1"; ""; "#,Width"; "1,600"; "2,700"; "3,800"])
            _ (or_introl _)).
  vm_compute. reflexivity.
Defined.

(** ** The keys of the parsed objects *)

Lemma setProp_is_Some obj key v k :
  is_Some (setProp obj key v !! k) -> k = key \/ is_Some (obj !! k).
Proof.
  unfold setProp. destruct (Str.eqb key "__proto__"); [auto|].
  destruct (decide (key = k)) as [->|Hne]; [auto|].
  rewrite lookup_insert_ne by done. auto.
Qed.

Lemma identity_keys header :
  header ∈ f3SnapshotKeys ->
  Str.startsWith "customer." header = false ->
  header ∈ ["quoteId"; "issueDate"; "dueDate"].
Proof.
  unfold f3SnapshotKeys. intros Hin Hc.
  repeat (apply elem_of_cons in Hin as [->|Hin];
          [first [discriminate Hc | set_solver]|]).
  by apply elem_of_nil in Hin.
Qed.

Lemma projectStep_knownKeys cells headers st header i :
  header ∈ headers ->
  knownKeys headers st -> knownKeys headers (projectStep cells st header i).
Proof.
  intros Hh (Hf1 & Hf3 & Hcust). unfold projectStep.
  destruct (stringOrNull (cells !! i)) as [value|]; [|done].
  destruct (bool_decide (header ∈ f1SnapshotKeys)) eqn:H1.
  { apply bool_decide_eq_true in H1. split; [|done]. cbn [fst].
    intros k [->|Hk]%setProp_is_Some; auto. }
  destruct (Str.startsWith "customer." header) eqn:Hc.
  { split; [done|]. split; [done|]. cbn [snd customer].
    intros k [->|Hk]%setProp_is_Some; [|auto].
    exists header. done. }
  destruct (bool_decide (header ∈ f3SnapshotKeys)) eqn:H3; [|done].
  apply bool_decide_eq_true in H3. split; [done|]. split; [|done].
  cbn [snd f3Fields].
  intros k [->|Hk]%setProp_is_Some; [|auto].
  split; [by apply identity_keys|done].
Qed.

Lemma parseCanonical_knownKeys clock h v ih rows :
  knownKeys (Str.split Str.comma h)
    (f1Snapshot (parseCanonical clock h v ih rows),
     f3Data (parseCanonical clock h v ih rows)).
Proof.
  destruct (parseCanonical_fields clock h v ih rows) as (_ & _ & -> & ->).
  rewrite <- surjective_pairing.
  apply forEachFrom_invariant.
  - intros st header i Hin Hst. by apply projectStep_knownKeys.
  - split; [|split]; intros k [x Hx]; cbn in Hx; by rewrite lookup_empty in Hx.
Qed.

(** X11.  The canonical branch stores nothing under a name of its own
    making.  Every key of [f1Snapshot] is one of the nine aggregate keys,
    every own key of [f3Data] is [quoteId], [issueDate] or [dueDate], and
    both are cells of the first line; every property of [customer] is the
    second dot-segment of a cell of the first line that begins with
    [customer.].  Cells of the first line with other names leave no trace. *)
Theorem canonical_keys_known initialState clock s h v b ih rows :
  linesOf s = h :: v :: b :: ih :: rows ->
  exists p,
    csvToData initialState clock s = Ret (Some p) /\
    knownKeys (Str.split Str.comma h) (f1Snapshot p, f3Data p).
Proof.
  intros Hl. exists (parseCanonical clock h v ih rows).
  split; [exact (csvToData_canonical _ _ _ _ _ _ _ _ Hl)|].
  apply parseCanonical_knownKeys.
Qed.

Lemma canonical_keys_known_witness :
  linesOf (text ["quoteId,colour,customer.name,motor_qty"; "Q1,red,Ann,2"; "";
                 "#,Width"; "1,600"])
  = "quoteId,colour,customer.name,motor_qty" :: "Q1,red,Ann,2" :: ""
    :: "#,Width" :: ["1,600"] /\
  exists p,
    csvToData None (tickingClock 5)
      (text ["quoteId,colour,customer.name,motor_qty"; "Q1,red,Ann,2"; "";
             "#,Width"; "1,600"]) = Ret (Some p) /\
    knownKeys (Str.split Str.comma "quoteId,colour,customer.name,motor_qty")
      (f1Snapshot p, f3Data p).
Proof.
  assert (linesOf (text ["quoteId,colour,customer.name,motor_qty"; "Q1,red,Ann,2";
                         ""; "#,Width"; "1,600"])
          = "quoteId,colour,customer.name,motor_qty" :: "Q1,red,Ann,2" :: ""
            :: "#,Width" :: ["1,600"]) as Hl by (vm_compute; reflexivity).
  split; [exact Hl|].
  exact (canonical_keys_known None (tickingClock 5) _ _ _ _ _ _ Hl).
Defined.

(** ** Aggregate columns in any order *)

Lemma f1_lookup_any_column cells headers key j st :
  headers !! j = Some key ->
  (forall j', headers !! j' = Some key -> j' = j) ->
  key ∈ f1SnapshotKeys ->
  (forEachFrom (projectStep cells) headers 0 st).1 !! key
  = match stringOrNull (cells !! j) with
    | Some v => Some (finalValue v)
    | None => st.1 !! key
    end.
Proof.
  intros Hj Hone Hkey.
  pose proof (take_drop_middle _ _ _ Hj) as Hsplit.
  assert (length (take j headers) = j) as Hlen
    by (rewrite length_take_le; [done|]; apply lookup_lt_Some in Hj; lia).
  assert (key ∉ take j headers) as Hpre.
  { intros [i Hi]%list_elem_of_lookup_1.
    pose proof (lookup_lt_Some _ _ _ Hi) as Hlt. rewrite Hlen in Hlt.
    rewrite lookup_take_lt in Hi by done. apply Hone in Hi. lia. }
  assert (key ∉ drop (S j) headers) as Hpost.
  { intros [i Hi]%list_elem_of_lookup_1.
    rewrite lookup_drop in Hi. apply Hone in Hi. lia. }
  rewrite <- Hsplit.
  rewrite (view_set cells (fun st => st.1 !! key)
             (fun h => bool_decide (h ∈ f1SnapshotKeys) && Str.eqb h key)).
  - by rewrite Hlen.
  - intros. apply projectStep_f1_view.
  - apply Forall_forall. intros h Hh.
    destruct (eqb_str_spec h key) as [->|]; [done|by rewrite andb_false_r].
  - rewrite bool_decide_eq_true_2 by done. by destruct (eqb_str_spec key key).
  - apply Forall_forall. intros h Hh.
    destruct (eqb_str_spec h key) as [->|]; [done|by rewrite andb_false_r].
Qed.

(** X12.  The canonical branch finds an aggregate by the name in the first
    line, not by a fixed position: when the name stands in column [j] of the
    first line, and nowhere else in it, [f1Snapshot] holds under that name
    what [parseFloat] makes of cell [j] of the second line (the text itself
    when that is NaN), and nothing when the cell is empty or missing. *)
Theorem aggregate_found_by_name initialState clock s h v b ih rows key j :
  linesOf s = h :: v :: b :: ih :: rows ->
  Str.split Str.comma h !! j = Some key ->
  (forall j', Str.split Str.comma h !! j' = Some key -> j' = j) ->
  key ∈ f1SnapshotKeys ->
  exists p,
    csvToData initialState clock s = Ret (Some p) /\
    f1Snapshot p !! key
    = finalValue <$> stringOrNull (Str.split Str.comma v !! j).
Proof.
  intros Hl Hj Hone Hkey. exists (parseCanonical clock h v ih rows).
  split; [exact (csvToData_canonical _ _ _ _ _ _ _ _ Hl)|].
  destruct (parseCanonical_fields clock h v ih rows) as (_ & _ & -> & _).
  rewrite (f1_lookup_any_column _ _ _ _ _ Hj Hone Hkey).
  cbn [fst]. rewrite lookup_empty.
  by destruct (stringOrNull _).
Qed.

Lemma aggregate_found_by_name_witness :
  exists p,
    csvToData None (tickingClock 5)
      (text ["motor_qty,quoteId,winder_qty"; "2,Q1,1e1"; ""; "#,Width"; "1,600"])
    = Ret (Some p) /\
    f1Snapshot p !! "winder_qty" = Some (CNum (Fin false 1 1)) /\
    f1Snapshot p !! "winder_qty"
    = finalValue <$> stringOrNull (Str.split Str.comma "2,Q1,1e1" !! 2%nat).
Proof.
  assert (linesOf (text ["motor_qty,quoteId,winder_qty"; "2,Q1,1e1"; ""; "#,Width";
                         "1,600"])
          = "motor_qty,quoteId,winder_qty" :: "2,Q1,1e1" :: "" :: "#,Width"
            :: ["1,600"]) as Hl by (vm_compute; reflexivity).
  assert (Str.split Str.comma "motor_qty,quoteId,winder_qty" !! 2%nat
          = Some "winder_qty") as Hj by (vm_compute; reflexivity).
  assert (forall j', Str.split Str.comma "motor_qty,quoteId,winder_qty" !! j'
                     = Some "winder_qty" -> j' = 2%nat) as Hone.
  { intros [|[|[|j']]]; vm_compute; congruence. }
  assert ("winder_qty" ∈ f1SnapshotKeys) as Hkey
    by (unfold f1SnapshotKeys; set_solver).
  destruct (aggregate_found_by_name None (tickingClock 5) _ _ _ _ _ _ _ _
              Hl Hj Hone Hkey) as (p & Hp & Hlook).
  exists p. split; [exact Hp|]. split; [|exact Hlook].
  rewrite Hlook. vm_compute. reflexivity.
Defined.

(** ** What the cells of a canonical text are read as *)

Lemma cellValue_finalValue c : finalValue <$> stringOrNull c = cellValue c.
Proof.
  unfold cellValue, stringOrNull, finalValue.
  destruct c as [s|]; [|reflexivity]. by destruct (Str.isEmpty s).
Qed.

(** The value under a key that one header alone can write. *)
Lemma view_once cells (view : gmap string cell * F3Data -> option cell)
    (effect : string -> bool) headers j header st :
  (forall st h i,
      view (projectStep cells st h i)
      = if effect h
        then match stringOrNull (cells !! i) with
             | Some v => Some (finalValue v)
             | None => view st
             end
        else view st) ->
  headers !! j = Some header ->
  effect header = true ->
  (forall j' header',
      headers !! j' = Some header' -> effect header' = true -> j' = j) ->
  view (forEachFrom (projectStep cells) headers 0 st)
  = match stringOrNull (cells !! j) with
    | Some v => Some (finalValue v)
    | None => view st
    end.
Proof.
  intros Hstep Hj Heff Hone.
  pose proof (take_drop_middle _ _ _ Hj) as Hsplit.
  assert (length (take j headers) = j) as Hlen
    by (rewrite length_take_le; [done|]; apply lookup_lt_Some in Hj; lia).
  rewrite <- Hsplit.
  rewrite (view_set cells view effect Hstep).
  - by rewrite Hlen.
  - apply Forall_forall. intros h' [i Hi]%list_elem_of_lookup_1.
    pose proof (lookup_lt_Some _ _ _ Hi) as Hlt. rewrite Hlen in Hlt.
    rewrite lookup_take_lt in Hi by done.
    destruct (effect h') eqn:He; [|done]. specialize (Hone _ _ Hi He). lia.
  - exact Heff.
  - apply Forall_forall. intros h' [i Hi]%list_elem_of_lookup_1.
    rewrite lookup_drop in Hi.
    destruct (effect h') eqn:He; [|done]. specialize (Hone _ _ Hi He). lia.
Qed.

Lemma identity_key_plain h :
  h ∈ ["quoteId"; "issueDate"; "dueDate"] ->
  bool_decide (h ∈ f1SnapshotKeys) = false /\
  Str.startsWith "customer." h = false /\
  bool_decide (h ∈ f3SnapshotKeys) = true /\
  Str.eqb h "__proto__" = false.
Proof.
  intros H.
  repeat (apply elem_of_cons in H as [->|H]; [by vm_compute|]).
  by apply elem_of_nil in H.
Qed.

Lemma projectStep_f3_view cells key st h i :
  key ∈ ["quoteId"; "issueDate"; "dueDate"] ->
  f3Fields (projectStep cells st h i).2 !! key
  = if Str.eqb h key
    then match stringOrNull (cells !! i) with
         | Some v => Some (finalValue v)
         | None => f3Fields st.2 !! key
         end
    else f3Fields st.2 !! key.
Proof.
  intros Hkey. unfold projectStep.
  destruct (stringOrNull (cells !! i)) as [v|]; [|by destruct (Str.eqb h key)].
  destruct (eqb_str_spec h key) as [->|Hne].
  - destruct (identity_key_plain key Hkey) as (-> & -> & -> & Hproto).
    cbn [snd f3Fields]. unfold setProp. rewrite Hproto.
    by rewrite lookup_insert_eq.
  - destruct (bool_decide (h ∈ f1SnapshotKeys)); [done|].
    destruct (Str.startsWith "customer." h); [done|].
    destruct (bool_decide (h ∈ f3SnapshotKeys)); [|done].
    cbn [snd f3Fields]. by rewrite setProp_lookup_ne.
Qed.

Lemma f1Key_not_customer h :
  h ∈ f1SnapshotKeys -> Str.startsWith "customer." h = false.
Proof.
  unfold f1SnapshotKeys. intros H.
  repeat (apply elem_of_cons in H as [->|H]; [done|]).
  by apply elem_of_nil in H.
Qed.

Lemma parseItem_fields now n values :
  readAs (width (parseItem now n values))
    (Num.parseInt (argString (values !! 1%nat))) /\
  readAs (height (parseItem now n values))
    (Num.parseInt (argString (values !! 2%nat))) /\
  readAs (chain (parseItem now n values))
    (Num.parseInt (argString (values !! 12%nat))) /\
  readAs (linePrice (parseItem now n values))
    (Num.parseFloat (argString (values !! 4%nat))).
Proof.
  assert (forall x, readAs (numberOrNull x) x) as Hread.
  { intros x. split.
    - unfold numberOrNull, Num.truthy.
      destruct (Num.isNaN x), (Num.isZero x); cbn; split; auto; try discriminate;
        intros [|]; discriminate.
    - intros y Hy. by apply numberOrNull_Some in Hy as [-> _]. }
  repeat split; apply Hread.
Qed.

(** C7, as amended.  In a text of four or more lines: a project cell that is
    missing or empty is skipped, and any other is worth the number
    [parseFloat] reads from it, or the text itself when that is NaN; it is
    stored in [f1Snapshot] under a header that is an aggregate key, in
    [f3Data] under a header that is [quoteId], [issueDate] or [dueDate], in
    the customer object under the second dot-segment of a header that begins
    with [customer.] (for a header, and a segment, that occurs once in line
    0), and nowhere under any other header.  Each line after line 3 that is
    not blank and does not begin with [total] gives one item, read from the
    cells of the trimmed line: the type is cell 3, null when the cell is
    missing or empty; nine text fields are cells 5 to 11, 13 and 14, empty
    when the cell is missing; and, when the numbers in cells 1, 2, 12 and 4
    are ones a double holds as written, width, height and chain are what
    base-10 [parseInt] reads and the price is what [parseFloat] reads, each
    null when the reading is NaN or zero. *)
Theorem cell_parsing initialState clock s h v b ih rows :
  linesOf s = h :: v :: b :: ih :: rows ->
  exists p,
    csvToData initialState clock s = Ret (Some p) /\
    (forall j header,
        Str.split Str.comma h !! j = Some header ->
        (header ∈ f1SnapshotKeys ->
         (forall j', Str.split Str.comma h !! j' = Some header -> j' = j) ->
         f1Snapshot p !! header = cellValue (Str.split Str.comma v !! j)) /\
        (header ∈ ["quoteId"; "issueDate"; "dueDate"] ->
         (forall j', Str.split Str.comma h !! j' = Some header -> j' = j) ->
         f3Fields (f3Data p) !! header = cellValue (Str.split Str.comma v !! j)) /\
        (Str.startsWith "customer." header = true ->
         customerKey header <> "__proto__" ->
         (forall j' header',
             Str.split Str.comma h !! j' = Some header' ->
             Str.startsWith "customer." header' = true ->
             customerKey header' = customerKey header -> j' = j) ->
         customer (f3Data p) !! customerKey header
         = cellValue (Str.split Str.comma v !! j))) /\
    knownKeys (Str.split Str.comma h) (f1Snapshot p, f3Data p) /\
    length (items p) = length (dataLines rows) /\
    (forall k line,
        dataLines rows !! k = Some line ->
        exists it,
          items p !! k = Some it /\
          let cells := Str.split Str.comma (Str.trim line) in
          (fabricType it = None <-> cells !! 3%nat = None \/ cells !! 3%nat = Some "") /\
          (forall c, fabricType it = Some c -> cells !! 3%nat = Some c) /\
          [location it; fabric it; color it; over it; oi it; lr it; dual it;
           winder it; motor it]
          = map (fun i => default "" (cells !! i)) [5; 6; 7; 8; 9; 10; 11; 13; 14]%nat /\
          (Forall (fun x => heldByDouble x = true)
             [Num.parseInt (argString (cells !! 1%nat));
              Num.parseInt (argString (cells !! 2%nat));
              Num.parseInt (argString (cells !! 12%nat));
              Num.parseFloat (argString (cells !! 4%nat))] ->
           readAs (width it) (Num.parseInt (argString (cells !! 1%nat))) /\
           readAs (height it) (Num.parseInt (argString (cells !! 2%nat))) /\
           readAs (chain it) (Num.parseInt (argString (cells !! 12%nat))) /\
           readAs (linePrice it) (Num.parseFloat (argString (cells !! 4%nat))))).
Proof.
  intros Hl. exists (parseCanonical clock h v ih rows).
  split; [exact (csvToData_canonical _ _ _ _ _ _ _ _ Hl)|].
  destruct (parseCanonical_fields clock h v ih rows) as (_ & _ & Hf1 & Hf3).
  destruct (parseCanonical_items clock h v ih rows) as [Hitems _].
  split; [|split; [apply parseCanonical_knownKeys|split]].
  - intros j header Hj. rewrite Hf1, Hf3, <- cellValue_finalValue.
    split; [|split].
    + intros Hkey Honce.
      rewrite (view_once _ (fun st => st.1 !! header)
                 (fun h' => bool_decide (h' ∈ f1SnapshotKeys) && Str.eqb h' header)
                 _ j header).
      * cbn [fst]. rewrite lookup_empty. by destruct (stringOrNull _).
      * intros. apply projectStep_f1_view.
      * exact Hj.
      * rewrite bool_decide_eq_true_2 by done. by destruct (eqb_str_spec header header).
      * intros j' h' Hj' [_ He]%andb_true_iff.
        destruct (eqb_str_spec h' header) as [->|]; [auto|done].
    + intros Hkey Honce.
      rewrite (view_once _ (fun st => f3Fields st.2 !! header)
                 (fun h' => Str.eqb h' header) _ j header).
      * cbn [snd f3Fields]. rewrite lookup_empty. by destruct (stringOrNull _).
      * intros. by apply projectStep_f3_view.
      * exact Hj.
      * by destruct (eqb_str_spec header header).
      * intros j' h' Hj' He.
        destruct (eqb_str_spec h' header) as [->|]; [auto|done].
    + intros Hcust Hproto Honce.
      rewrite (view_once _ (fun st => customer st.2 !! customerKey header)
                 (fun h' => negb (bool_decide (h' ∈ f1SnapshotKeys))
                            && Str.startsWith "customer." h'
                            && Str.eqb (customerKey h') (customerKey header)
                            && negb (Str.eqb (customerKey header) "__proto__"))
                 _ j header).
      * cbn [snd customer]. rewrite lookup_empty. by destruct (stringOrNull _).
      * intros. apply projectStep_customer_view.
      * exact Hj.
      * rewrite Hcust.
        destruct (bool_decide_reflect (header ∈ f1SnapshotKeys)) as [Hin|_].
        { by rewrite (f1Key_not_customer _ Hin) in Hcust. }
        destruct (eqb_str_spec (customerKey header) (customerKey header)); [|done].
        by destruct (eqb_str_spec (customerKey header) "__proto__").
      * intros j' h' Hj' He.
        apply andb_true_iff in He as [He _].
        apply andb_true_iff in He as [He Hk].
        apply andb_true_iff in He as [_ Hc].
        destruct (eqb_str_spec (customerKey h') (customerKey header)); [|done].
        by eapply Honce.
  - by rewrite Hitems, length_imap.
  - intros k line Hline. rewrite Hitems, list_lookup_imap, Hline.
    eexists. split; [reflexivity|]. cbv zeta.
    set (cells := Str.split Str.comma (Str.trim line)).
    split; [|split; [|split; [reflexivity|]]].
    + cbn [parseItem fabricType]. unfold stringOrNull.
      destruct (cells !! 3%nat) as [[|c r]|]; cbn; split; auto; try discriminate;
        intros [|]; discriminate.
    + intros c. cbn [parseItem fabricType]. unfold stringOrNull.
      destruct (cells !! 3%nat) as [[|a r]|]; cbn; congruence.
    + intros _. apply parseItem_fields.
Qed.

Lemma cell_parsing_witness :
  linesOf (text ["quoteId,colour,customer.name,motor_qty"; "Q1,red,Ann,2.50"; "";
                 "#,Width"; "1,600,x,,12.5,Hall"; "Total,600"])
  = "quoteId,colour,customer.name,motor_qty" :: "Q1,red,Ann,2.50" :: ""
    :: "#,Width" :: ["1,600,x,,12.5,Hall"; "Total,600"] /\
  exists p it,
    csvToData None (tickingClock 5)
      (text ["quoteId,colour,customer.name,motor_qty"; "Q1,red,Ann,2.50"; "";
             "#,Width"; "1,600,x,,12.5,Hall"; "Total,600"]) = Ret (Some p) /\
    f1Snapshot p !! "motor_qty" = Some (CNum (Fin false 250 (-2))) /\
    f3Fields (f3Data p) !! "quoteId" = Some (CStr "Q1") /\
    customer (f3Data p) !! "name" = Some (CStr "Ann") /\
    items p = [it] /\
    width it = Some (Fin false 600 0) /\ height it = None /\
    fabricType it = None /\ linePrice it = Some (Fin false 125 (-1)) /\
    location it = "Hall" /\
    knownKeys (Str.split Str.comma "quoteId,colour,customer.name,motor_qty")
      (f1Snapshot p, f3Data p).
Proof.
  assert (linesOf (text ["quoteId,colour,customer.name,motor_qty"; "Q1,red,Ann,2.50";
                         ""; "#,Width"; "1,600,x,,12.5,Hall"; "Total,600"])
          = "quoteId,colour,customer.name,motor_qty" :: "Q1,red,Ann,2.50" :: ""
            :: "#,Width" :: ["1,600,x,,12.5,Hall"; "Total,600"]) as Hl
    by (vm_compute; reflexivity).
  split; [exact Hl|].
  destruct (cell_parsing None (tickingClock 5) _ _ _ _ _ _ Hl)
    as (p & Hp & _ & Hknown & _).
  exists p. eexists.
  split; [exact Hp|].
  assert (p = parseCanonical (tickingClock 5)
                "quoteId,colour,customer.name,motor_qty" "Q1,red,Ann,2.50"
                "#,Width" ["1,600,x,,12.5,Hall"; "Total,600"]) as Hp'.
  { rewrite (csvToData_canonical _ _ _ _ _ _ _ _ Hl) in Hp. congruence. }
  split; [rewrite Hp'; vm_compute; reflexivity|].
  split; [rewrite Hp'; vm_compute; reflexivity|].
  split; [rewrite Hp'; vm_compute; reflexivity|].
  split; [rewrite Hp'; vm_compute; reflexivity|].
  repeat (split; [reflexivity|]).
  exact Hknown.
Defined.

(** C7 as stated fails: in the row [1,0,200,,0.00,Kitchen] the width cell
    parses as the integer 0 and the price cell as the float 0, both without
    failure, and both fields are null; and the empty cell of the type, a text
    field, is read as null and not as the empty string. *)
Lemma zero_and_empty_type_read_as_null :
  exists p it,
    csvToData None (tickingClock 0)
      (text [Str.join Str.comma (f3SnapshotKeys ++ f1SnapshotKeys); ""; "";
             Str.join Str.comma itemHeaders; "1,0,200,,0.00,Kitchen"])
    = Ret (Some p) /\
    items p = [it] /\
    Num.parseInt "0" = Fin false 0 0 /\ width it = None /\
    Num.parseFloat "0.00" = Fin false 0 (-2) /\ linePrice it = None /\
    fabricType it = None /\ fabricType it <> Some "" /\
    height it = Some (Fin false 200 0) /\ location it = "Kitchen".
Proof.
  eexists _, _. split; [vm_compute; reflexivity|].
  repeat split; try reflexivity. discriminate.
Qed.

(* ===================================================================== *)
(** * Further properties of the legacy parser                              *)
(* ===================================================================== *)

(** ** Lines in front of the legacy header *)

(** X13.  [csvToData_OldFormat] starts at the first line that is a legacy
    header: the lines in front of it are not read, so a text with a preamble
    is parsed as the text without it. *)
Theorem legacy_ignores_preamble initialState clock s s' pre h rest :
  linesOf s' = h :: rest ->
  isLegacyHeader h = true ->
  linesOf s = pre ++ linesOf s' ->
  Forall (fun line => isLegacyHeader line = false) pre ->
  csvToData_OldFormat initialState clock s
  = csvToData_OldFormat initialState clock s'.
Proof.
  unfold linesOf. intros Hs' Hh Hs Hpre. unfold csvToData_OldFormat.
  rewrite Hs, Hs'.
  change (fun line => negb (Str.isEmpty (Str.trim line))
                      && Str.startsWith "#,Width" line) with isLegacyHeader.
  rewrite (findIndex_app isLegacyHeader pre h rest Hpre Hh).
  pose proof (findIndex_app isLegacyHeader [] h rest (Forall_nil_2 _) Hh) as H0.
  cbn [app length] in H0. rewrite H0.
  rewrite lookup_app_r by lia. rewrite Nat.sub_diag.
  rewrite drop_app_ge by lia.
  replace (length pre + 1 - length pre)%nat with (0 + 1)%nat by lia.
  reflexivity.
Qed.

Lemma legacy_ignores_preamble_witness :
  linesOf (text ["#,Width,Height"; "1,600,900"])
  = "#,Width,Height" :: ["1,600,900"] /\
  isLegacyHeader "#,Width,Height" = true /\
  linesOf (text ["Quote export"; "#,Width,Height"; "1,600,900"])
  = ["Quote export"] ++ linesOf (text ["#,Width,Height"; "1,600,900"]) /\
  Forall (fun line => isLegacyHeader line = false) ["Quote export"] /\
  csvToData_OldFormat (Some []) (tickingClock 5)
    (text ["Quote export"; "#,Width,Height"; "1,600,900"])
  = csvToData_OldFormat (Some []) (tickingClock 5)
      (text ["#,Width,Height"; "1,600,900"]).
Proof.
  assert (linesOf (text ["#,Width,Height"; "1,600,900"])
          = "#,Width,Height" :: ["1,600,900"]) as H1 by (vm_compute; reflexivity).
  assert (isLegacyHeader "#,Width,Height" = true) as H2 by (vm_compute; reflexivity).
  assert (linesOf (text ["Quote export"; "#,Width,Height"; "1,600,900"])
          = ["Quote export"] ++ linesOf (text ["#,Width,Height"; "1,600,900"]))
    as H3 by (vm_compute; reflexivity).
  assert (Forall (fun line => isLegacyHeader line = false) ["Quote export"]) as H4
    by (constructor; [vm_compute; reflexivity|constructor]).
  repeat (split; [assumption|]).
  exact (legacy_ignores_preamble (Some []) (tickingClock 5) _ _ _ _ _ H1 H2 H3 H4).
Defined.

(** ** The items of the legacy parser, line by line *)

Lemma legacyDataLines_cons line lines :
  legacyDataLines (line :: lines)
  = if negb (skipLine (Str.trim line)) && negb (isSnapshotRow line)
    then line :: legacyDataLines lines else legacyDataLines lines.
Proof. reflexivity. Qed.

Lemma legacyLines_spec clock keys headers isLfIndex lines i st st' :
  forEachM (legacyLineStep clock keys headers isLfIndex) lines i st = Ret st' ->
  lgItems st'
  = lgItems st
    ++ imap (fun k line =>
               parseItem (clock (length (lgItems st) + k)%nat)
                 (length (lgItems st) + k)%nat
                 (Str.split Str.comma (Str.trim line)))
            (legacyDataLines lines)
  /\ lgLfIndexes st'
     = lgLfIndexes st
       ++ lfPositions isLfIndex (legacyDataLines lines) (length (lgItems st)).
Proof.
  revert i st. induction lines as [|line lines IH]; intros i st; cbn [forEachM].
  - intros [= <-]. cbn [legacyDataLines List.filter imap lfPositions].
    by rewrite !app_nil_r.
  - destruct (legacyLineStep clock keys headers isLfIndex st line i) as [s1|] eqn:Hstep;
      cbn [obind]; [|discriminate].
    intros Hrun. destruct (IH _ _ Hrun) as [-> ->]. clear IH Hrun.
    rewrite legacyDataLines_cons.
    unfold legacyLineStep in Hstep. unfold isSnapshotRow. cbv zeta.
    destruct (skipLine (Str.trim line)); cbn [negb andb].
    { injection Hstep as <-. done. }
    destruct (bool_decide _ && bool_decide _); cbn [negb].
    { destruct (lgF1Snapshot st !! "hasOwnProperty"); [discriminate|].
      destruct (lgF1Snapshot st !! argString _); injection Hstep as <-; done. }
    pose proof (pushItem_items clock isLfIndex
                  (Str.split Str.comma (Str.trim line)) (lgItems st) (lgLfIndexes st))
      as Hits.
    pose proof (pushItem_lf clock isLfIndex
                  (Str.split Str.comma (Str.trim line)) (lgItems st) (lgLfIndexes st))
      as Hlf.
    destruct (pushItem _ _ _ _ _) as [its' lf']. cbn [fst snd] in Hits, Hlf.
    injection Hstep as <-. cbn [lgItems lgLfIndexes]. subst its' lf'.
    rewrite length_app. cbn [length imap lfPositions].
    rewrite Nat.add_0_r, <- !app_assoc. cbn [app]. split.
    + f_equal. f_equal. apply imap_ext. intros k x _. cbn.
      replace (length (lgItems st) + 1 + k)%nat
        with (length (lgItems st) + S k)%nat by lia.
      reflexivity.
    + replace (length (lgItems st) + 1)%nat with (S (length (lgItems st))) by lia.
      unfold lineIsLf. destruct isLfIndex as [c|]; [|reflexivity].
      destruct (Num.eqb _ _); [|reflexivity].
      by rewrite <- app_assoc.
Qed.

(** X14.  In the legacy parser the blank lines, the footer lines and the
    [F1_SNAPSHOT] rows after the first legacy header line give no item, and
    the k-th of the other lines gives the k-th item, read at the same fixed
    columns as in the canonical branch. *)
Theorem legacy_items_line_by_line initialState clock s p :
  csvToData_OldFormat initialState clock s = Ret (Some p) ->
  exists hi h,
    linesOf s !! hi = Some h /\ isLegacyHeader h = true /\
    Forall (fun line => isLegacyHeader line = false) (take hi (linesOf s)) /\
    items p
    = imap (fun k line =>
              parseItem (clock k) k (Str.split Str.comma (Str.trim line)))
           (legacyDataLines (drop (hi + 1) (linesOf s))) /\
    lfIndexes p
    = lfPositions (Str.indexOf "IsLF" (Str.split Str.comma h))
        (legacyDataLines (drop (hi + 1) (linesOf s))) 0.
Proof.
  intros Hres.
  destruct (legacy_inv _ _ _ _ Hres) as (keys & hi & h & st & _ & Hh & Hp & Hfirst & Hrun & ->).
  exists hi, h. split; [exact Hh|]. split; [exact Hp|]. split; [exact Hfirst|].
  destruct (legacyLines_spec _ _ _ _ _ _ _ _ Hrun) as [Hits Hlf].
  cbn [items lfIndexes]. rewrite Hits, Hlf. by cbn [lgItems lgLfIndexes app length].
Qed.

Lemma legacy_items_line_by_line_witness :
  exists p,
    csvToData_OldFormat (Some ["winder_qty"]) (tickingClock 5)
      (text ["#,Width,IsLF"; "1,600,1"; "F1_SNAPSHOT,winder_qty,3"; "Total,600"])
    = Ret (Some p) /\
    length (items p) = 1%nat /\
    exists hi h,
      linesOf (text ["#,Width,IsLF"; "1,600,1"; "F1_SNAPSHOT,winder_qty,3";
                     "Total,600"]) !! hi = Some h /\
      isLegacyHeader h = true /\
      Forall (fun line => isLegacyHeader line = false)
        (take hi (linesOf (text ["#,Width,IsLF"; "1,600,1";
                                 "F1_SNAPSHOT,winder_qty,3"; "Total,600"]))) /\
      items p
      = imap (fun k line =>
                parseItem (tickingClock 5 k) k (Str.split Str.comma (Str.trim line)))
             (legacyDataLines
                (drop (hi + 1)
                   (linesOf (text ["#,Width,IsLF"; "1,600,1";
                                   "F1_SNAPSHOT,winder_qty,3"; "Total,600"])))) /\
      lfIndexes p
      = lfPositions (Str.indexOf "IsLF" (Str.split Str.comma h))
          (legacyDataLines
             (drop (hi + 1)
                (linesOf (text ["#,Width,IsLF"; "1,600,1";
                                "F1_SNAPSHOT,winder_qty,3"; "Total,600"])))) 0.
Proof.
  eexists. split; [vm_compute; reflexivity|]. split; [reflexivity|].
  apply (legacy_items_line_by_line (Some ["winder_qty"]) (tickingClock 5)
           (text ["#,Width,IsLF"; "1,600,1"; "F1_SNAPSHOT,winder_qty,3"; "Total,600"])).
  vm_compute. reflexivity.
Defined.

(** ** The keys the legacy parser stores *)

Lemma readSnapshotColumns_is_Some_embedded ks headers values f1 k :
  is_Some (readSnapshotColumns ks headers values f1 !! k) ->
  is_Some (f1 !! k)
  \/ (k ∈ ks /\ is_Some (embeddedValue headers values k)).
Proof.
  unfold readSnapshotColumns. revert f1.
  induction ks as [|key ks IH]; intros f1; cbn [fold_left]; [auto|].
  intros Hk. apply IH in Hk as [Hk|[Hin Hh]];
    [|right; split; [by apply list_elem_of_further|done]].
  destruct (Str.eqb key "__proto__"); [auto|].
  destruct (Str.indexOf key headers) as [c|] eqn:Hc; [|auto].
  destruct (values !! c) as [x|] eqn:Hx; [|auto].
  destruct (Str.isEmpty x) eqn:Hempty; [auto|].
  apply setProp_is_Some in Hk as [->|Hk]; [|auto].
  right. split; [apply list_elem_of_here|].
  unfold embeddedValue, stringOrNull. rewrite Hc, Hx, Hempty. by eexists.
Qed.

Lemma embeddedValue_header headers values k :
  is_Some (embeddedValue headers values k) -> k ∈ headers.
Proof.
  unfold embeddedValue. destruct (Str.indexOf k headers) as [c|] eqn:Hc.
  - intros _. exact (list_elem_of_lookup_2 _ _ _ (indexOf_Some _ _ _ Hc)).
  - by intros [x Hx].
Qed.

(** After the first line, a step of the legacy loop adds no key. *)
Lemma legacyLineStep_no_new_key clock keys headers isLfIndex st line i st' k :
  (0 < i)%nat ->
  legacyLineStep clock keys headers isLfIndex st line i = Ret st' ->
  is_Some (lgF1Snapshot st' !! k) -> is_Some (lgF1Snapshot st !! k).
Proof.
  intros Hi. unfold legacyLineStep.
  destruct (skipLine _); [by intros [= <-]|].
  destruct (_ && _).
  - destruct (lgF1Snapshot st !! "hasOwnProperty"); [discriminate|].
    destruct (lgF1Snapshot st !! argString _) as [old|] eqn:Hold;
      intros [= <-]; [|done].
    cbn [lgF1Snapshot]. intros [->|Hk]%setProp_is_Some; [|done].
    by rewrite Hold.
  - destruct (pushItem _ _ _ _ _) as [its' lf']. intros [= <-].
    cbn [lgF1Snapshot].
    by replace (Nat.eqb i 0) with false by (symmetry; apply Nat.eqb_neq; lia).
Qed.

Lemma legacyLines_no_new_key clock keys headers isLfIndex lines i st st' k :
  (0 < i)%nat ->
  forEachM (legacyLineStep clock keys headers isLfIndex) lines i st = Ret st' ->
  is_Some (lgF1Snapshot st' !! k) -> is_Some (lgF1Snapshot st !! k).
Proof.
  revert i st. induction lines as [|line lines IH]; intros i st Hi; cbn [forEachM].
  - by intros [= <-].
  - destruct (legacyLineStep clock keys headers isLfIndex st line i) as [s1|] eqn:Hstep;
      cbn [obind]; [|discriminate].
    intros Hrun Hk. eapply legacyLineStep_no_new_key; [exact Hi|exact Hstep|].
    exact (IH (S i) s1 ltac:(lia) Hrun Hk).
Qed.

(** The keys the first line after the header can set. *)
Lemma legacyLineStep_first_keys clock keys headers isLfIndex line st' k :
  legacyLineStep clock keys headers isLfIndex (mkLegacy [] [] ∅) line 0 = Ret st' ->
  is_Some (lgF1Snapshot st' !! k) ->
  skipLine (Str.trim line) = false /\ isSnapshotRow line = false /\
  k ∈ keys /\
  is_Some (embeddedValue headers (Str.split Str.comma (Str.trim line)) k).
Proof.
  unfold legacyLineStep, isSnapshotRow. cbv zeta.
  destruct (skipLine _).
  { intros [= <-] [x Hx]. cbn in Hx. by rewrite lookup_empty in Hx. }
  destruct (_ && _).
  { cbn [lgF1Snapshot]. rewrite !lookup_empty. intros [= <-] [x Hx].
    cbn in Hx. by rewrite lookup_empty in Hx. }
  destruct (pushItem _ _ _ _ _) as [its' lf']. intros [= <-].
  cbn [lgF1Snapshot Nat.eqb].
  intros [[x Hx]|[Hin Hemb]]%readSnapshotColumns_is_Some_embedded.
  - by rewrite lookup_empty in Hx.
  - done.
Qed.

(** X15.  The legacy parser returns an empty [f3Data], and [f1Snapshot]
    gets its keys from the first line after the header alone: every key is
    a key of the initial state that names a column of the header line in
    which that first line, an item line, has a cell that is not empty.  An
    [F1_SNAPSHOT] row adds no key: it can only overwrite one that the first
    line has set. *)
Theorem legacy_keys_known initialState clock s p :
  csvToData_OldFormat initialState clock s = Ret (Some p) ->
  f3Data p = mkF3 ∅ ∅ /\
  exists snapshotKeys hi headerLine,
    initialState = Some snapshotKeys /\
    linesOf s !! hi = Some headerLine /\
    isLegacyHeader headerLine = true /\
    Forall (fun line => isLegacyHeader line = false) (take hi (linesOf s)) /\
    legacyKnownKeys snapshotKeys (Str.split Str.comma headerLine) (f1Snapshot p) /\
    forall k,
      is_Some (f1Snapshot p !! k) ->
      exists line0,
        linesOf s !! (hi + 1)%nat = Some line0 /\
        skipLine (Str.trim line0) = false /\
        isSnapshotRow line0 = false /\
        is_Some (embeddedValue (Str.split Str.comma headerLine)
                   (Str.split Str.comma (Str.trim line0)) k).
Proof.
  intros Hres.
  destruct (legacy_inv _ _ _ _ Hres)
    as (keys & hi & h & st & -> & Hh & Hp & Hfirst & Hrun & ->).
  split; [reflexivity|]. exists keys, hi, h.
  split; [reflexivity|]. split; [exact Hh|]. split; [exact Hp|].
  split; [exact Hfirst|]. cbn [f1Snapshot].
  assert (forall k,
             is_Some (lgF1Snapshot st !! k) ->
             exists line0,
               linesOf s !! (hi + 1)%nat = Some line0 /\
               skipLine (Str.trim line0) = false /\
               isSnapshotRow line0 = false /\
               k ∈ keys /\
               is_Some (embeddedValue (Str.split Str.comma h)
                          (Str.split Str.comma (Str.trim line0)) k)) as Hkeys.
  { intros k Hk.
    destruct (drop (hi + 1) (linesOf s)) as [|line0 rest] eqn:Hdrop.
    { cbn [forEachM] in Hrun. injection Hrun as <-.
      destruct Hk as [x Hx]. cbn in Hx. by rewrite lookup_empty in Hx. }
    cbn [forEachM] in Hrun.
    destruct (legacyLineStep clock keys (Str.split Str.comma h) _ _ line0 0)
      as [s1|] eqn:Hstep; cbn [obind] in Hrun; [|discriminate].
    pose proof (legacyLines_no_new_key _ _ _ _ _ 1%nat _ _ k Nat.lt_0_1 Hrun Hk) as Hk1.
    destruct (legacyLineStep_first_keys _ _ _ _ _ _ _ Hstep Hk1)
      as (Hskip & Hrow & Hin & Hemb).
    exists line0. split; [|done].
    rewrite <- (Nat.add_0_r (hi + 1)), <- lookup_drop, Hdrop. reflexivity. }
  split; [|intros k Hk; destruct (Hkeys k Hk) as (l0 & ? & ? & ? & _ & ?);
           by exists l0].
  intros k Hk. destruct (Hkeys k Hk) as (l0 & _ & _ & _ & Hin & Hemb).
  split; [exact Hin|exact (embeddedValue_header _ _ _ Hemb)].
Qed.

Lemma legacy_keys_known_witness :
  exists p,
    csvToData_OldFormat (Some ["winder_qty"; "motor_qty"]) (tickingClock 5)
      (text ["#,Width,motor_qty"; "1,600,"; "F1_SNAPSHOT,motor_qty,3";
             "F1_SNAPSHOT,winder_qty,3"])
    = Ret (Some p) /\
    f1Snapshot p = ∅ /\
    f3Data p = mkF3 ∅ ∅ /\
    exists snapshotKeys hi headerLine,
      Some ["winder_qty"; "motor_qty"] = Some snapshotKeys /\
      linesOf (text ["#,Width,motor_qty"; "1,600,"; "F1_SNAPSHOT,motor_qty,3";
                     "F1_SNAPSHOT,winder_qty,3"]) !! hi = Some headerLine /\
      isLegacyHeader headerLine = true /\
      Forall (fun line => isLegacyHeader line = false)
        (take hi (linesOf (text ["#,Width,motor_qty"; "1,600,";
                                 "F1_SNAPSHOT,motor_qty,3";
                                 "F1_SNAPSHOT,winder_qty,3"]))) /\
      legacyKnownKeys snapshotKeys (Str.split Str.comma headerLine) (f1Snapshot p) /\
      forall k,
        is_Some (f1Snapshot p !! k) ->
        exists line0,
          linesOf (text ["#,Width,motor_qty"; "1,600,"; "F1_SNAPSHOT,motor_qty,3";
                         "F1_SNAPSHOT,winder_qty,3"]) !! (hi + 1)%nat = Some line0 /\
          skipLine (Str.trim line0) = false /\
          isSnapshotRow line0 = false /\
          is_Some (embeddedValue (Str.split Str.comma headerLine)
                     (Str.split Str.comma (Str.trim line0)) k).
Proof.
  eexists. split; [vm_compute; reflexivity|]. split; [reflexivity|].
  refine (legacy_keys_known (Some ["winder_qty"; "motor_qty"]) (tickingClock 5)
            (text ["#,Width,motor_qty"; "1,600,"; "F1_SNAPSHOT,motor_qty,3";
                   "F1_SNAPSHOT,winder_qty,3"])
            _ _).
  vm_compute. reflexivity.
Defined.

(** ** Snapshot columns of the first data line *)

Lemma readSnapshotColumns_lookup ks headers values (f1 : gmap string cell) key :
  key <> "__proto__" -> key ∈ ks ->
  readSnapshotColumns ks headers values f1 !! key
  = match embeddedValue headers values key with
    | Some x => Some x
    | None => f1 !! key
    end.
Proof.
  intros Hproto. revert f1.
  induction ks as [|k ks IH]; intros f1 Hin; [by apply elem_of_nil in Hin|].
  assert (readSnapshotColumns (k :: ks) headers values f1
          = readSnapshotColumns ks headers values
              (readSnapshotColumns [k] headers values f1)) as -> by reflexivity.
  assert (readSnapshotColumns [k] headers values f1 !! key
          = if bool_decide (k = key)
            then match embeddedValue headers values key with
                 | Some x => Some x
                 | None => f1 !! key
                 end
            else f1 !! key) as Hone.
  { unfold readSnapshotColumns, embeddedValue. cbn [fold_left].
    destruct (bool_decide_reflect (k = key)) as [->|Hne].
    - unfold Str.eqb. rewrite bool_decide_eq_false_2 by exact Hproto.
      destruct (Str.indexOf key headers) as [c|]; [|reflexivity].
      unfold stringOrNull. destruct (values !! c) as [x|]; [|reflexivity].
      destruct (Str.isEmpty x); [reflexivity|]. cbn [fmap option_fmap option_map].
      unfold setProp, Str.eqb. rewrite bool_decide_eq_false_2 by exact Hproto.
      by rewrite lookup_insert_eq.
    - destruct (if Str.eqb k "__proto__" then None else Str.indexOf k headers)
        as [c|]; [|reflexivity].
      destruct (values !! c) as [x|]; [|reflexivity].
      destruct (Str.isEmpty x); [reflexivity|].
      by apply setProp_lookup_ne. }
  destruct (decide (key ∈ ks)) as [Hks|Hks].
  - rewrite (IH _ Hks), Hone.
    destruct (embeddedValue headers values key); [reflexivity|].
    by destruct (bool_decide (k = key)).
  - rewrite readSnapshotColumns_lookup_other by exact Hks.
    apply elem_of_cons in Hin as [->|Hin]; [|done].
    rewrite Hone. by rewrite bool_decide_eq_true_2.
Qed.

Lemma legacyLineStep_plain clock keys headers isLfIndex st line i :
  isSnapshotRow line = false ->
  exists st',
    legacyLineStep clock keys headers isLfIndex st line i = Ret st' /\
    lgF1Snapshot st'
    = if negb (skipLine (Str.trim line)) && Nat.eqb i 0
      then readSnapshotColumns keys headers
             (Str.split Str.comma (Str.trim line)) (lgF1Snapshot st)
      else lgF1Snapshot st.
Proof.
  unfold isSnapshotRow, legacyLineStep. cbv zeta. intros ->.
  destruct (skipLine (Str.trim line)); [by eexists|].
  destruct (pushItem _ _ _ _ _) as [its' lf'].
  eexists. split; [reflexivity|]. reflexivity.
Qed.

Lemma legacyLines_plain_later clock keys headers isLfIndex lines i st :
  Forall (fun line => isSnapshotRow line = false) lines ->
  (0 < i)%nat ->
  exists st',
    forEachM (legacyLineStep clock keys headers isLfIndex) lines i st = Ret st' /\
    lgF1Snapshot st' = lgF1Snapshot st.
Proof.
  intros Hall. revert i st.
  induction Hall as [|line lines Hline _ IH]; intros i st Hi; cbn [forEachM].
  - by eexists.
  - destruct (legacyLineStep_plain clock keys headers isLfIndex st line i Hline)
      as (s1 & -> & Hs1).
    cbn [obind]. destruct (IH (S i) s1 ltac:(lia)) as (st' & -> & Hst').
    eexists. split; [reflexivity|]. rewrite Hst', Hs1.
    replace (Nat.eqb i 0) with false by (symmetry; apply Nat.eqb_neq; lia).
    by rewrite andb_false_r.
Qed.

Lemma legacy_from_header keys clock s pre h data :
  linesOf s = pre ++ h :: data ->
  Forall (fun line => isLegacyHeader line = false) pre ->
  isLegacyHeader h = true ->
  csvToData_OldFormat (Some keys) clock s
  = let! st := forEachM (legacyLineStep clock keys (Str.split Str.comma h)
                           (Str.indexOf "IsLF" (Str.split Str.comma h)))
                 data 0 (mkLegacy [] [] ∅) in
    Ret (Some (mkParsed (lgItems st) (lgLfIndexes st) (lgF1Snapshot st)
                 (mkF3 ∅ ∅))).
Proof.
  intros Hl Hpre Hh.
  unfold csvToData_OldFormat. fold (linesOf s). rewrite Hl.
  change (fun line => negb (Str.isEmpty (Str.trim line))
                      && Str.startsWith "#,Width" line) with isLegacyHeader.
  rewrite (findIndex_app isLegacyHeader pre h data Hpre Hh).
  rewrite lookup_app_r by lia. rewrite Nat.sub_diag.
  rewrite drop_app_ge by lia.
  replace (length pre + 1 - length pre)%nat with (0 + 1)%nat by lia.
  reflexivity.
Qed.

(** X16.  Snapshot columns of the legacy format: in a text without
    [F1_SNAPSHOT] rows, [f1Snapshot] holds under a key of the initial state
    (other than [__proto__], which a plain object does not hold as a key)
    what the first line after the header has in the column of that name,
    and nothing when there is no such column or the cell is empty.  Only
    that one line is looked at: when it is blank or a footer line, nothing is
    read, from it or from any later line. *)
Theorem legacy_embedded_columns keys clock s pre h line0 rest key :
  linesOf s = pre ++ h :: line0 :: rest ->
  Forall (fun line => isLegacyHeader line = false) pre ->
  isLegacyHeader h = true ->
  Forall (fun line => isSnapshotRow line = false) (line0 :: rest) ->
  key ∈ keys ->
  key <> "__proto__" ->
  exists p,
    csvToData_OldFormat (Some keys) clock s = Ret (Some p) /\
    f1Snapshot p !! key
    = if skipLine (Str.trim line0) then None
      else embeddedValue (Str.split Str.comma h)
             (Str.split Str.comma (Str.trim line0)) key.
Proof.
  intros Hl Hpre Hh Hrows Hkey Hproto.
  rewrite (legacy_from_header keys clock s pre h (line0 :: rest) Hl Hpre Hh).
  cbn [forEachM].
  apply Forall_cons in Hrows as [Hline0 Hrest].
  destruct (legacyLineStep_plain clock keys (Str.split Str.comma h)
              (Str.indexOf "IsLF" (Str.split Str.comma h))
              (mkLegacy [] [] ∅) line0 0 Hline0) as (s1 & -> & Hs1).
  cbn [obind].
  destruct (legacyLines_plain_later clock keys (Str.split Str.comma h)
              (Str.indexOf "IsLF" (Str.split Str.comma h)) rest 1 s1 Hrest
              ltac:(lia)) as (st' & -> & Hst').
  cbn [obind]. eexists. split; [reflexivity|].
  cbn [f1Snapshot]. rewrite Hst', Hs1. cbn [lgF1Snapshot Nat.eqb].
  rewrite andb_true_r.
  destruct (skipLine (Str.trim line0)); cbn [negb]; [apply lookup_empty|].
  rewrite (readSnapshotColumns_lookup _ _ _ _ _ Hproto Hkey), lookup_empty.
  by destruct (embeddedValue _ _ _).
Qed.

Lemma legacy_embedded_columns_witness :
  exists p,
    csvToData_OldFormat (Some ["winder_qty"; "motor_qty"]) (tickingClock 5)
      (text ["#,Width,motor_qty"; "1,600,4"; "2,700,9"]) = Ret (Some p) /\
    f1Snapshot p !! "motor_qty" = Some (CNum (Fin false 4 0)) /\
    f1Snapshot p !! "motor_qty"
    = if skipLine (Str.trim "1,600,4") then None
      else embeddedValue (Str.split Str.comma "#,Width,motor_qty")
             (Str.split Str.comma (Str.trim "1,600,4")) "motor_qty".
Proof.
  assert (linesOf (text ["#,Width,motor_qty"; "1,600,4"; "2,700,9"])
          = [] ++ "#,Width,motor_qty" :: "1,600,4" :: ["2,700,9"]) as Hl
    by (vm_compute; reflexivity).
  assert (Forall (fun line => isSnapshotRow line = false) ("1,600,4" :: ["2,700,9"]))
    as Hrows by (repeat constructor).
  assert ("motor_qty" ∈ ["winder_qty"; "motor_qty"]) as Hkey by set_solver.
  destruct (legacy_embedded_columns ["winder_qty"; "motor_qty"] (tickingClock 5)
              _ _ _ _ _ "motor_qty" Hl (Forall_nil_2 _) eq_refl Hrows Hkey
              ltac:(discriminate)) as (p & Hp & Hlook).
  exists p. split; [exact Hp|]. split; [|exact Hlook].
  rewrite Hlook. vm_compute. reflexivity.
Defined.

(** ** The legacy parser and its global *)

(** X17.  Where the global [initialState] is not bound, the legacy parser
    throws on every text that has a legacy header line, and [csvToData]
    answers null for every such text of fewer than four lines: no legacy
    text is read. *)
Theorem legacy_needs_initialState clock s :
  Exists (fun line => isLegacyHeader line = true) (linesOf s) ->
  csvToData_OldFormat None clock s = Throw /\
  ((length (linesOf s) < 4)%nat -> csvToData None clock s = Ret None).
Proof.
  intros Hex.
  assert (csvToData_OldFormat None clock s = Throw) as Hold.
  { unfold csvToData_OldFormat. fold (linesOf s).
    destruct (findIndex_some _ _ Hex) as [hi Hhi].
    unfold isLegacyHeader in Hhi. rewrite Hhi. reflexivity. }
  split; [exact Hold|]. intros Hlen.
  rewrite csvToData_short by exact Hlen. rewrite Hold. reflexivity.
Qed.

Lemma legacy_needs_initialState_witness :
  Exists (fun line => isLegacyHeader line = true)
    (linesOf (text ["#,Width,Height"; "1,600,900"])) /\
  (length (linesOf (text ["#,Width,Height"; "1,600,900"])) < 4)%nat /\
  csvToData_OldFormat None (tickingClock 5) (text ["#,Width,Height"; "1,600,900"])
  = Throw /\
  csvToData None (tickingClock 5) (text ["#,Width,Height"; "1,600,900"]) = Ret None.
Proof.
  assert (Exists (fun line => isLegacyHeader line = true)
            (linesOf (text ["#,Width,Height"; "1,600,900"]))) as Hex
    by (vm_compute; apply Exists_cons_hd; reflexivity).
  assert (length (linesOf (text ["#,Width,Height"; "1,600,900"])) < 4)%nat as Hlen
    by (vm_compute; lia).
  split; [exact Hex|]. split; [exact Hlen|].
  destruct (legacy_needs_initialState (tickingClock 5) _ Hex) as [Hold Hnew].
  split; [exact Hold|exact (Hnew Hlen)].
Defined.
